(** * vehiapp: the role gate and the vehicle registry it protects

    A shallow embedding of [vehiapp/models.py] and [vehiapp/views.py].
    Tables are lists of rows in storage order, views are functions in a
    state-and-exception monad over the relational store, the session and
    the flash messages.  The framework calls the views rely on
    ([login_required], [get_object_or_404], model forms, cascading
    deletes) are written out next to the code that uses them.

    A string is the UTF-8 text of a Python string.  The database is
    SQLite, the one a Django project starts with: the keys are
    AUTOINCREMENT columns, an integer column takes every integer of 64
    bits, and [LIKE] sets the case of the ASCII letters aside and of no
    other. *)

From Stdlib Require Import ZArith List String Ascii Bool Lia.
From Stdlib Require Import Permutation Sorted.
Import ListNotations.
Local Open Scope string_scope.
Local Open Scope Z_scope.
Local Open Scope list_scope.

(** ** Python strings *)

Module PyStr.

(** The lower case of the ASCII letters, every other byte kept: the case
    folding of SQLite's [LIKE], and [str.lower] on ASCII text.  A text
    that is not ASCII has a lower case that is not ASCII either, the
    Kelvin sign apart, whose lower case is the letter k: so [lower s]
    and [s.lower()] are equal to "admin", "staff" or "driver" together. *)
Definition lower_ascii (c : ascii) : ascii :=
  let n := nat_of_ascii c in
  if (65 <=? n)%nat && (n <=? 90)%nat then ascii_of_nat (n + 32) else c.

Fixpoint lower (s : string) : string :=
  match s with
  | EmptyString => EmptyString
  | String c s' => String (lower_ascii c) (lower s')
  end.

(** [str.isspace] on one ASCII character: tab to carriage return, the
    four separators 0x1c..0x1f and the blank. *)
Definition isspace (c : ascii) : bool :=
  let n := nat_of_ascii c in
  ((9 <=? n)%nat && (n <=? 13)%nat)
  || ((28 <=? n)%nat && (n <=? 31)%nat)
  || (n =? 32)%nat.

(** A string is the UTF-8 text of the Python string.  [space_width s] is
    the number of bytes of the white-space character [s] starts with, and
    0 when it starts with none.  Beside the ASCII ones these are U+0085,
    U+00A0, U+1680, U+2000 to U+200A, U+2028, U+2029, U+202F, U+205F and
    U+3000. *)
Definition space_width (s : string) : nat :=
  match s with
  | EmptyString => 0
  | String c s1 =>
      if isspace c then 1
      else
        let b1 := nat_of_ascii c in
        match s1 with
        | EmptyString => 0
        | String c2 s2 =>
            let b2 := nat_of_ascii c2 in
            if (b1 =? 194)%nat then
              if (b2 =? 133)%nat || (b2 =? 160)%nat then 2 else 0
            else
              match s2 with
              | EmptyString => 0
              | String c3 _ =>
                  let b3 := nat_of_ascii c3 in
                  if (b1 =? 225)%nat then
                    if (b2 =? 154)%nat && (b3 =? 128)%nat then 3 else 0
                  else if (b1 =? 226)%nat then
                    if ((b2 =? 128)%nat
                        && (((128 <=? b3)%nat && (b3 <=? 138)%nat)
                            || (b3 =? 168)%nat || (b3 =? 169)%nat
                            || (b3 =? 175)%nat))
                       || ((b2 =? 129)%nat && (b3 =? 159)%nat)
                    then 3 else 0
                  else if (b1 =? 227)%nat then
                    if (b2 =? 128)%nat && (b3 =? 128)%nat then 3 else 0
                  else 0
              end
        end
  end.

(** [lstrip_from skip s] drops [skip] bytes and then every white-space
    character [s] goes on with. *)
Fixpoint lstrip_from (skip : nat) (s : string) {struct s} : string :=
  match s with
  | EmptyString => EmptyString
  | String _ s' =>
      match skip with
      | S k => lstrip_from k s'
      | O =>
          match space_width s with
          | O => s
          | S k => lstrip_from k s'
          end
      end
  end.

Definition lstrip (s : string) : string := lstrip_from 0 s.

(** The text is white space throughout. *)
Definition blank (s : string) : bool :=
  match lstrip s with EmptyString => true | String _ _ => false end.

(** [rstrip] cuts the text where only white space follows. *)
Fixpoint rstrip (s : string) : string :=
  match s with
  | EmptyString => EmptyString
  | String c s' => if blank s then EmptyString else String c (rstrip s')
  end.

Definition strip (s : string) : string := rstrip (lstrip s).

(** [len(s)] : the number of characters, the continuation bytes of the
    UTF-8 text not counted. *)
Fixpoint len (s : string) : nat :=
  match s with
  | EmptyString => 0
  | String c s' =>
      let n := nat_of_ascii c in
      if (128 <=? n)%nat && (n <? 192)%nat then len s' else S (len s')
  end.

(** The payload of a continuation byte of UTF-8. *)
Definition continuation (c : ascii) : option Z :=
  let n := Z.of_nat (nat_of_ascii c) in
  if (128 <=? n) && (n <? 192) then Some (n - 128) else None.

(** The code point the text starts with and the number of its bytes. *)
Definition decode (s : string) : option (Z * nat) :=
  match s with
  | EmptyString => None
  | String c s1 =>
      let b := Z.of_nat (nat_of_ascii c) in
      if b <? 128 then Some (b, 1%nat)
      else
        match s1 with
        | EmptyString => None
        | String c2 s2 =>
            match continuation c2 with
            | None => None
            | Some x2 =>
                if (194 <=? b) && (b <? 224) then
                  Some ((b - 192) * 64 + x2, 2%nat)
                else
                  match s2 with
                  | EmptyString => None
                  | String c3 s3 =>
                      match continuation c3 with
                      | None => None
                      | Some x3 =>
                          if (224 <=? b) && (b <? 240) then
                            Some (((b - 224) * 64 + x2) * 64 + x3, 3%nat)
                          else
                            match s3 with
                            | EmptyString => None
                            | String c4 _ =>
                                match continuation c4 with
                                | None => None
                                | Some x4 =>
                                    if (240 <=? b) && (b <? 245) then
                                      Some ((((b - 240) * 64 + x2) * 64 + x3) * 64 + x4,
                                            4%nat)
                                    else None
                                end
                            end
                      end
                  end
            end
        end
  end.

(** The code points of the digit zero of every decimal number system of
    the Unicode database (version 14); each is followed by its one to
    nine. *)
Definition decimal_zeros : list Z :=
  [48; 1632; 1776; 1984; 2406; 2534; 2662; 2790; 2918; 3046; 3174; 3302;
   3430; 3558; 3664; 3792; 3872; 4160; 4240; 6112; 6160; 6470; 6608; 6784;
   6800; 6992; 7088; 7232; 7248; 42528; 43216; 43264; 43472; 43504; 43600;
   44016; 65296; 66720; 68912; 69734; 69872; 69942; 70096; 70384; 70736;
   70864; 71248; 71360; 71472; 71904; 72016; 72784; 73040; 73120; 92768;
   92864; 93008; 120782; 120792; 120802; 120812; 120822; 123200; 123632;
   125264; 130032].

(** [unicodedata.decimal] of a code point. *)
Definition to_decimal (cp : Z) : option Z :=
  match find (fun z => (z <=? cp) && (cp <=? z + 9)) decimal_zeros with
  | Some z => Some (cp - z)
  | None => None
  end.

(** What [int] and [float] do to a text before they read it: an ASCII
    character is kept, any other white space becomes a blank, any other
    decimal digit its ASCII digit, and the text ends in a question mark
    at the first character that is none of these. *)
Fixpoint to_ascii_decimal_from (skip : nat) (s : string) {struct s} : string :=
  match s with
  | EmptyString => EmptyString
  | String c s' =>
      match skip with
      | S k => to_ascii_decimal_from k s'
      | O =>
          if (nat_of_ascii c <? 127)%nat then String c (to_ascii_decimal_from 0 s')
          else
            match space_width s with
            | S k => String " " (to_ascii_decimal_from k s')
            | O =>
                match decode s with
                | Some (cp, w) =>
                    match to_decimal cp with
                    | Some d =>
                        String (ascii_of_nat (48 + Z.to_nat d))
                               (to_ascii_decimal_from (pred w) s')
                    | None => "?"
                    end
                | None => "?"
                end
            end
      end
  end.

Definition to_ascii_decimal (s : string) : string := to_ascii_decimal_from 0 s.

(** The functions the Unicode database stands behind and the views call
    on text a request brings: [unicodedata.normalize("NFKC", s)] and
    [str.lower]. *)
Record Unicode := mkUnicode {
  NFKC : string -> string;
  str_lower : string -> string
}.

(** Truth value of a string: the empty string is falsy. *)
Definition truthy (s : string) : bool :=
  match s with EmptyString => false | _ => true end.

(** [x or ""] where [x] is a string or [None]. *)
Definition or_empty (x : option string) : string :=
  match x with
  | Some s => if truthy s then s else ""
  | None => ""
  end.

(** [needle in hay] for two strings. *)
Fixpoint contains (hay needle : string) : bool :=
  String.prefix needle hay
  || match hay with
     | EmptyString => false
     | String _ hay' => contains hay' needle
     end.

(** The ORM lookup [field__icontains=q], a [LIKE] of the database. *)
Definition icontains (field q : string) : bool :=
  contains (lower field) (lower q).

(** The ORM lookup [field__iexact=q], a [LIKE] of the database. *)
Definition iexact (field q : string) : bool :=
  String.eqb (lower field) (lower q).

(** [x == s] where [x] may be [None]. *)
Definition eq_str (x : option string) (s : string) : bool :=
  match x with
  | None => false
  | Some x' => String.eqb x' s
  end.

(** [x is None] *)
Definition is_None {A} (x : option A) : bool :=
  match x with None => true | Some _ => false end.

(** [x in xs] where [x] may be [None] and [xs] is a tuple of strings. *)
Definition in_tuple (x : option string) (xs : list string) : bool :=
  match x with
  | None => false
  | Some s => existsb (String.eqb s) xs
  end.

End PyStr.

(** ** models.py *)

Module User.
(** [django.contrib.auth.models.User], the columns the views read. *)
Record t := mk {
  id : Z;
  username : string;
  password : string;
  email : string;
  is_superuser : bool;
  is_active : bool
}.
End User.

Module Profile.
Record t := mk {
  id : Z;
  user_id : Z;          (* OneToOneField(User, on_delete=CASCADE) *)
  role : string
}.

Definition ROLE_CHOICES : list string := ["admin"; "staff"; "driver"].
End Profile.

Module Vehicle.
(** Coordinates are decimals with six places, kept as millionths of a
    degree; the timestamp is a number of seconds.  [id] is [None] on an
    instance that has not been saved yet. *)
Record t := mk {
  id : option Z;
  registration_no : string;      (* unique=True *)
  make : string;
  model : string;
  year : option Z;
  status : string;
  current_driver_id : option Z;  (* ForeignKey(User, on_delete=SET_NULL) *)
  latitude : option Z;
  longitude : option Z;
  last_location_time : option Z
}.

Definition STATUS_CHOICES : list string := ["active"; "inactive"; "maintenance"].

(** [Vehicle()] : a fresh instance with the field defaults. *)
Definition new : t :=
  mk None "" "" "" None "active" None None None None.
End Vehicle.

Module MaintenanceLog.
Record t := mk {
  id : Z;
  vehicle_id : Z;            (* ForeignKey(Vehicle, on_delete=CASCADE) *)
  description : string;
  date : Z;
  next_due : option Z;
  created_by_id : option Z   (* ForeignKey(User, on_delete=SET_NULL) *)
}.
End MaintenanceLog.

Module FuelLog.
Record t := mk {
  id : Z;
  vehicle_id : Z;            (* ForeignKey(Vehicle, on_delete=CASCADE) *)
  date : Z;
  liters : Z;
  cost : Z;
  odometer : option Z;
  created_by_id : option Z   (* ForeignKey(User, on_delete=SET_NULL) *)
}.
End FuelLog.

(** ** The relational store and the ORM calls the views make *)

Module Orm.

(** [sqlite_sequence] : for each table the views insert into, the
    largest key a row of it ever had.  The keys are AUTOINCREMENT
    columns: a key that was given out is not given out again, also when
    its row is gone. *)
Record Sequences := mkSeq {
  seq_user : Z;
  seq_profile : Z;
  seq_vehicle : Z
}.

Record Store := mkStore {
  users : list User.t;
  profiles : list Profile.t;
  vehicles : list Vehicle.t;
  maintenance_logs : list MaintenanceLog.t;
  fuel_logs : list FuelLog.t;
  sqlite_sequence : Sequences
}.

Definition opt_Z_eqb (a b : option Z) : bool :=
  match a, b with
  | Some x, Some y => x =? y
  | None, None => true
  | _, _ => false
  end.

(** [user.profile] : the reverse side of the one-to-one field; [None]
    stands for [RelatedObjectDoesNotExist]. *)
Definition profile_of (db : Store) (u : User.t) : option Profile.t :=
  find (fun p => Profile.user_id p =? User.id u) (profiles db).

Definition get_user (db : Store) (pk : Z) : option User.t :=
  find (fun u => User.id u =? pk) (users db).

Definition get_profile (db : Store) (pk : Z) : option Profile.t :=
  find (fun p => Profile.id p =? pk) (profiles db).

Definition get_vehicle (db : Store) (pk : Z) : option Vehicle.t :=
  find (fun v => opt_Z_eqb (Vehicle.id v) (Some pk)) (vehicles db).

(** [User.objects.filter(profile__role__iexact="driver")] *)
Definition driver_qs (db : Store) : list User.t :=
  filter (fun u =>
            existsb (fun p => (Profile.user_id p =? User.id u)
                              && PyStr.iexact (Profile.role p) "driver")
                    (profiles db))
         (users db).

(** [SET_NULL] on [Vehicle.current_driver]. *)
Definition null_driver (uid : Z) (v : Vehicle.t) : Vehicle.t :=
  if opt_Z_eqb (Vehicle.current_driver_id v) (Some uid)
  then Vehicle.mk (Vehicle.id v) (Vehicle.registration_no v) (Vehicle.make v)
                  (Vehicle.model v) (Vehicle.year v) (Vehicle.status v) None
                  (Vehicle.latitude v) (Vehicle.longitude v)
                  (Vehicle.last_location_time v)
  else v.

(** [SET_NULL] on [MaintenanceLog.created_by]. *)
Definition null_mcreator (uid : Z) (m : MaintenanceLog.t) : MaintenanceLog.t :=
  if opt_Z_eqb (MaintenanceLog.created_by_id m) (Some uid)
  then MaintenanceLog.mk (MaintenanceLog.id m) (MaintenanceLog.vehicle_id m)
                         (MaintenanceLog.description m) (MaintenanceLog.date m)
                         (MaintenanceLog.next_due m) None
  else m.

(** [SET_NULL] on [FuelLog.created_by]. *)
Definition null_fcreator (uid : Z) (f : FuelLog.t) : FuelLog.t :=
  if opt_Z_eqb (FuelLog.created_by_id f) (Some uid)
  then FuelLog.mk (FuelLog.id f) (FuelLog.vehicle_id f) (FuelLog.date f)
                  (FuelLog.liters f) (FuelLog.cost f) (FuelLog.odometer f) None
  else f.

(** [user.delete()] : the row goes, the profile cascades, the driver and
    creator references are set to null (the [on_delete] of models.py). *)
Definition delete_user (uid : Z) (db : Store) : Store :=
  mkStore
    (filter (fun u => negb (User.id u =? uid)) (users db))
    (filter (fun p => negb (Profile.user_id p =? uid)) (profiles db))
    (map (null_driver uid) (vehicles db))
    (map (null_mcreator uid) (maintenance_logs db))
    (map (null_fcreator uid) (fuel_logs db))
    (sqlite_sequence db).

(** [profile.delete()] for a profile instance whose primary key is [pk]:
    a [DELETE ... WHERE id = pk], harmless when the row is gone. *)
Definition delete_profile_row (pk : Z) (db : Store) : Store :=
  mkStore (users db)
          (filter (fun p => negb (Profile.id p =? pk)) (profiles db))
          (vehicles db) (maintenance_logs db) (fuel_logs db)
          (sqlite_sequence db).

Definition set_vehicles (vs : list Vehicle.t) (db : Store) : Store :=
  mkStore (users db) (profiles db) vs (maintenance_logs db) (fuel_logs db)
          (sqlite_sequence db).

(** The next value of the auto-increment key: one more than the largest
    key the table holds or ever held. *)
Definition next_vehicle_id (db : Store) : Z :=
  1 + Z.max (seq_vehicle (sqlite_sequence db))
            (fold_right (fun v acc => match Vehicle.id v with
                                      | Some i => Z.max i acc
                                      | None => acc
                                      end) 0 (vehicles db)).

(** An INSERT with the key [i] leaves its mark in [sqlite_sequence]. *)
Definition seen_vehicle_id (i : Z) (db : Store) : Store :=
  let seq := sqlite_sequence db in
  mkStore (users db) (profiles db) (vehicles db) (maintenance_logs db)
          (fuel_logs db)
          (mkSeq (seq_user seq) (seq_profile seq) (Z.max (seq_vehicle seq) i)).

Definition with_id (i : Z) (v : Vehicle.t) : Vehicle.t :=
  Vehicle.mk (Some i) (Vehicle.registration_no v) (Vehicle.make v)
             (Vehicle.model v) (Vehicle.year v) (Vehicle.status v)
             (Vehicle.current_driver_id v) (Vehicle.latitude v)
             (Vehicle.longitude v) (Vehicle.last_location_time v).

(** [instance.save()] : an UPDATE of the row with the instance's key when
    there is one, an INSERT otherwise.  Returns the saved instance. *)
Definition save_vehicle (inst : Vehicle.t) (db : Store) : Vehicle.t * Store :=
  match Vehicle.id inst with
  | Some pk =>
      match get_vehicle db pk with
      | Some _ =>
          (inst,
           set_vehicles
             (map (fun v => if opt_Z_eqb (Vehicle.id v) (Some pk) then inst else v)
                  (vehicles db)) db)
      | None =>
          (inst, set_vehicles (vehicles db ++ [inst]) (seen_vehicle_id pk db))
      end
  | None =>
      let pk := next_vehicle_id db in
      let inst' := with_id pk inst in
      (inst', set_vehicles (vehicles db ++ [inst']) (seen_vehicle_id pk db))
  end.

End Orm.

(** ** Requests, responses and the monad the views run in *)

Module Http.

Inductive Method := GET | POST.

(** [request.user] : the anonymous user, or a row of [auth_user]. *)
Inductive RequestUser :=
| AnonymousUser
| Authenticated (u : User.t).

(** A [QueryDict]; [get] answers with the last value sent for the key. *)
Definition QueryDict := list (string * string).

Fixpoint qd_get (d : QueryDict) (key : string) : option string :=
  match d with
  | [] => None
  | (k, v) :: d' =>
      match qd_get d' key with
      | Some v' => Some v'
      | None => if String.eqb k key then Some v else None
      end
  end.

(** [d.get(key, default)] *)
Definition qd_get_default (d : QueryDict) (key default : string) : string :=
  match qd_get d key with Some v => v | None => default end.

Record HttpRequest := mkRequest {
  method : Method;
  path : string;
  user : RequestUser;
  GET_ : QueryDict;
  POST_ : QueryDict
}.

Inductive ErrorCode :=
| required | max_length | null_characters_not_allowed | invalid
| min_value | max_value | invalid_choice | unique.

(** The [ValidationError] of one field: its validators are all run, so
    it carries one code or more. *)
Definition ErrorList := (ErrorCode * list ErrorCode)%type.

(** [form.errors] : field name and error code, in the order raised. *)
Definition FormErrors := list (string * ErrorCode).

(** One element of the JSON location feed.  [lat] and [lng] carry
    [float(lat)] and [float(lng)] as millionths of a degree, [updated]
    the instant whose ISO-8601 text is sent. *)
Record TrackEntry := mkEntry {
  e_id : option Z;
  e_reg : string;
  e_make : string;
  e_model : string;
  e_status : string;
  e_driver : option string;
  e_lat : Z;
  e_lng : Z;
  e_updated : option Z
}.

Record Stats := mkStats { total : Z; assigned : Z; maintenance : Z }.

Record ChartData := mkChart {
  total_vehicles : Z;
  c_assigned : Z;
  not_assigned : Z;
  under_maintenance : Z;
  active : Z
}.

(** The template contexts the views build. *)
Inductive Context :=
| CtxEmpty
| CtxError (error : string)
| CtxForm (errors : FormErrors)
| CtxVehicleForm (errors : FormErrors) (vehicle : Vehicle.t)
| CtxList (vehicles : list Vehicle.t) (q status_active : string) (stats : Stats)
| CtxDetail (vehicle : Vehicle.t) (maintenance : list MaintenanceLog.t)
            (fuel_logs : list FuelLog.t)
| CtxDashboard (vehicles : list Vehicle.t) (profiles : list Profile.t)
               (maintenance_logs : list MaintenanceLog.t)
               (fuel_logs : list FuelLog.t) (chart_data : ChartData).

Inductive HttpResponse :=
| Render (template : string) (ctx : Context) (status : Z)
| Redirect (route : string) (next : option string)
| JsonResponse (vehicles : list TrackEntry).

Inductive exn :=
| PermissionDenied
| Http404
| DoesNotExist
| ValueError
| IntegrityError
| GeocoderError.

Inductive result (A : Type) :=
| Ok (a : A)
| Raise (e : exn).
Arguments Ok {A} a.
Arguments Raise {A} e.

(** What a request can change: the store, the session's user key and the
    queued flash messages. *)
Record World := mkWorld {
  db : Orm.Store;
  session : option Z;
  messages : list string
}.

Definition M (A : Type) : Type := World -> result A * World.

Definition ret {A} (a : A) : M A := fun w => (Ok a, w).

Definition raise {A} (e : exn) : M A := fun w => (Raise e, w).

Definition bind {A B} (m : M A) (k : A -> M B) : M B :=
  fun w => match m w with
           | (Ok a, w') => k a w'
           | (Raise e, w') => (Raise e, w')
           end.

(** [try: m except Exception: h] *)
Definition try_except {A} (m : M A) (h : exn -> M A) : M A :=
  fun w => match m w with
           | (Ok a, w') => (Ok a, w')
           | (Raise e, w') => h e w'
           end.

Definition lift {A} (r : result A) : M A := fun w => (r, w).

Definition read_db : M Orm.Store := fun w => (Ok (db w), w).

Definition write_db (f : Orm.Store -> Orm.Store) : M unit :=
  fun w => (Ok tt, mkWorld (f (db w)) (session w) (messages w)).

(** [messages.success(request, text)] *)
Definition messages_success (text : string) : M unit :=
  fun w => (Ok tt, mkWorld (db w) (session w) (messages w ++ [text])).

(** [login(request, user)] and [logout(request)] *)
Definition login (u : User.t) : M unit :=
  fun w => (Ok tt, mkWorld (db w) (Some (User.id u)) (messages w)).

Definition logout : M unit :=
  fun w => (Ok tt, mkWorld (db w) None (messages w)).

Definition View := HttpRequest -> M HttpResponse.

(** [render(request, template, context)] *)
Definition render (template : string) (ctx : Context) : M HttpResponse :=
  ret (Render template ctx 200).

(** [redirect(route_name)] *)
Definition redirect (route : string) : M HttpResponse :=
  ret (Redirect route None).

(** [get_object_or_404] *)
Definition get_object_or_404 {A} (o : option A) : M A :=
  match o with
  | Some a => ret a
  | None => raise Http404
  end.

End Http.

Notation "x <- m ;; k" := (Http.bind m (fun x => k))
  (at level 61, m at next level, right associativity).
Notation "m ;;; k" := (Http.bind m (fun _ => k))
  (at level 61, right associativity).

(** ** Query sets: ordering *)

Module Query.

Fixpoint insert_by {A} (le : A -> A -> bool) (x : A) (l : list A) : list A :=
  match l with
  | [] => [x]
  | y :: l' => if le x y then x :: l else y :: insert_by le x l'
  end.

(** [qs.order_by(key)] : a stable sort of the rows by [le]. *)
Definition order_by {A} (le : A -> A -> bool) (l : list A) : list A :=
  fold_right (insert_by le) [] l.

(** [count()] *)
Definition count {A} (l : list A) : Z := Z.of_nat (List.length l).

Definition is_some {A} (o : option A) : bool :=
  match o with Some _ => true | None => false end.

End Query.

(** ** The forms of views.py *)

Module Forms.
Import PyStr Http Orm.

Definition digit_val (c : ascii) : option Z :=
  let n := nat_of_ascii c in
  if (48 <=? n)%nat && (n <=? 57)%nat then Some (Z.of_nat (n - 48)) else None.

(** The white space [int] skips around the number: tab to carriage
    return and the blank. *)
Definition Py_ISSPACE (c : ascii) : bool :=
  let n := nat_of_ascii c in
  ((9 <=? n)%nat && (n <=? 13)%nat) || (n =? 32)%nat.

Fixpoint skip_spaces (s : string) : string :=
  match s with
  | EmptyString => EmptyString
  | String c s' => if Py_ISSPACE c then skip_spaces s' else s
  end.

(** The digits of a number, single underscores allowed between them:
    the value read so far, the number of digits and the text left.
    [underscore] tells that a digit has to come next. *)
Fixpoint scan_digits (s : string) (acc : Z) (digits : nat) (underscore : bool)
  : option (Z * nat * string) :=
  match s with
  | EmptyString => if underscore then None else Some (acc, digits, EmptyString)
  | String c s' =>
      if Ascii.eqb c "_" then
        if underscore then None else scan_digits s' acc digits true
      else
        match digit_val c with
        | Some d => scan_digits s' (10 * acc + d) (S digits) false
        | None => if underscore then None else Some (acc, digits, s)
        end
  end.

(** [sys.get_int_max_str_digits()] *)
Definition int_max_str_digits : nat := 4300.

(** [int(text)] : white space, a sign, decimal digits, white space;
    [None] is [ValueError]. *)
Definition parse_int (s : string) : option Z :=
  let text := skip_spaces (to_ascii_decimal s) in
  let (negative, text) :=
    match text with
    | String "-" r => (true, r)
    | String "+" r => (false, r)
    | _ => (false, text)
    end in
  match scan_digits text 0 0 true with
  | Some (n, digits, rest) =>
      if (int_max_str_digits <? digits)%nat then None
      else
        match skip_spaces rest with
        | EmptyString => Some (if negative then - n else n)
        | String _ _ => None
        end
  | None => None
  end.

Definition one (e : ErrorCode) : ErrorList := (e, []).

(** [forms.CharField(max_length, required)] : the value is stripped, an
    empty value is an error only when required, then the validators of
    the length and of the null character. *)
Definition clean_char (max_len : option nat) (req : bool)
           (raw : option string) : string + ErrorList :=
  let value := strip (or_empty raw) in
  if truthy value then
    let too_long :=
      match max_len with
      | Some n => (n <? len value)%nat
      | None => false
      end in
    let null := contains value (String zero EmptyString) in
    if too_long then
      inr (max_length, if null then [null_characters_not_allowed] else [])
    else if null then inr (one null_characters_not_allowed)
    else inl value
  else if req then inr (one required) else inl "".

Fixpoint drop_zeros (s : string) : string :=
  match s with
  | String "0" s' => drop_zeros s'
  | _ => s
  end.

(** [re.sub(r"\.0*\s*$", "", text)] : a point with nothing but zeros
    and then white space behind it goes, with what follows it. *)
Fixpoint re_decimal_sub (s : string) : string :=
  match s with
  | EmptyString => EmptyString
  | String c s' =>
      if Ascii.eqb c "." && blank (drop_zeros s') then EmptyString
      else String c (re_decimal_sub s')
  end.

(** The form field of [year] : an optional integer, not below zero. *)
Definition clean_year (raw : option string) : option Z + ErrorList :=
  let value := or_empty raw in
  if truthy value then
    match parse_int (re_decimal_sub value) with
    | Some n => if n <? 0 then inr (one min_value) else inl (Some n)
    | None => inr (one invalid)
    end
  else inl None.

(** The form field of [status] : a required choice. *)
Definition clean_status (raw : option string) : string + ErrorList :=
  let value := or_empty raw in
  if truthy value then
    if existsb (String.eqb value) Vehicle.STATUS_CHOICES
    then inl value else inr (one invalid_choice)
  else inr (one required).

(** The form field of [current_driver] : optional, and when given the
    key of a row of the driver query set. *)
Definition clean_current_driver (db : Store) (raw : option string)
  : option Z + ErrorList :=
  let value := or_empty raw in
  if truthy value then
    match parse_int value with
    | Some pk =>
        match find (fun u => User.id u =? pk) (driver_qs db) with
        | Some u => inl (Some (User.id u))
        | None => inr (one invalid_choice)
        end
    | None => inr (one invalid_choice)
    end
  else inl None.

Definition field_errors {A} (name : string) (c : A + ErrorList) : FormErrors :=
  match c with
  | inl _ => []
  | inr (e, es) => (name, e) :: map (pair name) es
  end.

(** [construct_instance] sets a model field from a cleaned value and
    leaves it alone when the form field failed. *)
Definition assign {A} (c : A + ErrorList) (old : A) : A :=
  match c with
  | inl v => v
  | inr _ => old
  end.

(** The largest integer a column of the database holds.  The database
    is SQLite, a signed integer of 64 bits whatever the type of the
    column. *)
Definition integer_field_max : Z := 9223372036854775807.

(** The model validator of [PositiveSmallIntegerField], run by
    [full_clean] on a field the form accepted: the bound is the one the
    database gives for the type of the column. *)
Definition year_model_errors (year : option Z + ErrorList) : FormErrors :=
  match year with
  | inl (Some n) =>
      if integer_field_max <? n then [("year", max_value)] else []
  | _ => []
  end.

(** [validate_unique] for [registration_no], skipped when the form field
    failed; an instance that is already stored does not clash with
    itself. *)
Definition unique_errors (db : Store) (instance : Vehicle.t)
           (registration_no : string + ErrorList) : FormErrors :=
  match registration_no with
  | inr _ => []
  | inl value =>
      let qs := filter (fun v => String.eqb (Vehicle.registration_no v) value)
                       (vehicles db) in
      let qs := match Vehicle.id instance with
                | Some pk => filter (fun v => negb (opt_Z_eqb (Vehicle.id v) (Some pk))) qs
                | None => qs
                end in
      match qs with
      | [] => []
      | _ :: _ => [("registration_no", unique)]
      end
  end.

(** A bound model form after [full_clean]. *)
Record BoundForm := mkForm {
  errors : FormErrors;
  instance : Vehicle.t;
  cleaned_place_name : string
}.

Definition is_valid (form : BoundForm) : bool :=
  match errors form with [] => true | _ :: _ => false end.

(** [VehicleForm(data, instance=instance)] followed by [full_clean]. *)
Definition VehicleForm (db : Store) (data : QueryDict) (inst : Vehicle.t)
  : BoundForm :=
  let registration_no := clean_char (Some 30%nat) true (qd_get data "registration_no") in
  let make := clean_char (Some 50%nat) false (qd_get data "make") in
  let model := clean_char (Some 50%nat) false (qd_get data "model") in
  let year := clean_year (qd_get data "year") in
  let status := clean_status (qd_get data "status") in
  let current_driver := clean_current_driver db (qd_get data "current_driver") in
  let place_name := clean_char None false (qd_get data "place_name") in
  let inst' :=
    Vehicle.mk (Vehicle.id inst)
               (assign registration_no (Vehicle.registration_no inst))
               (assign make (Vehicle.make inst))
               (assign model (Vehicle.model inst))
               (assign year (Vehicle.year inst))
               (assign status (Vehicle.status inst))
               (assign current_driver (Vehicle.current_driver_id inst))
               (Vehicle.latitude inst) (Vehicle.longitude inst)
               (Vehicle.last_location_time inst) in
  mkForm (field_errors "registration_no" registration_no
          ++ field_errors "make" make
          ++ field_errors "model" model
          ++ field_errors "year" year
          ++ field_errors "status" status
          ++ field_errors "current_driver" current_driver
          ++ field_errors "place_name" place_name
          ++ year_model_errors year
          ++ unique_errors db inst' registration_no)
         inst'
         (assign place_name "").

(** [AssignVehicleForm(data, instance=instance)] followed by
    [full_clean] : the form has the two fields of its [Meta]. *)
Definition AssignVehicleForm (db : Store) (data : QueryDict) (inst : Vehicle.t)
  : BoundForm :=
  let current_driver := clean_current_driver db (qd_get data "current_driver") in
  let status := clean_status (qd_get data "status") in
  let inst' :=
    Vehicle.mk (Vehicle.id inst) (Vehicle.registration_no inst)
               (Vehicle.make inst) (Vehicle.model inst) (Vehicle.year inst)
               (assign status (Vehicle.status inst))
               (assign current_driver (Vehicle.current_driver_id inst))
               (Vehicle.latitude inst) (Vehicle.longitude inst)
               (Vehicle.last_location_time inst) in
  mkForm (field_errors "current_driver" current_driver
          ++ field_errors "status" status)
         inst' "".

(** What lies outside the program: whether [geopy] could be imported,
    the geocoder and the clock. *)
Record Env := mkEnv {
  _GEOCODER_AVAILABLE : bool;
  Nominatim : string -> result unit;
  geocode : string -> result (option (Z * Z));
  timezone_now : Z
}.

Definition set_location (lat lng now : Z) (v : Vehicle.t) : Vehicle.t :=
  Vehicle.mk (Vehicle.id v) (Vehicle.registration_no v) (Vehicle.make v)
             (Vehicle.model v) (Vehicle.year v) (Vehicle.status v)
             (Vehicle.current_driver_id v) (Some lat) (Some lng) (Some now).

(** [instance.save()] in the monad. *)
Definition Model_save (inst : Vehicle.t) : M Vehicle.t :=
  fun w => let (saved, db') := save_vehicle inst (db w) in
           (Ok saved, mkWorld db' (session w) (messages w)).

(** [ModelForm.save(commit)] : refuses a form with errors. *)
Definition ModelForm_save (self : BoundForm) (commit : bool) : M Vehicle.t :=
  if is_valid self then
    if commit then Model_save (instance self) else ret (instance self)
  else raise ValueError.

(** [VehicleForm.save] *)
Definition VehicleForm_save (env : Env) (self : BoundForm) (commit : bool)
  : M Vehicle.t :=
  inst <- ModelForm_save self false ;;
  let place := cleaned_place_name self in
  inst <- (if truthy place && _GEOCODER_AVAILABLE env then
             try_except
               (_ <- lift (Nominatim env "vehicle_fleet_system") ;;
                loc <- lift (geocode env place) ;;
                match loc with
                | Some (lat, lng) =>
                    ret (set_location lat lng (timezone_now env) inst)
                | None => ret inst
                end)
               (fun e => ret inst)
           else ret inst) ;;
  if commit then Model_save inst else ret inst.

End Forms.

(** ** views.py *)

Module Views.
Import PyStr Http Orm Query Forms.

Definition user_is_superuser (user : RequestUser) : bool :=
  match user with
  | AnonymousUser => false
  | Authenticated u => User.is_superuser u
  end.

Definition is_authenticated (user : RequestUser) : bool :=
  match user with
  | AnonymousUser => false
  | Authenticated _ => true
  end.

(** [request.user.id] *)
Definition user_id (user : RequestUser) : option Z :=
  match user with
  | AnonymousUser => None
  | Authenticated u => Some (User.id u)
  end.

Definition is_app_admin (db : Store) (user : RequestUser) : bool :=
  match user with
  | AnonymousUser => false
  | Authenticated u =>
      if User.is_superuser u then true
      else match profile_of db u with
           | Some p => String.eqb (lower (or_empty (Some (Profile.role p)))) "admin"
           | None => false
           end
  end.

(** The normalized role, or [None] when reading the profile raises. *)
Definition get_user_role (db : Store) (user : RequestUser) : option string :=
  match user with
  | AnonymousUser => None
  | Authenticated u =>
      match profile_of db u with
      | Some p => Some (lower (or_empty (Some (Profile.role p))))
      | None => None
      end
  end.

(** [login_required(login_url=...)] : an anonymous request is sent to the
    login route with the path it asked for. *)
Definition login_required (login_url : string) (view_func : View) : View :=
  fun request =>
    if is_authenticated (user request) then view_func request
    else ret (Redirect login_url (Some (path request))).

Definition role_required (allowed_roles : list (option string))
           (view_func : View) : View :=
  let allowed_roles := map (fun r => lower (or_empty r)) allowed_roles in
  login_required "login"
    (fun request =>
       db <- read_db ;;
       if user_is_superuser (user request) || is_app_admin db (user request)
       then view_func request
       else
         let role := get_user_role db (user request) in
         if in_tuple role allowed_roles then view_func request
         else raise PermissionDenied).

(** [authenticate] : the credential store is a black box that answers
    with the active user of that name when the password is the stored
    one. *)
Definition authenticate (db : Store) (username password : string)
  : option User.t :=
  match find (fun u => String.eqb (User.username u) username) (users db) with
  | Some u =>
      if String.eqb (User.password u) password && User.is_active u
      then Some u else None
  | None => None
  end.

Definition login_view : View :=
  fun request =>
    match method request with
    | POST =>
        let username := strip (qd_get_default (POST_ request) "username" "") in
        let password := qd_get_default (POST_ request) "password" "" in
        db <- read_db ;;
        match authenticate db username password with
        | None => render "login.html" (CtxError "Invalid credentials")
        | Some user =>
            login user ;;;
            let role := get_user_role db (Authenticated user) in
            if eq_str role "admin" || (is_None role && User.is_superuser user)
            then redirect "admin_dashboard"
            else if eq_str role "staff" then redirect "staff_dashboard"
            else if eq_str role "driver" then redirect "driver_dashboard"
            else
              logout ;;;
              render "login.html" (CtxError "Role not assigned to this user.")
        end
    | GET => render "login.html" CtxEmpty
    end.

Definition admin_dashboard : View :=
  role_required [Some "admin"]
    (fun request =>
       db <- read_db ;;
       let vehicles := vehicles db in
       let total_vehicles := count vehicles in
       let assigned :=
         count (filter (fun v => is_some (Vehicle.current_driver_id v)) vehicles) in
       let not_assigned :=
         count (filter (fun v => negb (is_some (Vehicle.current_driver_id v)))
                       vehicles) in
       let under_maintenance :=
         count (filter (fun v => String.eqb (Vehicle.status v) "maintenance")
                       vehicles) in
       let active :=
         count (filter (fun v => String.eqb (Vehicle.status v) "active") vehicles) in
       render "admin/admin_dashboard.html"
              (CtxDashboard vehicles (profiles db) (maintenance_logs db)
                            (fuel_logs db)
                            (mkChart total_vehicles assigned not_assigned
                                     under_maintenance active))).

Definition delete_profile (pk : Z) : View :=
  role_required [Some "admin"]
    (fun request =>
       db <- read_db ;;
       profile <- get_object_or_404 (get_profile db pk) ;;
       (* [profile.user] : reading the related row *)
       user <- match get_user db (Profile.user_id profile) with
               | Some u => ret u
               | None => raise DoesNotExist
               end ;;
       write_db (delete_user (User.id user)) ;;;
       write_db (delete_profile_row (Profile.id profile)) ;;;
       messages_success "User deleted successfully." ;;;
       redirect "admin_dashboard").

Definition add_vehicle (env : Env) : View :=
  role_required [Some "admin"; Some "staff"]
    (fun request =>
       match method request with
       | POST =>
           db <- read_db ;;
           let form := VehicleForm db (POST_ request) Vehicle.new in
           if is_valid form then
             VehicleForm_save env form true ;;;
             messages_success "Vehicle added." ;;;
             redirect "vehicle_list"
           else render "vehicles/add.html" (CtxForm (errors form))
       | GET => render "vehicles/add.html" (CtxForm [])
       end).

Definition reg_le (a b : Vehicle.t) : bool :=
  String.leb (Vehicle.registration_no a) (Vehicle.registration_no b).

Definition vehicle_list : View :=
  role_required [Some "admin"; Some "staff"]
    (fun request =>
       db <- read_db ;;
       let qs := vehicles db in
       let q := strip (or_empty (qd_get (GET_ request) "q")) in
       let status := strip (or_empty (qd_get (GET_ request) "status")) in
       let qs :=
         if truthy q then
           filter (fun v => icontains (Vehicle.registration_no v) q
                            || icontains (Vehicle.make v) q
                            || icontains (Vehicle.model v) q) qs
         else qs in
       let qs :=
         if truthy status then
           filter (fun v => String.eqb (Vehicle.status v) status) qs
         else qs in
       let total := count qs in
       let assigned :=
         count (filter (fun v => is_some (Vehicle.current_driver_id v)) qs) in
       let maintenance :=
         count (filter (fun v => String.eqb (Vehicle.status v) "maintenance") qs) in
       render "vehicles/list.html"
              (CtxList (order_by reg_le qs) q status
                       (mkStats total assigned maintenance))).

Definition assign_vehicle (pk : Z) : View :=
  role_required [Some "admin"; Some "staff"]
    (fun request =>
       db <- read_db ;;
       vehicle <- get_object_or_404 (get_vehicle db pk) ;;
       match method request with
       | POST =>
           let form := AssignVehicleForm db (POST_ request) vehicle in
           if is_valid form then
             ModelForm_save form true ;;;
             messages_success "Vehicle updated." ;;;
             redirect "vehicle_list"
           else render "vehicles/assign.html"
                       (CtxVehicleForm (errors form) (instance form))
       | GET => render "vehicles/assign.html" (CtxVehicleForm [] vehicle)
       end).

Definition mdate_ge (a b : MaintenanceLog.t) : bool :=
  MaintenanceLog.date b <=? MaintenanceLog.date a.

Definition fdate_ge (a b : FuelLog.t) : bool :=
  FuelLog.date b <=? FuelLog.date a.

Definition vehicle_detail (pk : Z) : View :=
  role_required [Some "admin"; Some "staff"; Some "driver"]
    (fun request =>
       db <- read_db ;;
       v <- get_object_or_404 (get_vehicle db pk) ;;
       let role := get_user_role db (user request) in
       if eq_str role "driver"
          && negb (opt_Z_eqb (Vehicle.current_driver_id v) (user_id (user request)))
          && negb (is_app_admin db (user request))
       then raise PermissionDenied
       else
         let maintenance :=
           firstn 10 (order_by mdate_ge
                        (filter (fun m => opt_Z_eqb (Some (MaintenanceLog.vehicle_id m))
                                                    (Vehicle.id v))
                                (maintenance_logs db))) in
         let fuel :=
           firstn 10 (order_by fdate_ge
                        (filter (fun f => opt_Z_eqb (Some (FuelLog.vehicle_id f))
                                                    (Vehicle.id v))
                                (fuel_logs db))) in
         render "vehicles/detail.html" (CtxDetail v maintenance fuel)).

(** [getattr(v.current_driver, "username", None)] : reading the driver
    row of a vehicle that has one. *)
Definition driver_username (db : Store) (v : Vehicle.t) : result (option string) :=
  match Vehicle.current_driver_id v with
  | None => Ok None
  | Some uid =>
      match get_user db uid with
      | Some u => Ok (Some (User.username u))
      | None => Raise DoesNotExist
      end
  end.

(** The loop of [vehicle_track_data] : [data] is the list built so far. *)
Fixpoint track_loop (db : Store) (vs : list Vehicle.t) (data : list TrackEntry)
  : result (list TrackEntry) :=
  match vs with
  | [] => Ok data
  | v :: rest =>
      match Vehicle.latitude v, Vehicle.longitude v with
      | Some lat, Some lng =>
          match driver_username db v with
          | Ok driver =>
              track_loop db rest
                (data ++ [mkEntry (Vehicle.id v) (Vehicle.registration_no v)
                                  (Vehicle.make v) (Vehicle.model v)
                                  (Vehicle.status v) driver lat lng
                                  (Vehicle.last_location_time v)])
          | Raise e => Raise e
          end
      | _, _ => track_loop db rest data
      end
  end.

Definition vehicle_track_data : View :=
  role_required [Some "admin"; Some "staff"]
    (fun request =>
       db <- read_db ;;
       data <- lift (track_loop db (vehicles db) []) ;;
       ret (JsonResponse data)).

Definition custom_permission_denied_view : HttpResponse :=
  Render "403.html" CtxEmpty 403.

(** The request handler around a view: a raised [PermissionDenied] goes
    to [handler403], a raised [Http404] to the not-found page, anything
    else is a server error. *)
Definition get_response (view : View) (request : HttpRequest) (w : World)
  : HttpResponse * World :=
  match view request w with
  | (Ok response, w') => (response, w')
  | (Raise PermissionDenied, w') => (custom_permission_denied_view, w')
  | (Raise Http404, w') => (Render "404.html" CtxEmpty 404, w')
  | (Raise _, w') => (Render "500.html" CtxEmpty 500, w')
  end.

End Views.

(** ** Accounts and rows: the manager calls of the other views *)

Module Accounts.
Import PyStr Http Orm.

(** The next value of the auto-increment key of the user table: one
    more than the largest key the table holds or ever held. *)
Definition next_user_id (db : Store) : Z :=
  1 + Z.max (seq_user (sqlite_sequence db))
            (fold_right (fun u acc => Z.max (User.id u) acc) 0 (users db)).

(** The next value of the auto-increment key of the profile table. *)
Definition next_profile_id (db : Store) : Z :=
  1 + Z.max (seq_profile (sqlite_sequence db))
            (fold_right (fun p acc => Z.max (Profile.id p) acc) 0 (profiles db)).

(** [s.rsplit("@", 1)] when it gives two parts. *)
Fixpoint rsplit_at (s : string) : option (string * string) :=
  match s with
  | EmptyString => None
  | String c s' =>
      match rsplit_at s' with
      | Some (a, b) => Some (String c a, b)
      | None => if Ascii.eqb c "@" then Some (EmptyString, s') else None
      end
  end.

(** [normalize_email] : the domain part is lower-cased; text without an
    at sign is kept as it is. *)
Definition normalize_email (py : Unicode) (email : string) : string :=
  let email := or_empty (Some email) in
  match rsplit_at (strip email) with
  | Some (email_name, domain_part) =>
      (email_name ++ "@" ++ str_lower py domain_part)%string
  | None => email
  end.

(** [User.objects.filter(username=username).exists()] *)
Definition username_exists (db : Store) (username : string) : bool :=
  existsb (fun u => String.eqb (User.username u) username) (users db).

(** The INSERT of a user row, its key marked in [sqlite_sequence]. *)
Definition insert_user (user : User.t) (db : Store) : Store :=
  let seq := sqlite_sequence db in
  mkStore (users db ++ [user]) (profiles db) (vehicles db)
          (maintenance_logs db) (fuel_logs db)
          (mkSeq (Z.max (seq_user seq) (User.id user)) (seq_profile seq)
                 (seq_vehicle seq)).

(** The INSERT of a profile row. *)
Definition insert_profile (p : Profile.t) (db : Store) : Store :=
  let seq := sqlite_sequence db in
  mkStore (users db) (profiles db ++ [p]) (vehicles db)
          (maintenance_logs db) (fuel_logs db)
          (mkSeq (seq_user seq) (Z.max (seq_profile seq) (Profile.id p))
                 (seq_vehicle seq)).

(** [User.objects.create_user(username, email, password)] : an empty
    username is refused; the name is stored in its NFKC form, and the
    unique index of the column refuses a name a row already has: the
    INSERT raises and nothing is written.  The new row is an active user
    without the superuser flag.  The password column holds what
    [authenticate] compares with. *)
Definition create_user (py : Unicode) (username email password : string)
  : M User.t :=
  fun w =>
    if truthy username then
      let email := normalize_email py email in
      let username := NFKC py username in
      if username_exists (db w) username then (Raise IntegrityError, w)
      else
        let user := User.mk (next_user_id (db w)) username password email
                            false true in
        (Ok user, mkWorld (insert_user user (db w)) (session w) (messages w))
    else (Raise ValueError, w).

(** [Profile.objects.get_or_create(user=user, defaults={"role": role})] *)
Definition get_or_create_profile (user : User.t) (role : string) : M Profile.t :=
  fun w =>
    match profile_of (db w) user with
    | Some p => (Ok p, w)
    | None =>
        let p := Profile.mk (next_profile_id (db w)) (User.id user) role in
        (Ok p, mkWorld (insert_profile p (db w)) (session w) (messages w))
    end.

(** [vehicle.delete()] : the row goes, and with it the maintenance and
    fuel records of the vehicle (the [CASCADE] of models.py). *)
Definition delete_vehicle_row (pk : Z) (db : Store) : Store :=
  mkStore (users db) (profiles db)
          (filter (fun v => negb (opt_Z_eqb (Vehicle.id v) (Some pk))) (vehicles db))
          (filter (fun m => negb (MaintenanceLog.vehicle_id m =? pk))
                  (maintenance_logs db))
          (filter (fun f => negb (FuelLog.vehicle_id f =? pk)) (fuel_logs db))
          (sqlite_sequence db).

(** [instance.delete()] in the monad; an instance without a key cannot be
    deleted. *)
Definition Vehicle_delete (inst : Vehicle.t) : M unit :=
  match Vehicle.id inst with
  | Some pk => write_db (delete_vehicle_row pk)
  | None => raise ValueError
  end.

End Accounts.

(** ** views.py, the account and registry views *)

Module MoreViews.
Import PyStr Http Orm Query Forms Views Accounts.

(** [x or default] for two strings. *)
Definition or_default (x default : string) : string :=
  if truthy x then x else default.

Definition logout_view : View :=
  fun request => logout ;;; redirect "login".

(** [register_staff] : [first_name] and [last_name] are read from the
    request and written to columns the store does not carry. *)
Definition register_staff (py : Unicode) : View :=
  role_required [Some "admin"]
    (fun request =>
       match method request with
       | POST =>
           let username := strip (qd_get_default (POST_ request) "username" "") in
           let email := qd_get_default (POST_ request) "email" "" in
           let password := qd_get_default (POST_ request) "password" "" in
           let role :=
             str_lower py
               (or_default (qd_get_default (POST_ request) "role" "staff")
                           "staff") in
           if negb (truthy username) || negb (truthy password) then
             render "admin/register_staff.html"
                    (CtxError "Username and password are required.")
           else
             db <- read_db ;;
             if username_exists db username then
               render "admin/register_staff.html" (CtxError "Username already exists.")
             else
               user <- create_user py username email password ;;
               get_or_create_profile user role ;;;
               messages_success
                 ("User '" ++ username ++ "' created as " ++ role ++ ".")%string ;;;
               redirect "admin_dashboard"
       | GET => render "admin/register_staff.html" CtxEmpty
       end).

(** [add_driver] : the role is forced to "driver"; the names as in
    [register_staff]. *)
Definition add_driver (py : Unicode) : View :=
  role_required [Some "admin"]
    (fun request =>
       match method request with
       | POST =>
           let username := strip (qd_get_default (POST_ request) "username" "") in
           let email := qd_get_default (POST_ request) "email" "" in
           let password := qd_get_default (POST_ request) "password" "" in
           if negb (truthy username) || negb (truthy password) then
             render "driver/add.html"
                    (CtxError "Username and password are required.")
           else
             db <- read_db ;;
             if username_exists db username then
               render "driver/add.html" (CtxError "Username already exists.")
             else
               user <- create_user py username email password ;;
               get_or_create_profile user "driver" ;;;
               messages_success ("Driver '" ++ username ++ "' created.")%string ;;;
               redirect "admin_dashboard"
       | GET => render "driver/add.html" CtxEmpty
       end).

(** [register_user] : public, no gate; the role is "staff". *)
Definition register_user (py : Unicode) : View :=
  fun request =>
    match method request with
    | POST =>
        let username := strip (qd_get_default (POST_ request) "username" "") in
        let email := qd_get_default (POST_ request) "email" "" in
        let password := qd_get_default (POST_ request) "password" "" in
        let confirm_password :=
          qd_get_default (POST_ request) "confirm_password" "" in
        if negb (String.eqb password confirm_password) then
          render "register.html" (CtxError "Passwords do not match.")
        else
          db <- read_db ;;
          if username_exists db username then
            render "register.html" (CtxError "Username already taken.")
          else
            user <- create_user py username email password ;;
            get_or_create_profile user "staff" ;;;
            redirect "login"
    | GET => render "register.html" CtxEmpty
    end.

Definition edit_vehicle (env : Env) (pk : Z) : View :=
  role_required [Some "admin"; Some "staff"]
    (fun request =>
       db <- read_db ;;
       vehicle <- get_object_or_404 (get_vehicle db pk) ;;
       match method request with
       | POST =>
           let form := VehicleForm db (POST_ request) vehicle in
           if is_valid form then
             VehicleForm_save env form true ;;;
             messages_success "Vehicle updated." ;;;
             redirect "vehicle_list"
           else render "vehicles/edit.html"
                       (CtxVehicleForm (errors form) (instance form))
       | GET => render "vehicles/edit.html" (CtxVehicleForm [] vehicle)
       end).

Definition delete_vehicle (pk : Z) : View :=
  role_required [Some "admin"; Some "staff"]
    (fun request =>
       db <- read_db ;;
       vehicle <- get_object_or_404 (get_vehicle db pk) ;;
       Vehicle_delete vehicle ;;;
       messages_success "Vehicle deleted successfully." ;;;
       redirect "vehicle_list").

End MoreViews.

(** ** A small fleet, used to run the definitions *)

Module Sample.
Import Http Orm.

Definition alice := User.mk 1 "alice" "pw-alice" "" false true.
Definition sam := User.mk 2 "sam" "pw-sam" "" false true.
Definition john := User.mk 3 "john" "pw-john" "" false true.
Definition dave := User.mk 4 "dave" "pw-dave" "" false true.
Definition nobody := User.mk 5 "nobody" "pw-nobody" "" false true.
Definition root := User.mk 6 "root" "pw-root" "" true true.

Definition truck :=
  Vehicle.mk (Some 1) "KA01AB1234" "Tata" "Ace" (Some 2020) "active" (Some 3)
             (Some 12971599) (Some 77594563) (Some 1700000000).
Definition van :=
  Vehicle.mk (Some 2) "AB77" "Ford" "Transit" None "maintenance" None
             (Some 51507400) None None.
Definition bus :=
  Vehicle.mk (Some 3) "MH12XY0001" "Volvo" "B9R" (Some 2018) "inactive" (Some 4)
             None None None.

Definition store : Store :=
  mkStore [alice; sam; john; dave; nobody; root]
          [Profile.mk 11 1 "admin"; Profile.mk 12 2 "Staff";
           Profile.mk 13 3 "driver"; Profile.mk 14 4 "driver"]
          [truck; van; bus]
          [MaintenanceLog.mk 1 1 "oil change" 20240105 None (Some 3);
           MaintenanceLog.mk 2 1 "brake pads" 20240301 (Some 20250301) (Some 3)]
          [FuelLog.mk 1 1 20240110 4050 380000 (Some 41000) (Some 3)]
          (mkSeq 6 14 3).

(** The sample texts are ASCII and full-width forms.  There NFKC turns
    a full-width form, U+FF01 to U+FF5E, into the ASCII character it
    stands for and keeps the rest; [str.lower] is called on ASCII text,
    where it lowers the letters A to Z. *)
Fixpoint nfkc_fullwidth (s : string) : string :=
  match s with
  | EmptyString => EmptyString
  | String a s1 =>
      match s1 with
      | String b (String c s3) =>
          let x := nat_of_ascii c in
          if (nat_of_ascii a =? 239)%nat && (nat_of_ascii b =? 188)%nat
             && (129 <=? x)%nat && (x <=? 191)%nat
          then String (ascii_of_nat (x - 96)) (nfkc_fullwidth s3)
          else if (nat_of_ascii a =? 239)%nat && (nat_of_ascii b =? 189)%nat
                  && (128 <=? x)%nat && (x <=? 158)%nat
          then String (ascii_of_nat (x - 32)) (nfkc_fullwidth s3)
          else String a (nfkc_fullwidth s1)
      | _ => String a (nfkc_fullwidth s1)
      end
  end.

(** The two functions of the Unicode database on the sample texts. *)
Definition unicode : PyStr.Unicode := PyStr.mkUnicode nfkc_fullwidth PyStr.lower.

(** The text with the given bytes. *)
Definition utf8 (bytes : list nat) : string :=
  fold_right (fun n s => String (ascii_of_nat n) s) EmptyString bytes.

(** U+FF4A and U+FF4D, the full-width forms of the letters j and m. *)
Definition fullwidth_j : string := utf8 [239; 189; 138]%nat.
Definition fullwidth_m : string := utf8 [239; 189; 141]%nat.

(** U+00A0, the no-break space, and U+3000, the ideographic space. *)
Definition no_break_space : string := utf8 [194; 160]%nat.
Definition ideographic_space : string := utf8 [227; 128; 128]%nat.

(** U+FF12 and U+FF10, the full-width digits two and zero. *)
Definition fullwidth_2 : string := utf8 [239; 188; 146]%nat.
Definition fullwidth_0 : string := utf8 [239; 188; 144]%nat.

Definition world : World := mkWorld store None [].

Definition get_as (u : RequestUser) (path : string) (query : QueryDict)
  : HttpRequest :=
  mkRequest GET path u query [].

Definition post_as (u : RequestUser) (path : string) (data : QueryDict)
  : HttpRequest :=
  mkRequest POST path u [] data.

Definition dashboard_as_nobody : HttpRequest :=
  get_as (Authenticated nobody) "/admin/dashboard/" [].

Definition list_blank_query : HttpRequest :=
  get_as (Authenticated sam) "/admin/vehicles/" [("q", " ")].

Definition env_found : Forms.Env :=
  Forms.mkEnv true (fun _ => Ok tt) (fun _ => Ok (Some (12971599, 77594563)))
              1700000500.

Definition env_down : Forms.Env :=
  Forms.mkEnv true (fun _ => Ok tt) (fun _ => Raise GeocoderError) 1700000500.

End Sample.

(** * The vocabulary of the properties *)

Import PyStr Http Orm Query Forms Views.

Arguments or_empty : simpl never.
Arguments lower : simpl never.
Arguments strip : simpl never.

(** The three ways through the gate, in the words of the contract. *)
Definition permits (db : Store) (u : User.t) (roles : list string) : Prop :=
  User.is_superuser u = true
  \/ (exists p, profile_of db u = Some p /\ lower (Profile.role p) = "admin")
  \/ (exists p r, profile_of db u = Some p /\ In r roles
                  /\ lower (Profile.role p) = lower r).

(** The page a permitted request for an existing vehicle gets. *)
Definition detail_page (db : Store) (v : Vehicle.t) : HttpResponse :=
  Render "vehicles/detail.html"
         (CtxDetail v
            (firstn 10 (order_by mdate_ge
                          (filter (fun m => opt_Z_eqb (Some (MaintenanceLog.vehicle_id m))
                                                      (Vehicle.id v))
                                  (maintenance_logs db))))
            (firstn 10 (order_by fdate_ge
                          (filter (fun f => opt_Z_eqb (Some (FuelLog.vehicle_id f))
                                                      (Vehicle.id v))
                                  (fuel_logs db)))))
         200.

(** Both coordinates are set. *)
Definition has_position (v : Vehicle.t) : bool :=
  is_some (Vehicle.latitude v) && is_some (Vehicle.longitude v).

(** The username of the current driver, or null. *)
Definition driver_name (db : Store) (v : Vehicle.t) : option string :=
  match Vehicle.current_driver_id v with
  | Some uid => option_map User.username (get_user db uid)
  | None => None
  end.

(** [e] is the feed element of vehicle [v]. *)
Definition is_feed_entry (db : Store) (v : Vehicle.t) (e : TrackEntry) : Prop :=
  exists lat lng,
    Vehicle.latitude v = Some lat /\ Vehicle.longitude v = Some lng
    /\ e = mkEntry (Vehicle.id v) (Vehicle.registration_no v) (Vehicle.make v)
                   (Vehicle.model v) (Vehicle.status v) (driver_name db v)
                   lat lng (Vehicle.last_location_time v).

(** Referential integrity of [Vehicle.current_driver]. *)
Definition drivers_exist (db : Store) (vs : list Vehicle.t) : Prop :=
  forall v uid, In v vs -> Vehicle.current_driver_id v = Some uid ->
                get_user db uid <> None.

(** How [SET_NULL] relates a vehicle before and after user [uid] goes. *)
Definition driver_nulled (uid : Z) (v v' : Vehicle.t) : Prop :=
  (Vehicle.current_driver_id v = Some uid ->
   Vehicle.current_driver_id v' = None
   /\ Vehicle.id v' = Vehicle.id v
   /\ Vehicle.registration_no v' = Vehicle.registration_no v)
  /\ (Vehicle.current_driver_id v <> Some uid -> v' = v).

(** The same for the creator of a maintenance record. *)
Definition mcreator_nulled (uid : Z) (m m' : MaintenanceLog.t) : Prop :=
  (MaintenanceLog.created_by_id m = Some uid ->
   MaintenanceLog.created_by_id m' = None
   /\ MaintenanceLog.id m' = MaintenanceLog.id m)
  /\ (MaintenanceLog.created_by_id m <> Some uid -> m' = m).

(** The same for the creator of a fuel record. *)
Definition fcreator_nulled (uid : Z) (f f' : FuelLog.t) : Prop :=
  (FuelLog.created_by_id f = Some uid ->
   FuelLog.created_by_id f' = None /\ FuelLog.id f' = FuelLog.id f)
  /\ (FuelLog.created_by_id f <> Some uid -> f' = f).

(** The fields a save carries from the instance to the stored row. *)
Definition same_columns (a b : Vehicle.t) : Prop :=
  Vehicle.registration_no a = Vehicle.registration_no b
  /\ Vehicle.make a = Vehicle.make b
  /\ Vehicle.model a = Vehicle.model b
  /\ Vehicle.year a = Vehicle.year b
  /\ Vehicle.status a = Vehicle.status b
  /\ Vehicle.current_driver_id a = Vehicle.current_driver_id b
  /\ Vehicle.latitude a = Vehicle.latitude b
  /\ Vehicle.longitude a = Vehicle.longitude b
  /\ Vehicle.last_location_time a = Vehicle.last_location_time b.

(** What the geocoding block of [VehicleForm.save] leaves in the
    instance. *)
Definition located (env : Env) (place : string) (inst : Vehicle.t) : Vehicle.t :=
  if _GEOCODER_AVAILABLE env then
    match Nominatim env "vehicle_fleet_system", geocode env place with
    | Ok _, Ok (Some (lat, lng)) => set_location lat lng (timezone_now env) inst
    | _, _ => inst
    end
  else inst.

(** [uid] is the key of a stored identity that has a profile whose role is
    "driver" up to case; when that role is one of the model's choices it
    is "driver" itself. *)
Definition eligible_driver (db : Store) (uid : Z) : Prop :=
  exists U p,
    In U (users db) /\ User.id U = uid
    /\ In p (profiles db) /\ Profile.user_id p = uid
    /\ lower (Profile.role p) = "driver"
    /\ (In (Profile.role p) Profile.ROLE_CHOICES -> Profile.role p = "driver").

(** The columns the assign form does not carry. *)
Definition assign_frame (v v' : Vehicle.t) : Prop :=
  Vehicle.id v' = Vehicle.id v
  /\ Vehicle.registration_no v' = Vehicle.registration_no v
  /\ Vehicle.make v' = Vehicle.make v
  /\ Vehicle.model v' = Vehicle.model v
  /\ Vehicle.year v' = Vehicle.year v
  /\ Vehicle.latitude v' = Vehicle.latitude v
  /\ Vehicle.longitude v' = Vehicle.longitude v
  /\ Vehicle.last_location_time v' = Vehicle.last_location_time v.

(** [field] contains [q] as a substring, letter case set aside. *)
Definition contains_ci (field q : string) : Prop :=
  exists a b, lower field = (a ++ lower q ++ b)%string.

(** A vehicle passes the text filter [q] and the status filter [s]. *)
Definition listed (q s : string) (v : Vehicle.t) : Prop :=
  (contains_ci (Vehicle.registration_no v) q
   \/ contains_ci (Vehicle.make v) q
   \/ contains_ci (Vehicle.model v) q)
  /\ (s <> "" -> Vehicle.status v = s).

(** The [Q] object of [vehicle_list] on one row. *)
Definition text_filter (q : string) (v : Vehicle.t) : bool :=
  icontains (Vehicle.registration_no v) q
  || icontains (Vehicle.make v) q
  || icontains (Vehicle.model v) q.

(** Both filters of [vehicle_list], each applied only when its text is not
    empty. *)
Definition keep (q s : string) (v : Vehicle.t) : bool :=
  (negb (truthy q) || text_filter q v)
  && (negb (truthy s) || String.eqb (Vehicle.status v) s).

Import Accounts MoreViews.

(** Every stored vehicle has a key, and no two share one. *)
Definition keys_unique (db : Store) : Prop :=
  NoDup (map Vehicle.id (vehicles db))
  /\ Forall (fun v => Vehicle.id v <> None) (vehicles db).

(** No two stored vehicles share a registration number. *)
Definition registrations_unique (db : Store) : Prop :=
  NoDup (map Vehicle.registration_no (vehicles db)).

(** No two stored identities share a username. *)
Definition usernames_unique (db : Store) : Prop :=
  NoDup (map User.username (users db)).

(** Referential integrity of [Profile.user]. *)
Definition profiles_linked (db : Store) : Prop :=
  forall p, In p (profiles db) ->
            exists u, In u (users db) /\ User.id u = Profile.user_id p.

(** The world after a successful [login]. *)
Definition logged_in (w : World) (u : User.t) : World :=
  mkWorld (db w) (Some (User.id u)) (messages w).

(** The dashboard a normalized role is sent to after login. *)
Definition dashboard_of (role : string) : option string :=
  if String.eqb role "admin" then Some "admin_dashboard"
  else if String.eqb role "staff" then Some "staff_dashboard"
  else if String.eqb role "driver" then Some "driver_dashboard"
  else None.

(** [shown] is what a detail page shows of [candidates]: at most [n]
    records, taken from the candidates, newest first, none of the records
    left out being newer than one shown, and all of them when there are no
    more than [n]. *)
Definition recent_of {A} (date : A -> Z) (n : nat) (candidates shown : list A)
  : Prop :=
  (List.length shown <= n)%nat
  /\ (forall a, In a shown -> In a candidates)
  /\ Sorted (fun a b => date b <= date a) shown
  /\ (forall a b, In a candidates -> ~ In a shown -> In b shown -> date a <= date b)
  /\ ((List.length candidates <= n)%nat -> Permutation candidates shown).

(** The instance [VehicleForm.save] hands to the store. *)
Definition geo_instance (env : Env) (form : BoundForm) : Vehicle.t :=
  if truthy (cleaned_place_name form)
  then located env (cleaned_place_name form) (instance form)
  else instance form.

(** The row [create_user] adds. *)
Definition new_user (py : Unicode) (db : Store)
           (username email password : string) : User.t :=
  User.mk (next_user_id db) (NFKC py username) password
          (normalize_email py email) false true.

(** The world after an account with the given role was created. *)
Definition with_account (py : Unicode) (w : World)
           (username email password role : string) : World :=
  mkWorld
    (insert_profile
       (Profile.mk (next_profile_id (db w)) (next_user_id (db w)) role)
       (insert_user (new_user py (db w) username email password) (db w)))
    (session w) (messages w).

(** The answer of the login view to a role that has no dashboard. *)
Definition role_not_assigned : HttpResponse :=
  Render "login.html" (CtxError "Role not assigned to this user.") 200.

(** What models.py asks of a vehicle row: a registration number of one to
    thirty characters, make and model of at most fifty, a status among the
    choices, a year from zero to the largest integer the column holds,
    and a driver, when there is one, taken from the driver choices. *)
Definition valid_vehicle (db : Store) (v : Vehicle.t) : Prop :=
  Vehicle.registration_no v <> ""
  /\ (len (Vehicle.registration_no v) <= 30)%nat
  /\ (len (Vehicle.make v) <= 50)%nat
  /\ (len (Vehicle.model v) <= 50)%nat
  /\ In (Vehicle.status v) Vehicle.STATUS_CHOICES
  /\ (forall y, Vehicle.year v = Some y -> 0 <= y <= integer_field_max)
  /\ (forall uid, Vehicle.current_driver_id v = Some uid -> eligible_driver db uid).

(** * Properties *)

(** ** Strings *)

Lemma or_empty_Some (s : string) : or_empty (Some s) = s.
Proof. destruct s; reflexivity. Qed.

Lemma truthy_false_iff (s : string) : truthy s = false <-> s = "".
Proof. destruct s; simpl; split; congruence. Qed.

Lemma truthy_true_iff (s : string) : truthy s = true <-> s <> "".
Proof. destruct s; simpl; split; congruence. Qed.

(** ** The library calls on sample texts *)

(** [strip] takes off the white space of Unicode, and a text of nothing
    else is left empty. *)
Example strip_unicode_white_space :
  strip (Sample.no_break_space ++ " maintenance" ++ Sample.ideographic_space)%string
  = "maintenance"
  /\ strip Sample.no_break_space = ""
  /\ strip ("a" ++ Sample.no_break_space ++ "b")%string
     = ("a" ++ Sample.no_break_space ++ "b")%string.
Proof. repeat split; reflexivity. Qed.

(** [len] counts characters, not bytes. *)
Example len_counts_characters :
  len (Sample.fullwidth_j ++ "ohn")%string = 4%nat
  /\ String.length (Sample.fullwidth_j ++ "ohn")%string = 6%nat.
Proof. split; reflexivity. Qed.

(** [int] reads single underscores between digits, a sign, white space
    around the number and the decimal digits of Unicode; it reads no
    decimal point. *)
Example int_of_text :
  parse_int "2_020" = Some 2020
  /\ parse_int (Sample.no_break_space ++ "-7 ")%string = Some (-7)
  /\ parse_int (Sample.fullwidth_2 ++ Sample.fullwidth_0 ++ "20")%string = Some 2020
  /\ parse_int "2020.0" = None
  /\ parse_int "2__020" = None
  /\ parse_int "+ 7" = None
  /\ parse_int "" = None.
Proof. repeat split; reflexivity. Qed.

(** The year field takes a trailing point and zeros off before it
    reads the number, and the model asks for no more than an integer the
    database holds: 32768 passes. *)
Example year_of_text :
  clean_year (Some "2020.0") = inl (Some 2020)
  /\ clean_year (Some "2_020") = inl (Some 2020)
  /\ clean_year (Some "2020.5") = inr (one invalid)
  /\ clean_year (Some "-1") = inr (one min_value)
  /\ clean_year (Some "32768") = inl (Some 32768)
  /\ year_model_errors (clean_year (Some "32768")) = []
  /\ year_model_errors (clean_year (Some "9223372036854775808"))
     = [("year", max_value)].
Proof. repeat split; reflexivity. Qed.

(** A key that was given out is not given out again: with the third
    vehicle deleted the next key is still the fourth. *)
Example key_of_deleted_row_not_reused :
  next_vehicle_id Sample.store = 4
  /\ next_vehicle_id (delete_vehicle_row 3 Sample.store) = 4
  /\ map Vehicle.id (vehicles (delete_vehicle_row 3 Sample.store))
     = [Some 1; Some 2].
Proof. repeat split; reflexivity. Qed.

(** ** Roles *)

Lemma in_tuple_spec (x : option string) (xs : list string) :
  in_tuple x xs = true <-> exists s, x = Some s /\ In s xs.
Proof.
  destruct x as [s|]; simpl.
  - rewrite existsb_exists. split.
    + intros (y & Hy & E). apply String.eqb_eq in E. subst y. eauto.
    + intros (y & E & Hy). injection E as <-. exists s. split; [assumption|].
      apply String.eqb_refl.
  - split; [discriminate|]. intros (s & E & _). discriminate.
Qed.

Lemma in_map_lower (r : string) (roles : list string) :
  In r (map (fun x => lower (or_empty x)) (map Some roles))
  <-> exists r', In r' roles /\ r = lower r'.
Proof.
  rewrite map_map. rewrite in_map_iff. split.
  - intros (x & E & Hx). rewrite or_empty_Some in E. eauto.
  - intros (x & Hx & E). exists x. rewrite or_empty_Some. auto.
Qed.

(** ** The authorization gate *)

Lemma is_app_admin_spec (db : Store) (u : User.t) :
  is_app_admin db (Authenticated u) = true
  <-> User.is_superuser u = true
      \/ exists p, profile_of db u = Some p /\ lower (Profile.role p) = "admin".
Proof.
  simpl. destruct (User.is_superuser u).
  - split; auto.
  - destruct (profile_of db u) as [p|].
    + rewrite or_empty_Some, String.eqb_eq. split.
      * intros E. right. eauto.
      * intros [E | (p' & E & R)]; [discriminate|]. injection E as <-. exact R.
    + split; [discriminate|]. intros [E | (p' & E & _)]; discriminate.
Qed.

Lemma gate_pass (db : Store) (u : User.t) (roles : list string) :
  (user_is_superuser (Authenticated u) || is_app_admin db (Authenticated u)
   || in_tuple (get_user_role db (Authenticated u))
               (map (fun r => lower (or_empty r)) (map Some roles))) = true
  <-> permits db u roles.
Proof.
  unfold permits. rewrite !orb_true_iff, is_app_admin_spec, in_tuple_spec. simpl.
  split.
  - intros [[S | [S | A]] | (r & E & Hr)]; auto.
    destruct (profile_of db u) as [p|]; [|discriminate].
    injection E as <-. rewrite or_empty_Some in Hr.
    apply in_map_lower in Hr. destruct Hr as (r' & Hr' & E).
    right; right. eauto.
  - intros [S | [A | (p & r & E & Hr & R)]]; auto.
    right. rewrite E. exists (lower (Profile.role p)). rewrite or_empty_Some.
    split; [reflexivity|]. apply in_map_lower. eauto.
Qed.

Lemma role_required_unfold (roles : list string) (view : View)
      (request : HttpRequest) (w : World) (u : User.t) :
  user request = Authenticated u ->
  role_required (map Some roles) view request w =
  if user_is_superuser (Authenticated u) || is_app_admin (db w) (Authenticated u)
     || in_tuple (get_user_role (db w) (Authenticated u))
                 (map (fun r => lower (or_empty r)) (map Some roles))
  then view request w else (Raise PermissionDenied, w).
Proof.
  intros Hu. unfold role_required, login_required, bind, read_db, raise.
  rewrite Hu. cbn [is_authenticated].
  destruct (user_is_superuser (Authenticated u) || is_app_admin (db w) (Authenticated u));
    [reflexivity|].
  cbn [orb].
  destruct (in_tuple _ _); reflexivity.
Qed.

Lemma role_required_permitted (roles : list string) (view : View)
      (request : HttpRequest) (w : World) (u : User.t) :
  user request = Authenticated u -> permits (db w) u roles ->
  role_required (map Some roles) view request w = view request w.
Proof.
  intros Hu Hp. rewrite (role_required_unfold _ _ _ _ _ Hu).
  apply gate_pass in Hp. rewrite Hp. reflexivity.
Qed.

Lemma role_required_denied (roles : list string) (view : View)
      (request : HttpRequest) (w : World) (u : User.t) :
  user request = Authenticated u -> ~ permits (db w) u roles ->
  role_required (map Some roles) view request w = (Raise PermissionDenied, w).
Proof.
  intros Hu Hp. rewrite (role_required_unfold _ _ _ _ _ Hu).
  destruct (_ || _ || _) eqn:E; [|reflexivity].
  apply gate_pass in E. contradiction.
Qed.

(** A view behind the gate, asked by an identity the gate permits, is its
    body. *)
Ltac pass_gate Hu Hp :=
  match type of Hp with
  | permits _ _ ?roles =>
      let literal := eval cbv [map] in (map (@Some string) roles) in
      change literal with (map (@Some string) roles);
      rewrite (role_required_permitted _ _ _ _ _ Hu Hp)
  end.

Lemma role_required_anonymous (roles : list (option string)) (view : View)
      (request : HttpRequest) (w : World) :
  user request = AnonymousUser ->
  role_required roles view request w
  = (Ok (Redirect "login" (Some (path request))), w).
Proof.
  intros Hu. unfold role_required, login_required. rewrite Hu. reflexivity.
Qed.

Lemma no_profile_not_permitted (db : Store) (u : User.t) (roles : list string) :
  User.is_superuser u = false -> profile_of db u = None -> ~ permits db u roles.
Proof.
  intros S N [S' | [(p & E & _) | (p & r & E & _)]]; congruence.
Qed.

(** C1: for an authenticated identity the gate lets the view run exactly
    when the identity is a superuser, or its profile role is "admin" up to
    case, or its profile role is, up to case, one of the required roles;
    in every other case the request fails with [PermissionDenied], and an
    identity with no profile and no superuser flag is in that other case
    whatever the required roles are. *)
Theorem role_required_gate :
  forall (roles : list string) (view : View) (request : HttpRequest)
         (w : World) (u : User.t),
    user request = Authenticated u ->
    (permits (db w) u roles ->
     role_required (map Some roles) view request w = view request w)
    /\ (~ permits (db w) u roles ->
        role_required (map Some roles) view request w
        = (Raise PermissionDenied, w))
    /\ (User.is_superuser u = false -> profile_of (db w) u = None ->
        role_required (map Some roles) view request w
        = (Raise PermissionDenied, w)).
Proof.
  intros roles view request w u Hu. repeat split.
  - intros Hp. now apply role_required_permitted with u.
  - intros Hp. now apply role_required_denied with u.
  - intros S N. apply role_required_denied with u; [assumption|].
    now apply no_profile_not_permitted.
Qed.

Lemma role_required_gate_witness :
  role_required (map Some ["staff"]) (fun _ => redirect "staff_dashboard")
                (Sample.get_as (Authenticated Sample.sam) "/staff/dashboard/" [])
                Sample.world
  = (Ok (Redirect "staff_dashboard" None), Sample.world)
  /\ role_required (map Some ["staff"]) (fun _ => redirect "staff_dashboard")
                   (Sample.get_as (Authenticated Sample.nobody) "/staff/dashboard/" [])
                   Sample.world
     = (Raise PermissionDenied, Sample.world).
Proof.
  split.
  - apply (proj1 (role_required_gate ["staff"] (fun _ => redirect "staff_dashboard")
                   (Sample.get_as (Authenticated Sample.sam) "/staff/dashboard/" [])
                   Sample.world Sample.sam eq_refl)).
    right; right. exists (Profile.mk 12 2 "Staff"), "staff".
    split; [reflexivity | split; [left; reflexivity | reflexivity]].
  - apply (proj2 (proj2 (role_required_gate ["staff"]
                   (fun _ => redirect "staff_dashboard")
                   (Sample.get_as (Authenticated Sample.nobody) "/staff/dashboard/" [])
                   Sample.world Sample.nobody eq_refl))); reflexivity.
Defined.

(** C9, as stated, fails: an identity that is logged in, is no superuser
    and has no profile asks for the admin dashboard and gets the 403 page,
    not a redirect to the login route. *)
Lemma admin_dashboard_profileless_forbidden :
  user Sample.dashboard_as_nobody = Authenticated Sample.nobody
  /\ User.is_superuser Sample.nobody = false
  /\ profile_of Sample.store Sample.nobody = None
  /\ is_app_admin Sample.store (Authenticated Sample.nobody) = false
  /\ admin_dashboard Sample.dashboard_as_nobody Sample.world
     = (Raise PermissionDenied, Sample.world)
  /\ fst (get_response admin_dashboard Sample.dashboard_as_nobody Sample.world)
     = Render "403.html" CtxEmpty 403
  /\ ~ (exists next,
          fst (get_response admin_dashboard Sample.dashboard_as_nobody Sample.world)
          = Redirect "login" next).
Proof.
  repeat split; try reflexivity.
  intros (next & E). vm_compute in E. discriminate.
Qed.

(** C9, amended: the admin dashboard redirects to the login route exactly
    the requests that carry no authenticated identity; an authenticated
    identity that is no superuser and has no profile is refused with
    [PermissionDenied], which the handler renders as the 403 page. *)
Theorem admin_dashboard_login_or_forbidden :
  forall (request : HttpRequest) (w : World),
    (user request = AnonymousUser ->
     get_response admin_dashboard request w
     = (Redirect "login" (Some (path request)), w))
    /\ (forall u, user request = Authenticated u ->
                  User.is_superuser u = false ->
                  profile_of (db w) u = None ->
                  admin_dashboard request w = (Raise PermissionDenied, w)
                  /\ get_response admin_dashboard request w
                     = (custom_permission_denied_view, w)).
Proof.
  intros request w. split.
  - intros Hu. unfold get_response, admin_dashboard.
    rewrite role_required_anonymous by assumption. reflexivity.
  - intros u Hu S N.
    assert (E : admin_dashboard request w = (Raise PermissionDenied, w)).
    { unfold admin_dashboard. change [Some "admin"] with (map Some ["admin"]).
      apply role_required_denied with u; [assumption|].
      now apply no_profile_not_permitted. }
    split; [exact E|]. unfold get_response. rewrite E. reflexivity.
Qed.

Lemma admin_dashboard_login_or_forbidden_witness :
  get_response admin_dashboard
               (Sample.get_as AnonymousUser "/admin/dashboard/" []) Sample.world
  = (Redirect "login" (Some "/admin/dashboard/"), Sample.world)
  /\ get_response admin_dashboard
                  (Sample.get_as (Authenticated Sample.nobody) "/admin/dashboard/" [])
                  Sample.world
     = (custom_permission_denied_view, Sample.world).
Proof.
  split.
  - apply (proj1 (admin_dashboard_login_or_forbidden
                    (Sample.get_as AnonymousUser "/admin/dashboard/" [])
                    Sample.world)).
    reflexivity.
  - apply (proj2 (admin_dashboard_login_or_forbidden
                    (Sample.get_as (Authenticated Sample.nobody) "/admin/dashboard/" [])
                    Sample.world) Sample.nobody); reflexivity.
Defined.

(** ** Vehicle detail and its ownership check *)

Lemma opt_Z_eqb_eq (a b : option Z) : opt_Z_eqb a b = true <-> a = b.
Proof.
  destruct a as [x|], b as [y|]; simpl; try (split; congruence).
  rewrite Z.eqb_eq. split; congruence.
Qed.

Lemma opt_Z_eqb_neq (a b : option Z) : opt_Z_eqb a b = false <-> a <> b.
Proof.
  rewrite <- opt_Z_eqb_eq. destruct (opt_Z_eqb a b); split; congruence.
Qed.

Lemma get_user_role_profile (db : Store) (u : User.t) (p : Profile.t) :
  profile_of db u = Some p ->
  get_user_role db (Authenticated u) = Some (lower (Profile.role p)).
Proof. intros E. simpl. rewrite E, or_empty_Some. reflexivity. Qed.

Lemma is_app_admin_plain (db : Store) (u : User.t) (p : Profile.t) :
  User.is_superuser u = false -> profile_of db u = Some p ->
  is_app_admin db (Authenticated u) = String.eqb (lower (Profile.role p)) "admin".
Proof. intros S E. simpl. rewrite S, E, or_empty_Some. reflexivity. Qed.

Lemma vehicle_detail_body (pk : Z) (request : HttpRequest) (w : World)
      (u : User.t) (v : Vehicle.t) :
  user request = Authenticated u ->
  permits (db w) u ["admin"; "staff"; "driver"] ->
  get_vehicle (db w) pk = Some v ->
  vehicle_detail pk request w =
  if eq_str (get_user_role (db w) (Authenticated u)) "driver"
     && negb (opt_Z_eqb (Vehicle.current_driver_id v) (Some (User.id u)))
     && negb (is_app_admin (db w) (Authenticated u))
  then (Raise PermissionDenied, w)
  else (Ok (detail_page (db w) v), w).
Proof.
  intros Hu Hp Hv. unfold vehicle_detail.
  pass_gate Hu Hp.
  unfold bind, read_db, get_object_or_404. rewrite Hv, Hu. cbn [ret user_id].
  destruct (_ && _ && _); reflexivity.
Qed.

(** C2: a driver who is no superuser is refused the detail page of a
    vehicle whose current driver is someone else or nobody, and gets the
    page of a vehicle assigned to them; an identity whose role is admin or
    staff gets the page of every vehicle, whoever drives it. *)
Theorem vehicle_detail_ownership :
  forall (pk : Z) (request : HttpRequest) (w : World) (u : User.t)
         (p : Profile.t) (v : Vehicle.t),
    user request = Authenticated u ->
    profile_of (db w) u = Some p ->
    get_vehicle (db w) pk = Some v ->
    (lower (Profile.role p) = "driver" -> User.is_superuser u = false ->
     (Vehicle.current_driver_id v <> Some (User.id u) ->
      vehicle_detail pk request w = (Raise PermissionDenied, w))
     /\ (Vehicle.current_driver_id v = Some (User.id u) ->
         vehicle_detail pk request w = (Ok (detail_page (db w) v), w)))
    /\ (lower (Profile.role p) = "admin" \/ lower (Profile.role p) = "staff" ->
        vehicle_detail pk request w = (Ok (detail_page (db w) v), w)).
Proof.
  intros pk request w u p v Hu Hprof Hv. split.
  - intros R S.
    assert (Hp : permits (db w) u ["admin"; "staff"; "driver"]).
    { right; right. exists p, "driver". repeat split; simpl; auto. }
    rewrite (vehicle_detail_body _ _ _ _ _ Hu Hp Hv).
    rewrite (get_user_role_profile _ _ _ Hprof), (is_app_admin_plain _ _ _ S Hprof), R.
    cbn [eq_str String.eqb Ascii.eqb Bool.eqb andb negb].
    split; intros D.
    + apply opt_Z_eqb_neq in D. rewrite D. reflexivity.
    + apply opt_Z_eqb_eq in D. rewrite D. reflexivity.
  - intros R.
    assert (Hp : permits (db w) u ["admin"; "staff"; "driver"]).
    { destruct R as [R | R].
      - right; left. eauto.
      - right; right. exists p, "staff". repeat split; simpl; auto. }
    rewrite (vehicle_detail_body _ _ _ _ _ Hu Hp Hv).
    rewrite (get_user_role_profile _ _ _ Hprof).
    destruct R as [R | R]; rewrite R; reflexivity.
Qed.

Lemma vehicle_detail_ownership_witness :
  vehicle_detail 3 (Sample.get_as (Authenticated Sample.john) "/vehicles/3/" [])
                 Sample.world
  = (Raise PermissionDenied, Sample.world)
  /\ vehicle_detail 1 (Sample.get_as (Authenticated Sample.john) "/vehicles/1/" [])
                    Sample.world
     = (Ok (detail_page Sample.store Sample.truck), Sample.world)
  /\ vehicle_detail 3 (Sample.get_as (Authenticated Sample.sam) "/vehicles/3/" [])
                    Sample.world
     = (Ok (detail_page Sample.store Sample.bus), Sample.world).
Proof.
  split; [|split].
  - apply (proj1 (proj1 (vehicle_detail_ownership 3
             (Sample.get_as (Authenticated Sample.john) "/vehicles/3/" [])
             Sample.world Sample.john (Profile.mk 13 3 "driver") Sample.bus
             eq_refl eq_refl eq_refl) eq_refl eq_refl)).
    simpl. discriminate.
  - apply (proj2 (proj1 (vehicle_detail_ownership 1
             (Sample.get_as (Authenticated Sample.john) "/vehicles/1/" [])
             Sample.world Sample.john (Profile.mk 13 3 "driver") Sample.truck
             eq_refl eq_refl eq_refl) eq_refl eq_refl)).
    reflexivity.
  - apply (proj2 (vehicle_detail_ownership 3
             (Sample.get_as (Authenticated Sample.sam) "/vehicles/3/" [])
             Sample.world Sample.sam (Profile.mk 12 2 "Staff") Sample.bus
             eq_refl eq_refl eq_refl)).
    right. reflexivity.
Defined.

(** ** Login *)

Lemma eq_str_Some (s t : string) : eq_str (Some s) t = true <-> s = t.
Proof. simpl. apply String.eqb_eq. Qed.

(** C10: an identity that gives valid credentials, is no superuser and has
    no profile role among admin, staff and driver (roles compared up to
    case, as everywhere) is logged out again by the login view: the answer
    is the login form with an error, and the session names no user. *)
Theorem login_view_role_not_assigned :
  forall (request : HttpRequest) (w : World) (u : User.t),
    method request = POST ->
    authenticate (db w) (strip (qd_get_default (POST_ request) "username" ""))
                 (qd_get_default (POST_ request) "password" "") = Some u ->
    User.is_superuser u = false ->
    (forall p, profile_of (db w) u = Some p ->
               ~ In (lower (Profile.role p)) Profile.ROLE_CHOICES) ->
    login_view request w
    = (Ok (Render "login.html" (CtxError "Role not assigned to this user.") 200),
       mkWorld (db w) None (messages w))
    /\ session (snd (login_view request w)) = None.
Proof.
  intros request w u Hm Ha S Hrole.
  assert (E : login_view request w
              = (Ok (Render "login.html"
                            (CtxError "Role not assigned to this user.") 200),
                 mkWorld (db w) None (messages w))).
  { unfold login_view. rewrite Hm. unfold bind, read_db. rewrite Ha.
    cbn [login logout db session messages]. rewrite S, andb_false_r, orb_false_r.
    destruct (get_user_role (db w) (Authenticated u)) as [r|] eqn:R.
    - simpl in R. destruct (profile_of (db w) u) as [p|] eqn:P; [|discriminate].
      rewrite or_empty_Some in R. injection R as <-.
      specialize (Hrole p eq_refl).
      destruct (eq_str (Some (lower (Profile.role p))) "admin") eqn:A.
      { apply eq_str_Some in A. exfalso. apply Hrole. rewrite A. simpl. auto. }
      destruct (eq_str (Some (lower (Profile.role p))) "staff") eqn:B.
      { apply eq_str_Some in B. exfalso. apply Hrole. rewrite B. simpl. auto. }
      destruct (eq_str (Some (lower (Profile.role p))) "driver") eqn:C.
      { apply eq_str_Some in C. exfalso. apply Hrole. rewrite C. simpl. auto. }
      reflexivity.
    - reflexivity. }
  split; [exact E|]. rewrite E. reflexivity.
Qed.

Lemma login_view_role_not_assigned_witness :
  login_view (Sample.post_as AnonymousUser "/login/"
                [("username", " nobody "); ("password", "pw-nobody")])
             Sample.world
  = (Ok (Render "login.html" (CtxError "Role not assigned to this user.") 200),
     Sample.world).
Proof.
  refine (proj1 (login_view_role_not_assigned
                   (Sample.post_as AnonymousUser "/login/"
                      [("username", " nobody "); ("password", "pw-nobody")])
                   Sample.world Sample.nobody _ _ _ _)); try reflexivity.
  intros p E. vm_compute in E. discriminate E.
Defined.

(** ** The location feed *)

Lemma driver_username_ok (db : Store) (vs : list Vehicle.t) (v : Vehicle.t) :
  drivers_exist db vs -> In v vs ->
  driver_username db v = Ok (driver_name db v).
Proof.
  intros FK Hin. unfold driver_username, driver_name.
  destruct (Vehicle.current_driver_id v) as [uid|] eqn:D; [|reflexivity].
  specialize (FK v uid Hin D).
  destruct (get_user db uid); [reflexivity | contradiction].
Qed.

Lemma drivers_exist_tail (db : Store) (v : Vehicle.t) (vs : list Vehicle.t) :
  drivers_exist db (v :: vs) -> drivers_exist db vs.
Proof. intros FK x uid Hin. apply FK. now right. Qed.

(** The loop returns, and what it appends to [data] is one element per
    vehicle of [vs] that has a position, in the order of [vs]. *)
Lemma track_loop_spec (db : Store) (vs : list Vehicle.t) :
  drivers_exist db vs ->
  forall data, exists added,
    track_loop db vs data = Ok (data ++ added)
    /\ Forall2 (is_feed_entry db) (filter has_position vs) added.
Proof.
  induction vs as [|v vs IH]; intros FK data.
  - exists []. rewrite app_nil_r. split; [reflexivity | constructor].
  - specialize (IH (drivers_exist_tail _ _ _ FK)).
    cbn [track_loop filter]. unfold has_position at 1.
    destruct (Vehicle.latitude v) as [lat|] eqn:La;
      [destruct (Vehicle.longitude v) as [lng|] eqn:Lo|]; cbn [is_some andb].
    + rewrite (driver_username_ok db (v :: vs) v FK (or_introl eq_refl)).
      destruct (IH (data ++ [mkEntry (Vehicle.id v) (Vehicle.registration_no v)
                                     (Vehicle.make v) (Vehicle.model v)
                                     (Vehicle.status v) (driver_name db v) lat lng
                                     (Vehicle.last_location_time v)]))
        as (added & E & F).
      eexists (_ :: added). split.
      * rewrite E, <- app_assoc. reflexivity.
      * constructor; [|exact F]. exists lat, lng. auto.
    + destruct (IH data) as (added & E & F). exists added. auto.
    + destruct (IH data) as (added & E & F). exists added. auto.
Qed.

Lemma Forall2_In_r {A B} (R : A -> B -> Prop) (l : list A) (l' : list B) (b : B) :
  Forall2 R l l' -> In b l' -> exists a, In a l /\ R a b.
Proof.
  induction 1 as [|x y l l' Hxy _ IH]; intros Hin; [contradiction|].
  destruct Hin as [<- | Hin].
  - exists x. split; [now left | assumption].
  - destruct (IH Hin) as (a & Ha & Hr). exists a. split; [now right | assumption].
Qed.

Lemma NoDup_map_inj {A B} (f : A -> B) (l : list A) (x y : A) :
  NoDup (map f l) -> In x l -> In y l -> f x = f y -> x = y.
Proof.
  induction l as [|a l IH]; intros ND Hx Hy E; [contradiction|].
  simpl in ND. inversion ND as [|? ? Hnot ND']; subst.
  destruct Hx as [-> | Hx], Hy as [-> | Hy]; auto.
  - exfalso. apply Hnot. rewrite E. now apply in_map.
  - exfalso. apply Hnot. rewrite <- E. now apply in_map.
Qed.

(** C3: for a permitted request the feed is a JSON answer whose elements
    are, in storage order, one element of the stated shape for each vehicle
    that has both coordinates, and nothing else; with primary keys unique,
    no element carries the key of a vehicle lacking a coordinate. *)
Theorem vehicle_track_data_feed :
  forall (request : HttpRequest) (w : World) (u : User.t),
    user request = Authenticated u ->
    permits (db w) u ["admin"; "staff"] ->
    drivers_exist (db w) (vehicles (db w)) ->
    exists data,
      vehicle_track_data request w = (Ok (JsonResponse data), w)
      /\ Forall2 (is_feed_entry (db w))
                 (filter has_position (vehicles (db w))) data
      /\ (NoDup (map Vehicle.id (vehicles (db w))) ->
          forall v e, In v (vehicles (db w)) -> has_position v = false ->
                      In e data -> e_id e <> Vehicle.id v).
Proof.
  intros request w u Hu Hp FK.
  destruct (track_loop_spec (db w) (vehicles (db w)) FK []) as (data & E & F).
  exists data. split; [|split].
  - unfold vehicle_track_data.
    pass_gate Hu Hp.
    unfold bind, read_db, lift. rewrite E. reflexivity.
  - exact F.
  - intros ND v e Hv Hpos He Hid.
    destruct (Forall2_In_r _ _ _ _ F He) as (v' & Hv' & lat & lng & La & Lo & ->).
    apply filter_In in Hv'. destruct Hv' as [Hv' Hpos'].
    cbn [e_id] in Hid.
    assert (v' = v) by (apply (NoDup_map_inj Vehicle.id _ _ _ ND Hv' Hv Hid)).
    subst v'. congruence.
Qed.

Lemma vehicle_track_data_feed_witness :
  exists data,
    vehicle_track_data
      (Sample.get_as (Authenticated Sample.sam) "/admin/vehicles/track-data/" [])
      Sample.world
    = (Ok (JsonResponse data), Sample.world)
    /\ Forall2 (is_feed_entry Sample.store) [Sample.truck] data.
Proof.
  destruct (vehicle_track_data_feed
              (Sample.get_as (Authenticated Sample.sam) "/admin/vehicles/track-data/" [])
              Sample.world Sample.sam eq_refl) as (data & E & F & _).
  - right; right. exists (Profile.mk 12 2 "Staff"), "staff".
    split; [reflexivity | split; [right; left; reflexivity | reflexivity]].
  - intros v uid Hin D.
    destruct Hin as [<- | [<- | [<- | []]]]; simpl in D; try discriminate;
      injection D as <-; discriminate.
  - exists data. split; [exact E | exact F].
Defined.

(** ** Deleting a profile *)

Lemma find_filter_negb {A} (f : A -> bool) (l : list A) :
  find f (filter (fun x => negb (f x)) l) = None.
Proof.
  induction l as [|a l IH]; [reflexivity|]. simpl.
  destruct (f a) eqn:E; simpl; [assumption|]. rewrite E. assumption.
Qed.

Lemma Forall2_map_r {A B} (R : A -> B -> Prop) (f : A -> B) (l : list A) :
  (forall x, R x (f x)) -> Forall2 R l (map f l).
Proof. intros H. induction l; simpl; constructor; auto. Qed.

Lemma find_some_eqb {A} (key : A -> Z) (pk : Z) (l : list A) (a : A) :
  find (fun x => key x =? pk) l = Some a -> In a l /\ key a = pk.
Proof.
  intros H. apply find_some in H. destruct H as [Hin E].
  apply Z.eqb_eq in E. auto.
Qed.

Lemma null_driver_spec (uid : Z) (v : Vehicle.t) :
  driver_nulled uid v (null_driver uid v).
Proof.
  unfold driver_nulled, null_driver.
  destruct (opt_Z_eqb (Vehicle.current_driver_id v) (Some uid)) eqn:E.
  - apply opt_Z_eqb_eq in E. split; [intros _; simpl; auto | contradiction].
  - apply opt_Z_eqb_neq in E. split; [contradiction | reflexivity].
Qed.

Lemma null_mcreator_spec (uid : Z) (m : MaintenanceLog.t) :
  mcreator_nulled uid m (null_mcreator uid m).
Proof.
  unfold mcreator_nulled, null_mcreator.
  destruct (opt_Z_eqb (MaintenanceLog.created_by_id m) (Some uid)) eqn:E.
  - apply opt_Z_eqb_eq in E. split; [intros _; simpl; auto | contradiction].
  - apply opt_Z_eqb_neq in E. split; [contradiction | reflexivity].
Qed.

Lemma null_fcreator_spec (uid : Z) (f : FuelLog.t) :
  fcreator_nulled uid f (null_fcreator uid f).
Proof.
  unfold fcreator_nulled, null_fcreator.
  destruct (opt_Z_eqb (FuelLog.created_by_id f) (Some uid)) eqn:E.
  - apply opt_Z_eqb_eq in E. split; [intros _; simpl; auto | contradiction].
  - apply opt_Z_eqb_neq in E. split; [contradiction | reflexivity].
Qed.

(** C5: for a profile [P] whose identity is stored, the delete-profile
    operation, asked by an admin, ends with neither [P] nor its identity
    in the store; every vehicle that identity drove has a null driver and
    every log record it created a null creator, and the other vehicles and
    records are as before. *)
Theorem delete_profile_cascade :
  forall (pk : Z) (request : HttpRequest) (w : World) (u : User.t)
         (P : Profile.t) (U : User.t),
    user request = Authenticated u ->
    permits (db w) u ["admin"] ->
    get_profile (db w) pk = Some P ->
    get_user (db w) (Profile.user_id P) = Some U ->
    exists w',
      delete_profile pk request w = (Ok (Redirect "admin_dashboard" None), w')
      /\ get_profile (db w') pk = None
      /\ (forall p, In p (profiles (db w')) ->
                    Profile.id p <> Profile.id P
                    /\ Profile.user_id p <> User.id U)
      /\ get_user (db w') (User.id U) = None
      /\ (forall x, In x (users (db w')) -> User.id x <> User.id U)
      /\ Forall2 (driver_nulled (User.id U)) (vehicles (db w)) (vehicles (db w'))
      /\ Forall2 (mcreator_nulled (User.id U))
                 (maintenance_logs (db w)) (maintenance_logs (db w'))
      /\ Forall2 (fcreator_nulled (User.id U)) (fuel_logs (db w)) (fuel_logs (db w')).
Proof.
  intros pk request w u P U Hu Hp HP HU.
  destruct (find_some_eqb _ _ _ _ HP) as [_ HPid].
  eexists. split.
  { unfold delete_profile. pass_gate Hu Hp.
    unfold bind, read_db, get_object_or_404. rewrite HP. cbn [ret].
    rewrite HU. cbn [ret write_db messages_success redirect]. reflexivity. }
  cbn [db delete_profile_row delete_user users profiles vehicles
          maintenance_logs fuel_logs].
  repeat split.
  - unfold get_profile. cbn [profiles]. rewrite HPid. apply find_filter_negb.
  - apply filter_In in H. destruct H as [H Hid]. apply filter_In in H.
    apply negb_true_iff, Z.eqb_neq in Hid. exact Hid.
  - apply filter_In in H. destruct H as [H _]. apply filter_In in H.
    destruct H as [_ Huid]. apply negb_true_iff, Z.eqb_neq in Huid. exact Huid.
  - unfold get_user. cbn [users]. apply find_filter_negb.
  - intros x Hx. apply filter_In in Hx. destruct Hx as [_ Hid].
    apply negb_true_iff, Z.eqb_neq in Hid. exact Hid.
  - apply Forall2_map_r, null_driver_spec.
  - apply Forall2_map_r, null_mcreator_spec.
  - apply Forall2_map_r, null_fcreator_spec.
Qed.

Lemma delete_profile_cascade_witness :
  exists w',
    delete_profile 13 (Sample.post_as (Authenticated Sample.alice)
                                      "/admin/profiles/13/delete/" [])
                   Sample.world
    = (Ok (Redirect "admin_dashboard" None), w')
    /\ get_profile (db w') 13 = None
    /\ get_user (db w') 3 = None.
Proof.
  destruct (delete_profile_cascade 13
              (Sample.post_as (Authenticated Sample.alice)
                              "/admin/profiles/13/delete/" [])
              Sample.world Sample.alice (Profile.mk 13 3 "driver") Sample.john
              eq_refl) as (w' & E & HP & _ & HU & _).
  - right; left. exists (Profile.mk 11 1 "admin"). split; reflexivity.
  - reflexivity.
  - reflexivity.
  - exists w'. split; [exact E | split; [exact HP | exact HU]].
Defined.

(** ** Saving a vehicle form *)

Lemma same_columns_refl (a : Vehicle.t) : same_columns a a.
Proof. repeat split. Qed.

Lemma save_vehicle_stored (inst : Vehicle.t) (db : Store) :
  In (fst (save_vehicle inst db)) (vehicles (snd (save_vehicle inst db)))
  /\ same_columns (fst (save_vehicle inst db)) inst.
Proof.
  unfold save_vehicle. destruct (Vehicle.id inst) as [pk|].
  - destruct (get_vehicle db pk) as [v0|] eqn:G; cbn [fst snd set_vehicles vehicles].
    + split; [|apply same_columns_refl].
      apply find_some in G. destruct G as [Hin E].
      apply in_map_iff. exists v0. rewrite E. auto.
    + split; [|apply same_columns_refl]. apply in_or_app. right. now left.
  - cbn [fst snd set_vehicles vehicles]. split.
    + apply in_or_app. right. now left.
    + repeat split.
Qed.

Lemma Model_save_returns (inst : Vehicle.t) (w : World) :
  Model_save inst w
  = (Ok (fst (save_vehicle inst (db w))),
     mkWorld (snd (save_vehicle inst (db w))) (session w) (messages w)).
Proof. unfold Model_save. destruct (save_vehicle inst (db w)). reflexivity. Qed.

Lemma VehicleForm_save_returns (env : Env) (form : BoundForm) (w : World) :
  is_valid form = true ->
  cleaned_place_name form <> "" ->
  VehicleForm_save env form true w
  = Model_save (located env (cleaned_place_name form) (instance form)) w.
Proof.
  intros V Hp. apply truthy_true_iff in Hp.
  unfold VehicleForm_save, ModelForm_save, located. rewrite V, Hp.
  unfold bind, try_except, lift, ret. cbn [andb].
  destruct (_GEOCODER_AVAILABLE env); [|reflexivity].
  destruct (Nominatim env "vehicle_fleet_system") as [[]|e]; [|reflexivity].
  destruct (geocode env (cleaned_place_name form)) as [[[lat lng]|]|e]; reflexivity.
Qed.

(** C7: saving a valid vehicle form that carries a place name always
    returns and stores the vehicle; when the geocoder is there and resolves
    the place, the stored vehicle has the new latitude, longitude and
    timestamp; when the geocoder is missing, cannot be set up, finds
    nothing or fails, the stored vehicle keeps the location it had.  The
    view that adds a vehicle answers with the redirect in every case. *)
Theorem VehicleForm_save_geocoding :
  forall (env : Env) (form : BoundForm) (w : World),
    is_valid form = true ->
    cleaned_place_name form <> "" ->
    exists saved w',
      VehicleForm_save env form true w = (Ok saved, w')
      /\ In saved (vehicles (db w'))
      /\ Vehicle.registration_no saved = Vehicle.registration_no (instance form)
      /\ (forall lat lng,
             _GEOCODER_AVAILABLE env = true ->
             Nominatim env "vehicle_fleet_system" = Ok tt ->
             geocode env (cleaned_place_name form) = Ok (Some (lat, lng)) ->
             Vehicle.latitude saved = Some lat
             /\ Vehicle.longitude saved = Some lng
             /\ Vehicle.last_location_time saved = Some (timezone_now env))
      /\ (_GEOCODER_AVAILABLE env = false
          \/ (exists e, Nominatim env "vehicle_fleet_system" = Raise e)
          \/ geocode env (cleaned_place_name form) = Ok None
          \/ (exists e, geocode env (cleaned_place_name form) = Raise e) ->
          Vehicle.latitude saved = Vehicle.latitude (instance form)
          /\ Vehicle.longitude saved = Vehicle.longitude (instance form)
          /\ Vehicle.last_location_time saved
             = Vehicle.last_location_time (instance form))
      /\ (forall request u,
             user request = Authenticated u ->
             permits (db w) u ["admin"; "staff"] ->
             method request = POST ->
             form = VehicleForm (db w) (POST_ request) Vehicle.new ->
             add_vehicle env request w
             = (Ok (Redirect "vehicle_list" None),
                mkWorld (db w') (session w) (messages w ++ ["Vehicle added."]))).
Proof.
  intros env form w V Hp.
  pose proof (VehicleForm_save_returns env form w V Hp) as E.
  rewrite Model_save_returns in E.
  set (inst := located env (cleaned_place_name form) (instance form)) in *.
  destruct (save_vehicle_stored inst (db w)) as [Hin Hcols].
  destruct Hcols as (C1 & _ & _ & _ & _ & _ & C7 & C8 & C9).
  exists (fst (save_vehicle inst (db w))).
  eexists. split; [exact E|]. cbn [db].
  split; [exact Hin|]. split; [|split; [|split]].
  - rewrite C1. unfold inst, located.
    destruct (_GEOCODER_AVAILABLE env); [|reflexivity].
    destruct (Nominatim env _) as [[]|e]; [|reflexivity].
    destruct (geocode env _) as [[[lat lng]|]|e]; reflexivity.
  - intros lat lng A N G. rewrite C7, C8, C9. unfold inst, located.
    rewrite A, N, G. repeat split.
  - intros H. rewrite C7, C8, C9. unfold inst, located.
    destruct (_GEOCODER_AVAILABLE env); [|repeat split].
    destruct (Nominatim env _) as [[]|e]; [|repeat split].
    destruct (geocode env _) as [[[lat lng]|]|e]; try (repeat split; fail).
    destruct H as [H | [(e & H) | [H | (e & H)]]]; discriminate.
  - intros request u Hu Hperm Hm Hform.
    unfold add_vehicle.
    pass_gate Hu Hperm. rewrite Hm.
    unfold bind at 1. unfold read_db at 1. cbv iota beta. rewrite <- Hform, V.
    unfold bind. rewrite E. reflexivity.
Qed.

Lemma VehicleForm_save_geocoding_witness :
  let form := VehicleForm Sample.store
                [("registration_no", "DL05CD4321"); ("status", "active");
                 ("place_name", " Bengaluru ")] Vehicle.new in
  (exists saved w',
      VehicleForm_save Sample.env_found form true Sample.world = (Ok saved, w')
      /\ In saved (vehicles (db w'))
      /\ Vehicle.latitude saved = Some 12971599)
  /\ (exists saved w',
         VehicleForm_save Sample.env_down form true Sample.world = (Ok saved, w')
         /\ In saved (vehicles (db w'))
         /\ Vehicle.latitude saved = None).
Proof.
  intros form. split.
  - destruct (VehicleForm_save_geocoding Sample.env_found form Sample.world)
      as (saved & w' & E & Hin & _ & Hfound & _).
    + reflexivity.
    + discriminate.
    + exists saved, w'. split; [exact E | split; [exact Hin|]].
      apply (Hfound 12971599 77594563); reflexivity.
  - destruct (VehicleForm_save_geocoding Sample.env_down form Sample.world)
      as (saved & w' & E & Hin & _ & _ & Hkept & _).
    + reflexivity.
    + discriminate.
    + exists saved, w'. split; [exact E | split; [exact Hin|]].
      apply Hkept. right; right; right. exists GeocoderError. reflexivity.
Defined.

(** ** Adding a vehicle whose registration number is taken *)

Lemma unique_errors_taken (db : Store) (inst v : Vehicle.t) (R : string) :
  Vehicle.id inst = None -> In v (vehicles db) ->
  Vehicle.registration_no v = R ->
  unique_errors db inst (inl R) = [("registration_no", unique)].
Proof.
  intros Hid Hin HR. unfold unique_errors. rewrite Hid.
  destruct (filter _ (vehicles db)) as [|x l] eqn:F; [|reflexivity].
  exfalso.
  assert (H : In v (filter (fun v => String.eqb (Vehicle.registration_no v) R)
                           (vehicles db))).
  { apply filter_In. split; [assumption|]. rewrite HR. apply String.eqb_refl. }
  rewrite F in H. contradiction.
Qed.

(** C4: when the store holds a vehicle with registration number [R], a
    permitted request to add a vehicle whose registration field cleans to
    [R] is answered with the form again, carrying the uniqueness error on
    the registration field; nothing raises, and the store, with the first
    vehicle in it, is what it was. *)
Theorem add_vehicle_duplicate_registration :
  forall (env : Env) (request : HttpRequest) (w : World) (u : User.t)
         (v : Vehicle.t) (R : string),
    user request = Authenticated u ->
    permits (db w) u ["admin"; "staff"] ->
    method request = POST ->
    In v (vehicles (db w)) ->
    Vehicle.registration_no v = R ->
    clean_char (Some 30%nat) true (qd_get (POST_ request) "registration_no") = inl R ->
    exists errs,
      add_vehicle env request w = (Ok (Render "vehicles/add.html" (CtxForm errs) 200), w)
      /\ In ("registration_no", unique) errs
      /\ vehicles (db (snd (add_vehicle env request w))) = vehicles (db w)
      /\ In v (vehicles (db (snd (add_vehicle env request w)))).
Proof.
  intros env request w u v R Hu Hp Hm Hin HR Hclean.
  set (form := VehicleForm (db w) (POST_ request) Vehicle.new).
  assert (Herr : In ("registration_no", unique) (errors form)).
  { unfold form, VehicleForm. cbn [errors]. rewrite Hclean.
    rewrite (unique_errors_taken (db w) _ v R); [| reflexivity | assumption | assumption].
    repeat (apply in_or_app; right). now left. }
  assert (E : add_vehicle env request w
              = (Ok (Render "vehicles/add.html" (CtxForm (errors form)) 200), w)).
  { unfold add_vehicle.
    pass_gate Hu Hp. rewrite Hm.
    unfold bind, read_db. fold form. unfold is_valid.
    destruct (errors form); [contradiction | reflexivity]. }
  exists (errors form). rewrite E. cbn [snd]. auto.
Qed.

Lemma add_vehicle_duplicate_registration_witness :
  exists errs,
    add_vehicle Sample.env_found
      (Sample.post_as (Authenticated Sample.sam) "/admin/vehicles/add/"
         [("registration_no", " KA01AB1234"); ("make", "Tata");
          ("status", "active"); ("place_name", "Mysuru")])
      Sample.world
    = (Ok (Render "vehicles/add.html" (CtxForm errs) 200), Sample.world)
    /\ In ("registration_no", unique) errs.
Proof.
  destruct (add_vehicle_duplicate_registration Sample.env_found
              (Sample.post_as (Authenticated Sample.sam) "/admin/vehicles/add/"
                 [("registration_no", " KA01AB1234"); ("make", "Tata");
                  ("status", "active"); ("place_name", "Mysuru")])
              Sample.world Sample.sam Sample.truck "KA01AB1234" eq_refl)
    as (errs & E & Hin & _).
  - right; right. exists (Profile.mk 12 2 "Staff"), "staff".
    split; [reflexivity | split; [right; left; reflexivity | reflexivity]].
  - reflexivity.
  - left. reflexivity.
  - reflexivity.
  - reflexivity.
  - exists errs. split; [exact E | exact Hin].
Defined.

(** ** Assigning a driver *)

Lemma role_required_cases (roles : list string) (view : View)
      (request : HttpRequest) (w : World) :
  role_required (map Some roles) view request w = view request w
  \/ role_required (map Some roles) view request w = (Raise PermissionDenied, w)
  \/ role_required (map Some roles) view request w
     = (Ok (Redirect "login" (Some (path request))), w).
Proof.
  destruct (user request) as [|u] eqn:Hu.
  - right; right. now apply role_required_anonymous.
  - rewrite (role_required_unfold _ _ _ _ _ Hu).
    destruct (_ || _ || _); auto.
Qed.

Lemma clean_current_driver_eligible (db : Store) (raw : option string) (uid : Z) :
  clean_current_driver db raw = inl (Some uid) -> eligible_driver db uid.
Proof.
  unfold clean_current_driver.
  destruct (truthy (or_empty raw)); [|discriminate].
  destruct (parse_int (or_empty raw)) as [pk|]; [|discriminate].
  destruct (find _ (driver_qs db)) as [U|] eqn:F; [|discriminate].
  intros E. injection E as <-.
  apply find_some in F. destruct F as [HU _].
  apply filter_In in HU. destruct HU as [HU Hp].
  apply existsb_exists in Hp. destruct Hp as (p & Hp & Hc).
  apply andb_true_iff in Hc. destruct Hc as [Hid Hrole].
  apply Z.eqb_eq in Hid. apply String.eqb_eq in Hrole.
  change (lower "driver") with "driver" in Hrole.
  exists U, p. repeat split; auto.
  intros Hc. simpl in Hc.
  destruct Hc as [E | [E | [E | []]]]; rewrite <- E in *;
    try reflexivity; vm_compute in Hrole; discriminate Hrole.
Qed.

Lemma find_map_replace {A} (f : A -> bool) (inst : A) (l : list A) (a : A) :
  find f l = Some a -> f inst = true ->
  find f (map (fun x => if f x then inst else x) l) = Some inst.
Proof.
  intros H Hi. induction l as [|x l IH]; [discriminate|]. simpl in *.
  destruct (f x) eqn:E.
  - rewrite Hi. reflexivity.
  - rewrite E. auto.
Qed.

Lemma app_nil_both {A} (l1 l2 : list A) : l1 ++ l2 = [] -> l1 = [] /\ l2 = [].
Proof. destruct l1; simpl; [auto | discriminate]. Qed.

Lemma field_errors_nil {A} (name : string) (c : A + ErrorList) :
  field_errors name c = [] -> exists a, c = inl a.
Proof. destruct c as [a|[e es]]; simpl; [eauto | discriminate]. Qed.

Lemma assign_vehicle_cases (pk : Z) (request : HttpRequest) (w : World)
      (v : Vehicle.t) :
  get_vehicle (db w) pk = Some v ->
  (exists r, assign_vehicle pk request w = (r, w))
  \/ (is_valid (AssignVehicleForm (db w) (POST_ request) v) = true
      /\ assign_vehicle pk request w
         = (Ok (Redirect "vehicle_list" None),
            mkWorld (snd (save_vehicle
                            (instance (AssignVehicleForm (db w) (POST_ request) v))
                            (db w)))
                    (session w) (messages w ++ ["Vehicle updated."]))).
Proof.
  intros Hv. unfold assign_vehicle.
  change [Some "admin"; Some "staff"] with (map Some ["admin"; "staff"]).
  match goal with
  | |- context [role_required _ ?view request w] =>
      destruct (role_required_cases ["admin"; "staff"] view request w)
        as [G | [G | G]]
  end; rewrite G; [| left; eauto | left; eauto].
  clear G. unfold bind, read_db, get_object_or_404. rewrite Hv. cbn [ret].
  destruct (method request); [left; eexists; reflexivity|].
  destruct (is_valid (AssignVehicleForm (db w) (POST_ request) v)) eqn:V;
    [|left; eexists; reflexivity].
  right. split; [reflexivity|].
  unfold ModelForm_save. rewrite V, Model_save_returns. reflexivity.
Qed.

(** C8: whatever the request, the assign view leaves the vehicle stored
    under the key with the registration number, make, model, year,
    latitude, longitude and location timestamp it had; and either the store
    is untouched, or the form was saved and the driver now recorded, when
    there is one, is an identity whose profile role is "driver". *)
Theorem assign_vehicle_frame :
  forall (pk : Z) (request : HttpRequest) (w : World) (v : Vehicle.t),
    get_vehicle (db w) pk = Some v ->
    exists v',
      get_vehicle (db (snd (assign_vehicle pk request w))) pk = Some v'
      /\ assign_frame v v'
      /\ (forall x, In x (vehicles (db w)) -> Vehicle.id x <> Some pk ->
                    In x (vehicles (db (snd (assign_vehicle pk request w)))))
      /\ (snd (assign_vehicle pk request w) = w
          \/ (fst (assign_vehicle pk request w) = Ok (Redirect "vehicle_list" None)
              /\ forall uid, Vehicle.current_driver_id v' = Some uid ->
                             eligible_driver (db w) uid)).
Proof.
  intros pk request w v Hv.
  destruct (assign_vehicle_cases pk request w v Hv) as [(r & E) | (V & E)];
    rewrite E; cbn [fst snd db].
  { exists v. split; [exact Hv|]. split; [repeat split | split; [auto | now left]]. }
  set (form := AssignVehicleForm (db w) (POST_ request) v) in *.
  assert (Hid : Vehicle.id v = Some pk).
  { pose proof Hv as F. apply find_some in F. destruct F as [_ F].
    now apply opt_Z_eqb_eq in F. }
  assert (Hinst : Vehicle.id (instance form) = Some pk) by exact Hid.
  unfold save_vehicle. rewrite Hinst, Hv. cbn [fst snd set_vehicles vehicles].
  exists (instance form). split; [|split; [|split]].
  - unfold get_vehicle. cbn [vehicles].
    apply (find_map_replace (fun x => opt_Z_eqb (Vehicle.id x) (Some pk)) _ _ v Hv).
    rewrite Hinst. apply opt_Z_eqb_eq. reflexivity.
  - repeat split.
  - intros x Hx Hne. apply in_map_iff. exists x. split; [|assumption].
    apply opt_Z_eqb_neq in Hne. rewrite Hne. reflexivity.
  - right. split; [reflexivity|]. intros uid Hd.
    unfold is_valid in V. destruct (errors form) eqn:Er; [|discriminate].
    unfold form, AssignVehicleForm in Er. cbn [errors] in Er.
    apply app_nil_both in Er. destruct Er as [Ed _].
    apply field_errors_nil in Ed. destruct Ed as (d & Ed).
    unfold form, AssignVehicleForm in Hd. cbn [instance Vehicle.current_driver_id] in Hd.
    rewrite Ed in Hd. cbn [assign] in Hd. subst d.
    exact (clean_current_driver_eligible _ _ _ Ed).
Qed.

Lemma assign_vehicle_frame_witness :
  exists v',
    get_vehicle
      (db (snd (assign_vehicle 2
                  (Sample.post_as (Authenticated Sample.sam)
                     "/admin/vehicles/2/assign/"
                     [("current_driver", "4"); ("status", "active")])
                  Sample.world))) 2
    = Some v'
    /\ assign_frame Sample.van v'.
Proof.
  destruct (assign_vehicle_frame 2
              (Sample.post_as (Authenticated Sample.sam)
                 "/admin/vehicles/2/assign/"
                 [("current_driver", "4"); ("status", "active")])
              Sample.world Sample.van eq_refl) as (v' & G & F & _).
  exists v'. split; [exact G | exact F].
Defined.

(** ** Listing vehicles *)

Lemma prefix_spec (n h : string) :
  String.prefix n h = true <-> exists b, h = (n ++ b)%string.
Proof.
  revert h. induction n as [|c n IH]; intros h.
  - split; [intros _; exists h; reflexivity | intros _; destruct h; reflexivity].
  - destruct h as [|d h]; simpl.
    + split; [discriminate | intros (b & E); discriminate].
    + destruct (ascii_dec c d) as [->|Hne].
      * rewrite IH. split; intros (b & E); exists b; congruence.
      * split; [discriminate | intros (b & E); congruence].
Qed.

Lemma contains_spec (hay needle : string) :
  contains hay needle = true <-> exists a b, hay = (a ++ needle ++ b)%string.
Proof.
  induction hay as [|c hay IH].
  - cbn [contains]. rewrite orb_false_r, prefix_spec. split.
    + intros (b & E). exists ""%string, b. exact E.
    + intros (a & b & E). destruct a; [|discriminate]. exists b. exact E.
  - cbn [contains]. rewrite orb_true_iff, prefix_spec, IH. split.
    + intros [(b & E) | (a & b & E)].
      * exists ""%string, b. exact E.
      * exists (String c a), b. simpl. now rewrite E.
    + intros (a & b & E). destruct a as [|d a].
      * left. exists b. exact E.
      * right. simpl in E. injection E as -> E. eauto.
Qed.

Lemma icontains_spec (field q : string) :
  icontains field q = true <-> contains_ci field q.
Proof. apply contains_spec. Qed.

Lemma contains_ci_empty (field : string) : contains_ci field "".
Proof. exists ""%string, (lower field). reflexivity. Qed.

(** *** Ordering *)

Section OrderBy.
Context {A : Type} (le : A -> A -> bool).
Hypothesis le_total : forall a b, le a b = true \/ le b a = true.

Let R (a b : A) : Prop := le a b = true.

Lemma insert_by_perm (x : A) (l : list A) :
  Permutation (x :: l) (insert_by le x l).
Proof.
  induction l as [|y l IH]; simpl; [reflexivity|].
  destruct (le x y); [reflexivity|].
  etransitivity; [apply perm_swap|]. now constructor.
Qed.

Lemma order_by_perm (l : list A) : Permutation l (order_by le l).
Proof.
  induction l as [|x l IH]; simpl; [constructor|].
  etransitivity; [|apply insert_by_perm]. now constructor.
Qed.

Lemma insert_by_hd (x y : A) (l : list A) :
  R y x -> HdRel R y l -> HdRel R y (insert_by le x l).
Proof.
  intros Hyx H. destruct l as [|z l]; simpl.
  - now constructor.
  - inversion H; subst. destruct (le x z); now constructor.
Qed.

Lemma insert_by_sorted (x : A) (l : list A) :
  Sorted R l -> Sorted R (insert_by le x l).
Proof.
  induction 1 as [|y l Hs IH Hd]; simpl.
  - repeat constructor.
  - destruct (le x y) eqn:E.
    + constructor; [now constructor | now constructor].
    + constructor; [assumption|].
      apply insert_by_hd; [|assumption].
      destruct (le_total x y) as [H | H]; [congruence | exact H].
Qed.

Lemma order_by_sorted (l : list A) : Sorted R (order_by le l).
Proof.
  induction l as [|x l IH]; simpl; [constructor|].
  now apply insert_by_sorted.
Qed.
End OrderBy.

Lemma Permutation_filter_both {A} (f : A -> bool) (l l' : list A) :
  Permutation l l' -> Permutation (filter f l) (filter f l').
Proof.
  induction 1 as [| x l l' _ IH | x y l | l l' l'' _ IH1 _ IH2]; simpl.
  - constructor.
  - destruct (f x); [now constructor | assumption].
  - destruct (f x), (f y); try reflexivity. apply perm_swap.
  - now transitivity (filter f l').
Qed.

Lemma count_filter_perm {A} (f : A -> bool) (l l' : list A) :
  Permutation l l' -> count (filter f l) = count (filter f l').
Proof.
  intros H. unfold count. f_equal.
  apply Permutation_length. now apply Permutation_filter_both.
Qed.

Lemma filter_filter_and {A} (f g : A -> bool) (l : list A) :
  filter g (filter f l) = filter (fun x => f x && g x) l.
Proof.
  induction l as [|a l IH]; [reflexivity|]. simpl.
  destruct (f a); simpl; [destruct (g a)|]; now rewrite IH.
Qed.

(** *** The filters of [vehicle_list] *)

Lemma filter_if {A} (c : bool) (f : A -> bool) (l : list A) :
  (if c then filter f l else l) = filter (fun x => negb c || f x) l.
Proof.
  destruct c; simpl; [reflexivity|].
  induction l as [|a l IH]; simpl; congruence.
Qed.

Lemma keep_listed (q s : string) (v : Vehicle.t) :
  keep q s v = true <-> listed q s v.
Proof.
  unfold keep, listed, text_filter.
  rewrite andb_true_iff, !orb_true_iff, !negb_true_iff, !icontains_spec,
    !truthy_false_iff, String.eqb_eq.
  split; intros [Hq Hs]; split.
  - destruct Hq as [-> | Hq]; [left; apply contains_ci_empty | tauto].
  - intros Hne. destruct Hs as [-> | Hs]; [contradiction | assumption].
  - destruct q; [left; reflexivity | right; tauto].
  - destruct s as [|c s]; [left; reflexivity | right; apply Hs; discriminate].
Qed.

Lemma vehicle_list_returns (request : HttpRequest) (w : World) (u : User.t) :
  user request = Authenticated u ->
  permits (db w) u ["admin"; "staff"] ->
  let q := strip (or_empty (qd_get (GET_ request) "q")) in
  let s := strip (or_empty (qd_get (GET_ request) "status")) in
  let qs := filter (keep q s) (vehicles (db w)) in
  vehicle_list request w
  = (Ok (Render "vehicles/list.html"
           (CtxList (order_by reg_le qs) q s
              (mkStats (count qs)
                 (count (filter (fun v => is_some (Vehicle.current_driver_id v)) qs))
                 (count (filter (fun v => String.eqb (Vehicle.status v) "maintenance")
                                qs))))
           200), w).
Proof.
  intros Hu Hp q s qs. unfold vehicle_list.
  pass_gate Hu Hp.
  unfold bind, read_db, render, ret. fold q. fold s.
  rewrite (filter_if (truthy q)), (filter_if (truthy s)), filter_filter_and.
  reflexivity.
Qed.

(** C6, as stated, fails: the query is trimmed before it is used, so a
    query of one blank filters nothing, and the list shows a vehicle whose
    registration number, make and model hold no blank at all. *)
Lemma vehicle_list_blank_query_lists_all :
  qd_get (GET_ Sample.list_blank_query) "q" = Some " "
  /\ exists vs stats,
    vehicle_list Sample.list_blank_query Sample.world
    = (Ok (Render "vehicles/list.html" (CtxList vs "" "" stats) 200), Sample.world)
    /\ In Sample.van vs
    /\ ~ contains_ci (Vehicle.registration_no Sample.van) " "
    /\ ~ contains_ci (Vehicle.make Sample.van) " "
    /\ ~ contains_ci (Vehicle.model Sample.van) " ".
Proof.
  split; [reflexivity|].
  eexists. eexists. split; [vm_compute; reflexivity|].
  split; [left; reflexivity|].
  repeat split; intros H; apply icontains_spec in H; vm_compute in H; discriminate.
Qed.

(** C6, amended: with [q] and [s] the query and the status filter after
    trimming surrounding white space, the list shows exactly the vehicles
    whose registration number, make or model contains [q] up to case and,
    when [s] is not empty, whose status is [s]; it is in ascending order
    of registration number, and the counts are the number shown, the
    number of those with a driver and the number of those in
    maintenance. *)
Theorem vehicle_list_filtered :
  forall (request : HttpRequest) (w : World) (u : User.t),
    user request = Authenticated u ->
    permits (db w) u ["admin"; "staff"] ->
    let q := strip (or_empty (qd_get (GET_ request) "q")) in
    let s := strip (or_empty (qd_get (GET_ request) "status")) in
    exists vs stats,
      vehicle_list request w
      = (Ok (Render "vehicles/list.html" (CtxList vs q s stats) 200), w)
      /\ (forall v, In v vs <-> In v (vehicles (db w)) /\ listed q s v)
      /\ (exists sel, (forall v, sel v = true <-> listed q s v)
                      /\ Permutation (filter sel (vehicles (db w))) vs)
      /\ Sorted (fun a b => String.leb (Vehicle.registration_no a)
                                       (Vehicle.registration_no b) = true) vs
      /\ total stats = count vs
      /\ assigned stats
         = count (filter (fun v => is_some (Vehicle.current_driver_id v)) vs)
      /\ maintenance stats
         = count (filter (fun v => String.eqb (Vehicle.status v) "maintenance") vs).
Proof.
  intros request w u Hu Hp q s.
  pose proof (vehicle_list_returns request w u Hu Hp) as E. cbv zeta in E.
  fold q in E. fold s in E.
  set (qs := filter (keep q s) (vehicles (db w))) in *.
  pose proof (order_by_perm reg_le qs) as P.
  eexists. eexists. split; [exact E|]. cbn [total assigned maintenance].
  split; [|split; [|split; [|split; [|split]]]].
  - intros v. rewrite <- keep_listed, <- filter_In. fold qs. split; intros H.
    + eapply Permutation_in; [symmetry; exact P | exact H].
    + eapply Permutation_in; [exact P | exact H].
  - exists (keep q s). split; [apply keep_listed | exact P].
  - apply (order_by_sorted reg_le).
    intros a b. apply String.leb_total.
  - unfold count. f_equal. now apply Permutation_length.
  - now apply count_filter_perm.
  - now apply count_filter_perm.
Qed.

Lemma vehicle_list_filtered_witness :
  exists vs stats,
    vehicle_list (Sample.get_as (Authenticated Sample.sam) "/admin/vehicles/"
                                [("q", (Sample.no_break_space ++ "ab ")%string);
                                 ("status", "active")])
                 Sample.world
    = (Ok (Render "vehicles/list.html" (CtxList vs "ab" "active" stats) 200),
       Sample.world)
    /\ (forall v, In v vs <-> In v (vehicles Sample.store) /\ listed "ab" "active" v).
Proof.
  destruct (vehicle_list_filtered
              (Sample.get_as (Authenticated Sample.sam) "/admin/vehicles/"
                             [("q", (Sample.no_break_space ++ "ab ")%string);
                              ("status", "active")])
              Sample.world Sample.sam eq_refl) as (vs & stats & E & M & _).
  - right; right. exists (Profile.mk 12 2 "Staff"), "staff".
    split; [reflexivity | split; [right; left; reflexivity | reflexivity]].
  - exists vs, stats. split; [exact E | exact M].
Defined.

(** * Further properties of the views *)

(** ** Login, by role *)

Lemma login_view_post (request : HttpRequest) (w : World) (u : User.t) :
  method request = POST ->
  authenticate (db w) (strip (qd_get_default (POST_ request) "username" ""))
               (qd_get_default (POST_ request) "password" "") = Some u ->
  login_view request w =
  match profile_of (db w) u with
  | Some p =>
      match dashboard_of (lower (Profile.role p)) with
      | Some route => (Ok (Redirect route None), logged_in w u)
      | None =>
          (Ok (Render "login.html" (CtxError "Role not assigned to this user.") 200),
           mkWorld (db w) None (messages w))
      end
  | None =>
      if User.is_superuser u
      then (Ok (Redirect "admin_dashboard" None), logged_in w u)
      else (Ok (Render "login.html" (CtxError "Role not assigned to this user.") 200),
            mkWorld (db w) None (messages w))
  end.
Proof.
  intros Hm Ha. unfold login_view. rewrite Hm. unfold bind, read_db. rewrite Ha.
  cbn [login logout db session messages]. unfold get_user_role, logged_in.
  destruct (profile_of (db w) u) as [p|].
  - rewrite or_empty_Some. unfold dashboard_of. cbn [eq_str is_None andb].
    rewrite orb_false_r.
    destruct (String.eqb (lower (Profile.role p)) "admin"); [reflexivity|].
    destruct (String.eqb (lower (Profile.role p)) "staff"); [reflexivity|].
    destruct (String.eqb (lower (Profile.role p)) "driver"); reflexivity.
  - cbn [eq_str is_None andb orb].
    destruct (User.is_superuser u); reflexivity.
Qed.

Lemma dashboard_of_choice (role : string) :
  (role = "admin" -> dashboard_of role = Some "admin_dashboard")
  /\ (role = "staff" -> dashboard_of role = Some "staff_dashboard")
  /\ (role = "driver" -> dashboard_of role = Some "driver_dashboard")
  /\ (~ In role Profile.ROLE_CHOICES -> dashboard_of role = None).
Proof.
  repeat split; try (intros ->; reflexivity).
  intros Hn. unfold dashboard_of.
  destruct (String.eqb_spec role "admin") as [->|_]; [exfalso; apply Hn; simpl; auto|].
  destruct (String.eqb_spec role "staff") as [->|_]; [exfalso; apply Hn; simpl; auto|].
  destruct (String.eqb_spec role "driver") as [->|_]; [exfalso; apply Hn; simpl; auto|].
  reflexivity.
Qed.

(** X1: with valid credentials and a profile, login goes by the profile
    role alone, compared up to case: admin to the admin dashboard, staff to
    the staff dashboard, driver to the driver dashboard, each with the
    session naming the user; the superuser flag plays no part. *)
Theorem login_view_redirect_by_role :
  forall (request : HttpRequest) (w : World) (u : User.t) (p : Profile.t),
    method request = POST ->
    authenticate (db w) (strip (qd_get_default (POST_ request) "username" ""))
                 (qd_get_default (POST_ request) "password" "") = Some u ->
    profile_of (db w) u = Some p ->
    (lower (Profile.role p) = "admin" ->
     login_view request w = (Ok (Redirect "admin_dashboard" None), logged_in w u))
    /\ (lower (Profile.role p) = "staff" ->
        login_view request w = (Ok (Redirect "staff_dashboard" None), logged_in w u))
    /\ (lower (Profile.role p) = "driver" ->
        login_view request w = (Ok (Redirect "driver_dashboard" None), logged_in w u)).
Proof.
  intros request w u p Hm Ha Hp.
  rewrite (login_view_post request w u Hm Ha), Hp.
  repeat split; intros R; rewrite R; reflexivity.
Qed.

Lemma login_view_redirect_by_role_witness :
  login_view (Sample.post_as AnonymousUser "/login/"
                [("username", "sam"); ("password", "pw-sam")]) Sample.world
  = (Ok (Redirect "staff_dashboard" None), logged_in Sample.world Sample.sam).
Proof.
  refine (proj1 (proj2 (login_view_redirect_by_role
            (Sample.post_as AnonymousUser "/login/"
               [("username", "sam"); ("password", "pw-sam")])
            Sample.world Sample.sam (Profile.mk 12 2 "Staff") _ _ _)) _);
    reflexivity.
Defined.

(** X2: the superuser flag counts at login only when there is no profile:
    a superuser without a profile is sent to the admin dashboard, while a
    superuser whose profile carries a role outside the three choices is
    logged out again like anyone else. *)
Theorem login_view_superuser :
  forall (request : HttpRequest) (w : World) (u : User.t),
    method request = POST ->
    authenticate (db w) (strip (qd_get_default (POST_ request) "username" ""))
                 (qd_get_default (POST_ request) "password" "") = Some u ->
    User.is_superuser u = true ->
    (profile_of (db w) u = None ->
     login_view request w = (Ok (Redirect "admin_dashboard" None), logged_in w u))
    /\ (forall p, profile_of (db w) u = Some p ->
                  ~ In (lower (Profile.role p)) Profile.ROLE_CHOICES ->
                  login_view request w
                  = (Ok (Render "login.html"
                                (CtxError "Role not assigned to this user.") 200),
                     mkWorld (db w) None (messages w))).
Proof.
  intros request w u Hm Ha S.
  rewrite (login_view_post request w u Hm Ha). split.
  - intros ->. rewrite S. reflexivity.
  - intros p -> Hn.
    destruct (dashboard_of_choice (lower (Profile.role p))) as (_ & _ & _ & H).
    rewrite (H Hn). reflexivity.
Qed.

Lemma login_view_superuser_witness :
  login_view (Sample.post_as AnonymousUser "/login/"
                [("username", "root"); ("password", "pw-root")]) Sample.world
  = (Ok (Redirect "admin_dashboard" None), logged_in Sample.world Sample.root).
Proof.
  refine (proj1 (login_view_superuser
            (Sample.post_as AnonymousUser "/login/"
               [("username", "root"); ("password", "pw-root")])
            Sample.world Sample.root _ _ _) _); reflexivity.
Defined.

(** ** The admin dashboard *)

Lemma count_filter_split {A} (f : A -> bool) (l : list A) :
  count (filter f l) + count (filter (fun x => negb (f x)) l) = count l.
Proof.
  unfold count. induction l as [|a l IH]; [reflexivity|].
  cbn [filter]. destruct (f a); cbn [negb Datatypes.length]; lia.
Qed.

Lemma count_filter_le {A} (f : A -> bool) (l : list A) :
  0 <= count (filter f l) <= count l.
Proof.
  pose proof (count_filter_split f l). unfold count in *. lia.
Qed.

Lemma count_filter_disjoint {A} (f g : A -> bool) (l : list A) :
  (forall x, f x = true -> g x = false) ->
  count (filter f l) + count (filter g l) <= count l.
Proof.
  intros D. unfold count. induction l as [|a l IH]; [reflexivity|].
  cbn [filter]. destruct (f a) eqn:F.
  - rewrite (D a F). cbn [Datatypes.length]. lia.
  - destruct (g a); cbn [Datatypes.length]; lia.
Qed.

Lemma admin_dashboard_returns (request : HttpRequest) (w : World) (u : User.t) :
  user request = Authenticated u ->
  permits (db w) u ["admin"] ->
  exists chart,
    admin_dashboard request w
    = (Ok (Render "admin/admin_dashboard.html"
             (CtxDashboard (vehicles (db w)) (profiles (db w))
                           (maintenance_logs (db w)) (fuel_logs (db w)) chart)
             200), w)
    /\ total_vehicles chart = count (vehicles (db w))
    /\ c_assigned chart + not_assigned chart = total_vehicles chart
    /\ under_maintenance chart + active chart <= total_vehicles chart.
Proof.
  intros Hu Hp. eexists. split.
  - unfold admin_dashboard. pass_gate Hu Hp. reflexivity.
  - cbn [total_vehicles c_assigned not_assigned under_maintenance active].
    split; [reflexivity|]. split.
    + apply count_filter_split.
    + apply count_filter_disjoint. intros v E.
      apply String.eqb_eq in E. rewrite E. reflexivity.
Qed.

(** X3: whoever the login view sends to the admin dashboard is let in by
    the dashboard's own gate: the next request of that identity gets the
    dashboard page, never the 403 page. *)
Theorem login_then_admin_dashboard :
  forall (request : HttpRequest) (w : World) (u : User.t) (next : HttpRequest),
    method request = POST ->
    authenticate (db w) (strip (qd_get_default (POST_ request) "username" ""))
                 (qd_get_default (POST_ request) "password" "") = Some u ->
    fst (login_view request w) = Ok (Redirect "admin_dashboard" None) ->
    user next = Authenticated u ->
    session (snd (login_view request w)) = Some (User.id u)
    /\ exists ctx,
        admin_dashboard next (snd (login_view request w))
        = (Ok (Render "admin/admin_dashboard.html" ctx 200),
           snd (login_view request w)).
Proof.
  intros request w u next Hm Ha Hr Hu.
  rewrite (login_view_post request w u Hm Ha) in *.
  assert (Hp : permits (db w) u ["admin"]
               /\ snd (match profile_of (db w) u with
                       | Some p =>
                           match dashboard_of (lower (Profile.role p)) with
                           | Some route => (Ok (Redirect route None), logged_in w u)
                           | None =>
                               (Ok (Render "login.html"
                                      (CtxError "Role not assigned to this user.") 200),
                                mkWorld (db w) None (messages w))
                           end
                       | None =>
                           if User.is_superuser u
                           then (Ok (Redirect "admin_dashboard" None), logged_in w u)
                           else (Ok (Render "login.html"
                                       (CtxError "Role not assigned to this user.") 200),
                                 mkWorld (db w) None (messages w))
                       end) = logged_in w u).
  { destruct (profile_of (db w) u) as [p|] eqn:P.
    - unfold dashboard_of in *.
      destruct (String.eqb_spec (lower (Profile.role p)) "admin") as [E|_].
      + split; [right; left; eauto | reflexivity].
      + destruct (String.eqb (lower (Profile.role p)) "staff"); [discriminate|].
        destruct (String.eqb (lower (Profile.role p)) "driver"); discriminate.
    - destruct (User.is_superuser u) eqn:S; [|discriminate].
      split; [left; assumption | reflexivity]. }
  destruct Hp as [Hp ->]. split; [reflexivity|].
  destruct (admin_dashboard_returns next (logged_in w u) u Hu Hp) as (chart & E & _).
  eexists. exact E.
Qed.

Lemma login_then_admin_dashboard_witness :
  exists ctx,
    admin_dashboard (Sample.get_as (Authenticated Sample.root) "/admin/dashboard/" [])
                    (logged_in Sample.world Sample.root)
    = (Ok (Render "admin/admin_dashboard.html" ctx 200),
       logged_in Sample.world Sample.root).
Proof.
  destruct (login_then_admin_dashboard
              (Sample.post_as AnonymousUser "/login/"
                 [("username", "root"); ("password", "pw-root")])
              Sample.world Sample.root
              (Sample.get_as (Authenticated Sample.root) "/admin/dashboard/" [])
              eq_refl eq_refl eq_refl eq_refl) as (_ & ctx & E).
  exists ctx. exact E.
Defined.

(** X4: on the admin dashboard the chart adds up: the assigned and the
    unassigned vehicles together are all the vehicles, and the vehicles in
    maintenance and the active ones are distinct vehicles among them. *)
Theorem admin_dashboard_chart_adds_up :
  forall (request : HttpRequest) (w : World) (u : User.t),
    user request = Authenticated u ->
    permits (db w) u ["admin"] ->
    exists chart,
      admin_dashboard request w
      = (Ok (Render "admin/admin_dashboard.html"
               (CtxDashboard (vehicles (db w)) (profiles (db w))
                             (maintenance_logs (db w)) (fuel_logs (db w)) chart)
               200), w)
      /\ total_vehicles chart = count (vehicles (db w))
      /\ c_assigned chart + not_assigned chart = total_vehicles chart
      /\ under_maintenance chart + active chart <= total_vehicles chart.
Proof. exact admin_dashboard_returns. Qed.

Lemma admin_dashboard_chart_adds_up_witness :
  exists chart,
    admin_dashboard (Sample.get_as (Authenticated Sample.alice) "/admin/dashboard/" [])
                    Sample.world
    = (Ok (Render "admin/admin_dashboard.html"
             (CtxDashboard (vehicles Sample.store) (profiles Sample.store)
                           (maintenance_logs Sample.store) (fuel_logs Sample.store)
                           chart) 200), Sample.world)
    /\ c_assigned chart + not_assigned chart = 3.
Proof.
  destruct (admin_dashboard_chart_adds_up
              (Sample.get_as (Authenticated Sample.alice) "/admin/dashboard/" [])
              Sample.world Sample.alice eq_refl) as (chart & E & T & S & _).
  - right; left. exists (Profile.mk 11 1 "admin"). split; reflexivity.
  - exists chart. split; [exact E|]. rewrite S, T. reflexivity.
Defined.

(** ** Unknown keys *)

(** X5: the views that take a vehicle key answer [Http404] for a key that
    is not stored, once the gate is passed, and leave the world as it was;
    the handler turns that into the 404 page. *)
Theorem unknown_vehicle_key_404 :
  forall (env : Env) (pk : Z) (request : HttpRequest) (w : World) (u : User.t),
    user request = Authenticated u ->
    get_vehicle (db w) pk = None ->
    (permits (db w) u ["admin"; "staff"; "driver"] ->
     vehicle_detail pk request w = (Raise Http404, w)
     /\ get_response (vehicle_detail pk) request w
        = (Render "404.html" CtxEmpty 404, w))
    /\ (permits (db w) u ["admin"; "staff"] ->
        assign_vehicle pk request w = (Raise Http404, w)
        /\ edit_vehicle env pk request w = (Raise Http404, w)
        /\ delete_vehicle pk request w = (Raise Http404, w)).
Proof.
  intros env pk request w u Hu Hv. split; intros Hp.
  - assert (E : vehicle_detail pk request w = (Raise Http404, w)).
    { unfold vehicle_detail. pass_gate Hu Hp.
      unfold bind, read_db, get_object_or_404. rewrite Hv. reflexivity. }
    split; [exact E|]. unfold get_response. rewrite E. reflexivity.
  - repeat split.
    + unfold assign_vehicle. pass_gate Hu Hp.
      unfold bind, read_db, get_object_or_404. rewrite Hv. reflexivity.
    + unfold edit_vehicle. pass_gate Hu Hp.
      unfold bind, read_db, get_object_or_404. rewrite Hv. reflexivity.
    + unfold delete_vehicle. pass_gate Hu Hp.
      unfold bind, read_db, get_object_or_404. rewrite Hv. reflexivity.
Qed.

Lemma unknown_vehicle_key_404_witness :
  get_response (vehicle_detail 9)
               (Sample.get_as (Authenticated Sample.john) "/vehicles/9/" [])
               Sample.world
  = (Render "404.html" CtxEmpty 404, Sample.world).
Proof.
  refine (proj2 (proj1 (unknown_vehicle_key_404 Sample.env_down 9
            (Sample.get_as (Authenticated Sample.john) "/vehicles/9/" [])
            Sample.world Sample.john eq_refl eq_refl) _)).
  right; right. exists (Profile.mk 13 3 "driver"), "driver".
  split; [reflexivity | split; [simpl; auto | reflexivity]].
Defined.

(** ** The records on a detail page *)

Section Recent.
Context {A : Type} (date : A -> Z).

Let ge (a b : A) : bool := date b <=? date a.
Let R (a b : A) : Prop := ge a b = true.

Lemma ge_total (a b : A) : ge a b = true \/ ge b a = true.
Proof. unfold ge. rewrite !Z.leb_le. lia. Qed.

Lemma R_trans : Relations_1.Transitive R.
Proof. intros a b c. unfold R, ge. rewrite !Z.leb_le. lia. Qed.

Lemma order_by_strongly_sorted (l : list A) : StronglySorted R (order_by ge l).
Proof.
  apply Sorted_StronglySorted; [exact R_trans|].
  apply order_by_sorted. exact ge_total.
Qed.

Lemma firstn_strongly_sorted (n : nat) (l : list A) :
  StronglySorted R l -> StronglySorted R (firstn n l).
Proof.
  intros H. revert n. induction H as [|a l Hs IH Hall]; intros [|n]; simpl;
    try constructor.
  - apply IH.
  - rewrite Forall_forall in *. intros x Hx. apply Hall.
    rewrite <- (firstn_skipn n l). apply in_or_app. left. exact Hx.
Qed.

Lemma firstn_before_skipn (n : nat) (l : list A) (a b : A) :
  StronglySorted R l -> In a (firstn n l) -> In b (skipn n l) -> R a b.
Proof.
  intros H. revert n. induction H as [|x l Hs IH Hall]; intros n Ha Hb.
  - destruct n; contradiction.
  - destruct n as [|n]; [contradiction|]. simpl in Ha, Hb.
    destruct Ha as [<- | Ha].
    + rewrite Forall_forall in Hall. apply Hall.
      rewrite <- (firstn_skipn n l). apply in_or_app. now right.
    + now apply (IH n).
Qed.

Lemma recent_of_order_by (n : nat) (l : list A) :
  recent_of date n l (firstn n (order_by ge l)).
Proof.
  pose proof (order_by_perm ge l) as P.
  pose proof (order_by_strongly_sorted l) as S.
  unfold recent_of. repeat split.
  - apply firstn_le_length.
  - intros a Ha. apply (Permutation_in _ (Permutation_sym P)).
    rewrite <- (firstn_skipn n (order_by ge l)). apply in_or_app. now left.
  - assert (H : Sorted R (firstn n (order_by ge l)))
      by apply StronglySorted_Sorted, firstn_strongly_sorted, S.
    induction H as [|a l' Hs IH Hd]; constructor; [exact IH|].
    destruct Hd as [|b l'' Hab]; constructor. apply Z.leb_le. exact Hab.
  - intros a b Ha Hna Hb.
    apply (Permutation_in _ P) in Ha.
    rewrite <- (firstn_skipn n (order_by ge l)) in Ha.
    apply in_app_or in Ha. destruct Ha as [Ha | Ha]; [contradiction|].
    apply Z.leb_le. exact (firstn_before_skipn n _ b a S Hb Ha).
  - intros Hlen. rewrite firstn_all2; [exact P|].
    rewrite <- (Permutation_length P). exact Hlen.
Qed.
End Recent.

Lemma vehicle_detail_page_inv (pk : Z) (request : HttpRequest) (w w' : World)
      (r : HttpResponse) :
  vehicle_detail pk request w = (Ok r, w') ->
  (forall next, r <> Redirect "login" next) ->
  exists v, get_vehicle (db w) pk = Some v /\ r = detail_page (db w) v /\ w' = w.
Proof.
  intros E Hr. unfold vehicle_detail in E.
  change [Some "admin"; Some "staff"; Some "driver"]
    with (map Some ["admin"; "staff"; "driver"]) in E.
  match type of E with
  | role_required _ ?view request w = _ =>
      destruct (role_required_cases ["admin"; "staff"; "driver"] view request w)
        as [G | [G | G]]
  end; rewrite G in E; clear G.
  - unfold bind, read_db, get_object_or_404 in E.
    destruct (get_vehicle (db w) pk) as [v|]; [|discriminate].
    cbn [ret] in E. exists v. split; [reflexivity|].
    destruct (_ && _ && _); [discriminate|].
    unfold render, ret in E. injection E as <- <-. split; reflexivity.
  - discriminate.
  - injection E as <- _. exfalso. eapply Hr. reflexivity.
Qed.

(** X6: the maintenance and fuel records on a vehicle's detail page are
    records of that vehicle, at most ten of each, newest first; no record
    of the vehicle that is left out is newer than one shown, and a vehicle
    with ten records or fewer has them all on the page. *)
Theorem vehicle_detail_recent_records :
  forall (pk : Z) (request : HttpRequest) (w w' : World) (template : string)
         (v : Vehicle.t) (ms : list MaintenanceLog.t) (fs : list FuelLog.t)
         (status : Z),
    vehicle_detail pk request w
    = (Ok (Render template (CtxDetail v ms fs) status), w') ->
    get_vehicle (db w) pk = Some v
    /\ recent_of MaintenanceLog.date 10
         (filter (fun m => opt_Z_eqb (Some (MaintenanceLog.vehicle_id m)) (Vehicle.id v))
                 (maintenance_logs (db w))) ms
    /\ recent_of FuelLog.date 10
         (filter (fun f => opt_Z_eqb (Some (FuelLog.vehicle_id f)) (Vehicle.id v))
                 (fuel_logs (db w))) fs
    /\ (forall m, In m ms -> MaintenanceLog.vehicle_id m = pk)
    /\ (forall f, In f fs -> FuelLog.vehicle_id f = pk).
Proof.
  intros pk request w w' template v ms fs status E.
  destruct (vehicle_detail_page_inv _ _ _ _ _ E) as (v0 & Hv & Hr & _);
    [discriminate|].
  unfold detail_page in Hr. injection Hr as _ -> -> -> _.
  assert (Hid : Vehicle.id v0 = Some pk).
  { pose proof Hv as F. apply find_some in F. destruct F as [_ F].
    now apply opt_Z_eqb_eq in F. }
  split; [exact Hv|].
  pose proof (recent_of_order_by MaintenanceLog.date 10
                (filter (fun m => opt_Z_eqb (Some (MaintenanceLog.vehicle_id m))
                                            (Vehicle.id v0))
                        (maintenance_logs (db w)))) as RM.
  pose proof (recent_of_order_by FuelLog.date 10
                (filter (fun f => opt_Z_eqb (Some (FuelLog.vehicle_id f))
                                            (Vehicle.id v0))
                        (fuel_logs (db w)))) as RF.
  split; [exact RM|]. split; [exact RF|]. split.
  - intros m Hm. destruct RM as (_ & Hin & _). apply Hin in Hm.
    apply filter_In in Hm. destruct Hm as [_ Hm].
    rewrite Hid in Hm. apply opt_Z_eqb_eq in Hm. congruence.
  - intros f Hf. destruct RF as (_ & Hin & _). apply Hin in Hf.
    apply filter_In in Hf. destruct Hf as [_ Hf].
    rewrite Hid in Hf. apply opt_Z_eqb_eq in Hf. congruence.
Qed.

Lemma vehicle_detail_recent_records_witness :
  recent_of MaintenanceLog.date 10
    (filter (fun m => opt_Z_eqb (Some (MaintenanceLog.vehicle_id m))
                                (Vehicle.id Sample.truck))
            (maintenance_logs Sample.store))
    [MaintenanceLog.mk 2 1 "brake pads" 20240301 (Some 20250301) (Some 3);
     MaintenanceLog.mk 1 1 "oil change" 20240105 None (Some 3)].
Proof.
  exact (proj1 (proj2 (vehicle_detail_recent_records 1
           (Sample.get_as (Authenticated Sample.john) "/vehicles/1/" [])
           Sample.world Sample.world "vehicles/detail.html" Sample.truck
           [MaintenanceLog.mk 2 1 "brake pads" 20240301 (Some 20250301) (Some 3);
            MaintenanceLog.mk 1 1 "oil change" 20240105 None (Some 3)]
           [FuelLog.mk 1 1 20240110 4050 380000 (Some 41000) (Some 3)]
           200 eq_refl))).
Defined.

(** ** Adding a vehicle *)

Lemma VehicleForm_save_any (env : Env) (form : BoundForm) (w : World) :
  is_valid form = true ->
  VehicleForm_save env form true w = Model_save (geo_instance env form) w.
Proof.
  intros V. unfold geo_instance.
  destruct (truthy (cleaned_place_name form)) eqn:T.
  - apply VehicleForm_save_returns; [assumption | now apply truthy_true_iff].
  - unfold VehicleForm_save, ModelForm_save. rewrite V, T. reflexivity.
Qed.

Lemma located_columns (env : Env) (place : string) (inst : Vehicle.t) :
  Vehicle.id (located env place inst) = Vehicle.id inst
  /\ Vehicle.registration_no (located env place inst) = Vehicle.registration_no inst
  /\ Vehicle.make (located env place inst) = Vehicle.make inst
  /\ Vehicle.model (located env place inst) = Vehicle.model inst
  /\ Vehicle.year (located env place inst) = Vehicle.year inst
  /\ Vehicle.status (located env place inst) = Vehicle.status inst
  /\ Vehicle.current_driver_id (located env place inst)
     = Vehicle.current_driver_id inst.
Proof.
  unfold located. destruct (_GEOCODER_AVAILABLE env); [|repeat split].
  destruct (Nominatim env _) as [[]|e]; [|repeat split].
  destruct (geocode env place) as [[[lat lng]|]|e]; repeat split.
Qed.

Lemma geo_instance_columns (env : Env) (form : BoundForm) :
  Vehicle.id (geo_instance env form) = Vehicle.id (instance form)
  /\ Vehicle.registration_no (geo_instance env form)
     = Vehicle.registration_no (instance form)
  /\ Vehicle.status (geo_instance env form) = Vehicle.status (instance form)
  /\ Vehicle.current_driver_id (geo_instance env form)
     = Vehicle.current_driver_id (instance form).
Proof.
  unfold geo_instance. destruct (truthy (cleaned_place_name form)); [|repeat split].
  destruct (located_columns env (cleaned_place_name form) (instance form))
    as (H1 & H2 & _ & _ & _ & H6 & H7). auto.
Qed.

Lemma next_vehicle_id_fresh (db : Store) (v : Vehicle.t) (i : Z) :
  In v (vehicles db) -> Vehicle.id v = Some i -> i < next_vehicle_id db.
Proof.
  unfold next_vehicle_id. induction (vehicles db) as [|x l IH]; [contradiction|].
  intros [-> | Hin] Hid; cbn [fold_right].
  - rewrite Hid. lia.
  - specialize (IH Hin Hid). destruct (Vehicle.id x); lia.
Qed.

Lemma find_none_all {A} (f : A -> bool) (l : list A) :
  (forall x, In x l -> f x = false) -> find f l = None.
Proof.
  induction l as [|a l IH]; intros H; [reflexivity|]. simpl.
  rewrite (H a (or_introl eq_refl)). apply IH. intros x Hx. apply H. now right.
Qed.

Lemma next_vehicle_id_unused (db : Store) :
  get_vehicle db (next_vehicle_id db) = None.
Proof.
  unfold get_vehicle. apply find_none_all. intros v Hv.
  apply opt_Z_eqb_neq. intros Hid.
  pose proof (next_vehicle_id_fresh db v _ Hv Hid). lia.
Qed.

Lemma next_vehicle_id_above_sequence (db : Store) :
  seq_vehicle (sqlite_sequence db) < next_vehicle_id db.
Proof. unfold next_vehicle_id. lia. Qed.

Lemma find_app_last {A} (f : A -> bool) (l : list A) (x : A) :
  (forall y, In y l -> f y = false) -> f x = true -> find f (l ++ [x]) = Some x.
Proof.
  intros Hl Hx. induction l as [|a l IH]; simpl.
  - now rewrite Hx.
  - rewrite (Hl a (or_introl eq_refl)). apply IH. intros y Hy. apply Hl. now right.
Qed.

Lemma NoDup_snoc {A} (l : list A) (x : A) :
  NoDup l -> ~ In x l -> NoDup (l ++ [x]).
Proof.
  intros ND Hx. apply (Permutation_NoDup (Permutation_cons_append l x)).
  now constructor.
Qed.

Lemma add_vehicle_body (env : Env) (request : HttpRequest) (w : World) :
  method request = POST ->
  (db0 <- read_db ;;
   if is_valid (VehicleForm db0 (POST_ request) Vehicle.new) then
     VehicleForm_save env (VehicleForm db0 (POST_ request) Vehicle.new) true ;;;
     messages_success "Vehicle added." ;;;
     redirect "vehicle_list"
   else render "vehicles/add.html"
               (CtxForm (errors (VehicleForm db0 (POST_ request) Vehicle.new)))) w
  = if is_valid (VehicleForm (db w) (POST_ request) Vehicle.new)
    then (Ok (Redirect "vehicle_list" None),
          mkWorld
            (set_vehicles
               (vehicles (db w)
                ++ [with_id (next_vehicle_id (db w))
                      (geo_instance env
                         (VehicleForm (db w) (POST_ request) Vehicle.new))])
               (seen_vehicle_id (next_vehicle_id (db w)) (db w)))
            (session w) (messages w ++ ["Vehicle added."]))
    else (Ok (Render "vehicles/add.html"
                (CtxForm (errors (VehicleForm (db w) (POST_ request) Vehicle.new)))
                200), w).
Proof.
  intros Hm. unfold bind, read_db.
  destruct (is_valid (VehicleForm (db w) (POST_ request) Vehicle.new)) eqn:V;
    [|reflexivity].
  rewrite (VehicleForm_save_any env _ w V), Model_save_returns.
  unfold save_vehicle.
  destruct (geo_instance_columns env (VehicleForm (db w) (POST_ request) Vehicle.new))
    as (Hid & _).
  rewrite Hid. reflexivity.
Qed.

Lemma add_vehicle_cases (env : Env) (request : HttpRequest) (w : World) :
  (exists r, add_vehicle env request w = (r, w))
  \/ (is_valid (VehicleForm (db w) (POST_ request) Vehicle.new) = true
      /\ add_vehicle env request w
         = (Ok (Redirect "vehicle_list" None),
            mkWorld
              (set_vehicles
                 (vehicles (db w)
                  ++ [with_id (next_vehicle_id (db w))
                        (geo_instance env
                           (VehicleForm (db w) (POST_ request) Vehicle.new))])
                 (seen_vehicle_id (next_vehicle_id (db w)) (db w)))
              (session w) (messages w ++ ["Vehicle added."]))).
Proof.
  unfold add_vehicle.
  change [Some "admin"; Some "staff"] with (map Some ["admin"; "staff"]).
  match goal with
  | |- context [role_required _ ?view request w] =>
      destruct (role_required_cases ["admin"; "staff"] view request w)
        as [G | [G | G]]
  end; rewrite G; [| left; eauto | left; eauto].
  clear G. cbv beta.
  destruct (method request) eqn:Hm; [left; eexists; reflexivity|].
  rewrite (add_vehicle_body env request w Hm).
  destruct (is_valid (VehicleForm (db w) (POST_ request) Vehicle.new));
    [right; split; reflexivity | left; eexists; reflexivity].
Qed.

Lemma VehicleForm_valid_registration (db : Store) (data : QueryDict)
      (inst : Vehicle.t) :
  is_valid (VehicleForm db data inst) = true ->
  exists R,
    clean_char (Some 30%nat) true (qd_get data "registration_no") = inl R
    /\ Vehicle.registration_no (instance (VehicleForm db data inst)) = R
    /\ unique_errors db (instance (VehicleForm db data inst)) (inl R) = [].
Proof.
  unfold is_valid. destruct (errors (VehicleForm db data inst)) eqn:E; [|discriminate].
  intros _. unfold VehicleForm in *. cbn [errors instance] in *.
  apply app_nil_both in E. destruct E as [E1 E].
  do 7 (apply app_nil_both in E; destruct E as [_ E]).
  apply field_errors_nil in E1. destruct E1 as (R & E1).
  exists R. rewrite E1 in *. cbn [assign Vehicle.registration_no]. auto.
Qed.

Lemma unique_errors_nil (db : Store) (inst : Vehicle.t) (R : string) :
  unique_errors db inst (inl R) = [] ->
  forall v, In v (vehicles db) -> Vehicle.registration_no v = R ->
            exists pk, Vehicle.id inst = Some pk /\ Vehicle.id v = Some pk.
Proof.
  unfold unique_errors. intros E v Hin HR.
  assert (Hf : In v (filter (fun v => String.eqb (Vehicle.registration_no v) R)
                            (vehicles db))).
  { apply filter_In. split; [assumption|]. now apply String.eqb_eq. }
  destruct (Vehicle.id inst) as [pk|].
  - exists pk. split; [reflexivity|].
    destruct (opt_Z_eqb (Vehicle.id v) (Some pk)) eqn:K;
      [now apply opt_Z_eqb_eq in K|].
    exfalso.
    assert (Hf' : In v (filter (fun v => negb (opt_Z_eqb (Vehicle.id v) (Some pk)))
                               (filter (fun v => String.eqb (Vehicle.registration_no v) R)
                                       (vehicles db)))).
    { apply filter_In. split; [assumption|]. now rewrite K. }
    destruct (filter _ (filter _ _)); [contradiction | discriminate].
  - exfalso. destruct (filter _ (vehicles db)); [contradiction | discriminate].
Qed.

(** X7: a permitted request that adds a vehicle with a valid form stores
    one new row after the rows that were there, under a key that no
    stored vehicle has and that is above every key the table ever gave
    out; the row carries the cleaned registration number and can be looked
    up under its key at once; users, profiles and records are
    untouched. *)
Theorem add_vehicle_creates :
  forall (env : Env) (request : HttpRequest) (w : World) (u : User.t),
    user request = Authenticated u ->
    permits (db w) u ["admin"; "staff"] ->
    method request = POST ->
    is_valid (VehicleForm (db w) (POST_ request) Vehicle.new) = true ->
    exists saved key w',
      add_vehicle env request w = (Ok (Redirect "vehicle_list" None), w')
      /\ vehicles (db w') = vehicles (db w) ++ [saved]
      /\ Vehicle.id saved = Some key
      /\ (forall v, In v (vehicles (db w)) -> Vehicle.id v <> Some key)
      /\ get_vehicle (db w) key = None
      /\ seq_vehicle (sqlite_sequence (db w)) < key
      /\ get_vehicle (db w') key = Some saved
      /\ clean_char (Some 30%nat) true (qd_get (POST_ request) "registration_no")
         = inl (Vehicle.registration_no saved)
      /\ users (db w') = users (db w)
      /\ profiles (db w') = profiles (db w)
      /\ maintenance_logs (db w') = maintenance_logs (db w)
      /\ fuel_logs (db w') = fuel_logs (db w)
      /\ messages w' = messages w ++ ["Vehicle added."].
Proof.
  intros env request w u Hu Hp Hm V.
  set (form := VehicleForm (db w) (POST_ request) Vehicle.new) in *.
  set (saved := with_id (next_vehicle_id (db w)) (geo_instance env form)).
  assert (Hfresh : forall v, In v (vehicles (db w)) ->
                             Vehicle.id v <> Some (next_vehicle_id (db w))).
  { intros v Hin Hid. pose proof (next_vehicle_id_fresh _ _ _ Hin Hid). lia. }
  exists saved, (next_vehicle_id (db w)). eexists. split.
  { unfold add_vehicle. pass_gate Hu Hp. rewrite Hm. cbv iota zeta.
    rewrite (add_vehicle_body env request w Hm). fold form. rewrite V.
    reflexivity. }
  cbn [db messages set_vehicles seen_vehicle_id vehicles users profiles
       maintenance_logs fuel_logs].
  repeat split; try reflexivity.
  - exact Hfresh.
  - apply next_vehicle_id_unused.
  - apply next_vehicle_id_above_sequence.
  - unfold get_vehicle. cbn [vehicles]. apply find_app_last.
    + intros y Hy. apply opt_Z_eqb_neq. now apply Hfresh.
    + apply opt_Z_eqb_eq. reflexivity.
  - destruct (VehicleForm_valid_registration _ _ _ V) as (R & Hc & HR & _).
    destruct (geo_instance_columns env form) as (_ & Hreg & _).
    rewrite Hc. unfold saved. cbn [with_id Vehicle.registration_no].
    rewrite Hreg. fold form in HR. now rewrite HR.
Qed.

Lemma add_vehicle_creates_witness :
  exists saved key w',
    add_vehicle Sample.env_found
      (Sample.post_as (Authenticated Sample.alice) "/admin/vehicles/add/"
         [("registration_no", "DL05CD4321"); ("status", "active");
          ("year", "2021"); ("current_driver", "4"); ("place_name", "Delhi")])
      Sample.world
    = (Ok (Redirect "vehicle_list" None), w')
    /\ Vehicle.id saved = Some key
    /\ get_vehicle Sample.store key = None
    /\ get_vehicle (db w') key = Some saved.
Proof.
  destruct (add_vehicle_creates Sample.env_found
              (Sample.post_as (Authenticated Sample.alice) "/admin/vehicles/add/"
                 [("registration_no", "DL05CD4321"); ("status", "active");
                  ("year", "2021"); ("current_driver", "4"); ("place_name", "Delhi")])
              Sample.world Sample.alice eq_refl)
    as (saved & key & w' & E & _ & Hid & _ & N & _ & G & _).
  - right; left. exists (Profile.mk 11 1 "admin"). split; reflexivity.
  - reflexivity.
  - reflexivity.
  - exists saved, key, w'.
    split; [exact E | split; [exact Hid | split; [exact N | exact G]]].
Defined.

(** X8: adding a vehicle keeps the registry well formed, whatever the
    request: when stored vehicles have distinct keys and distinct
    registration numbers before, they have them after. *)
Theorem add_vehicle_keeps_unique :
  forall (env : Env) (request : HttpRequest) (w : World),
    keys_unique (db w) ->
    registrations_unique (db w) ->
    keys_unique (db (snd (add_vehicle env request w)))
    /\ registrations_unique (db (snd (add_vehicle env request w))).
Proof.
  intros env request w [Kn Ks] Rn.
  destruct (add_vehicle_cases env request w) as [(r & E) | (V & E)]; rewrite E;
    cbn [snd]; [split; [split|]; assumption|].
  set (form := VehicleForm (db w) (POST_ request) Vehicle.new) in *.
  cbn [db]. unfold keys_unique, registrations_unique.
  cbn [set_vehicles vehicles]. rewrite !map_app. cbn [map with_id Vehicle.id
                                                        Vehicle.registration_no].
  split; [split|].
  - apply NoDup_snoc; [assumption|]. intros Hin.
    apply in_map_iff in Hin. destruct Hin as (v & Hid & Hin).
    pose proof (next_vehicle_id_fresh _ _ _ Hin Hid). lia.
  - apply Forall_app. split; [assumption|]. constructor; [discriminate | constructor].
  - apply NoDup_snoc; [assumption|]. intros Hin.
    apply in_map_iff in Hin. destruct Hin as (v & HR & Hin).
    destruct (VehicleForm_valid_registration _ _ _ V) as (R & _ & HRi & Hu).
    fold form in HRi, Hu.
    destruct (geo_instance_columns env form) as (_ & Hreg & _).
    rewrite Hreg, HRi in HR.
    destruct (unique_errors_nil _ _ _ Hu v Hin HR) as (pk & Hnone & _).
    discriminate Hnone.
Qed.

Lemma add_vehicle_keeps_unique_witness :
  registrations_unique
    (db (snd (add_vehicle Sample.env_down
                (Sample.post_as (Authenticated Sample.sam) "/admin/vehicles/add/"
                   [("registration_no", "DL05CD4321"); ("status", "active")])
                Sample.world))).
Proof.
  refine (proj2 (add_vehicle_keeps_unique Sample.env_down
            (Sample.post_as (Authenticated Sample.sam) "/admin/vehicles/add/"
               [("registration_no", "DL05CD4321"); ("status", "active")])
            Sample.world _ _)).
  - split.
    + repeat constructor; simpl; intuition discriminate.
    + repeat constructor; discriminate.
  - repeat constructor; simpl; intuition discriminate.
Defined.

(** ** Editing a vehicle *)

Lemma edit_vehicle_cases (env : Env) (pk : Z) (request : HttpRequest) (w : World)
      (v : Vehicle.t) :
  get_vehicle (db w) pk = Some v ->
  (exists r, edit_vehicle env pk request w = (r, w))
  \/ (is_valid (VehicleForm (db w) (POST_ request) v) = true
      /\ edit_vehicle env pk request w
         = (Ok (Redirect "vehicle_list" None),
            mkWorld
              (set_vehicles
                 (map (fun x => if opt_Z_eqb (Vehicle.id x) (Some pk)
                                then geo_instance env
                                       (VehicleForm (db w) (POST_ request) v)
                                else x)
                      (vehicles (db w)))
                 (db w))
              (session w) (messages w ++ ["Vehicle updated."]))).
Proof.
  intros Hv. unfold edit_vehicle.
  change [Some "admin"; Some "staff"] with (map Some ["admin"; "staff"]).
  match goal with
  | |- context [role_required _ ?view request w] =>
      destruct (role_required_cases ["admin"; "staff"] view request w)
        as [G | [G | G]]
  end; rewrite G; [| left; eauto | left; eauto].
  clear G. unfold bind, read_db, get_object_or_404. rewrite Hv. cbn [ret].
  destruct (method request); [left; eexists; reflexivity|].
  destruct (is_valid (VehicleForm (db w) (POST_ request) v)) eqn:V;
    [|left; eexists; reflexivity].
  right. split; [reflexivity|].
  rewrite (VehicleForm_save_any env _ w V), Model_save_returns.
  unfold save_vehicle.
  destruct (geo_instance_columns env (VehicleForm (db w) (POST_ request) v))
    as (Hid & _).
  assert (Hpk : Vehicle.id v = Some pk).
  { pose proof Hv as F. apply find_some in F. destruct F as [_ F].
    now apply opt_Z_eqb_eq in F. }
  rewrite Hid. cbn [VehicleForm instance Vehicle.id]. rewrite Hpk, Hv. reflexivity.
Qed.

Lemma replace_keeps {A B} (test : A -> bool) (g : A -> B) (inst : A) (l : list A) :
  (forall x, In x l -> test x = true -> g x = g inst) ->
  map g (map (fun x => if test x then inst else x) l) = map g l.
Proof.
  intros H. rewrite map_map. apply map_ext_in. intros x Hx.
  destruct (test x) eqn:T; [symmetry; now apply H | reflexivity].
Qed.

Lemma replace_regs_unique (pk : Z) (inst : Vehicle.t) (l : list Vehicle.t) :
  NoDup (map Vehicle.id l) ->
  NoDup (map Vehicle.registration_no l) ->
  (forall x, In x l -> Vehicle.id x <> Some pk ->
             Vehicle.registration_no x <> Vehicle.registration_no inst) ->
  NoDup (map Vehicle.registration_no
             (map (fun x => if opt_Z_eqb (Vehicle.id x) (Some pk) then inst else x) l)).
Proof.
  induction l as [|x l IH]; intros Kn Rn Hother; [constructor|].
  cbn [map] in *. inversion Kn as [|? ? Kx Kl]; subst.
  inversion Rn as [|? ? Rx Rl]; subst.
  assert (Htail : forall y, In y l -> Vehicle.id y <> Some pk ->
                            Vehicle.registration_no y <> Vehicle.registration_no inst).
  { intros y Hy. apply Hother. now right. }
  destruct (opt_Z_eqb (Vehicle.id x) (Some pk)) eqn:T.
  - apply opt_Z_eqb_eq in T.
    assert (Hnone : forall y, In y l -> Vehicle.id y <> Some pk).
    { intros y Hy E. apply Kx. rewrite T, <- E. now apply in_map. }
    rewrite (replace_keeps _ Vehicle.registration_no inst l).
    + constructor; [|assumption]. intros Hin.
      apply in_map_iff in Hin. destruct Hin as (y & E & Hy).
      exact (Htail y Hy (Hnone y Hy) E).
    + intros y Hy Ty. apply opt_Z_eqb_eq in Ty. now elim (Hnone y Hy).
  - apply opt_Z_eqb_neq in T. constructor; [|now apply IH].
    intros Hin. apply in_map_iff in Hin. destruct Hin as (y' & E & Hy').
    apply in_map_iff in Hy'. destruct Hy' as (y & <- & Hy).
    destruct (opt_Z_eqb (Vehicle.id y) (Some pk)).
    + apply (Hother x (or_introl eq_refl) T). now symmetry.
    + apply Rx. rewrite <- E. now apply in_map.
Qed.

(** X9: editing a vehicle keeps the registry well formed, whatever the
    request: stored vehicles keep distinct keys and distinct registration
    numbers, the key list being exactly what it was. *)
Theorem edit_vehicle_keeps_unique :
  forall (env : Env) (pk : Z) (request : HttpRequest) (w : World),
    keys_unique (db w) ->
    registrations_unique (db w) ->
    map Vehicle.id (vehicles (db (snd (edit_vehicle env pk request w))))
    = map Vehicle.id (vehicles (db w))
    /\ keys_unique (db (snd (edit_vehicle env pk request w)))
    /\ registrations_unique (db (snd (edit_vehicle env pk request w))).
Proof.
  intros env pk request w [Kn Ks] Rn.
  assert (Same : forall r, edit_vehicle env pk request w = (r, w) ->
                 map Vehicle.id (vehicles (db (snd (edit_vehicle env pk request w))))
                 = map Vehicle.id (vehicles (db w))
                 /\ keys_unique (db (snd (edit_vehicle env pk request w)))
                 /\ registrations_unique (db (snd (edit_vehicle env pk request w)))).
  { intros r E. rewrite E. cbn [snd]. repeat split; assumption. }
  destruct (get_vehicle (db w) pk) as [v|] eqn:Hv.
  2:{ unfold edit_vehicle in *.
      change [Some "admin"; Some "staff"] with (map Some ["admin"; "staff"]) in *.
      match goal with
      | |- context [role_required _ ?view request w] =>
          destruct (role_required_cases ["admin"; "staff"] view request w)
            as [G | [G | G]]
      end; try (eapply Same; exact G).
      eapply Same. rewrite G. unfold bind, read_db, get_object_or_404.
      rewrite Hv. reflexivity. }
  destruct (edit_vehicle_cases env pk request w v Hv) as [(r & E) | (V & E)];
    [now apply (Same r)|].
  clear Same. rewrite E. cbn [snd db]. unfold keys_unique, registrations_unique.
  cbn [set_vehicles vehicles].
  set (form := VehicleForm (db w) (POST_ request) v) in *.
  assert (Hpk : Vehicle.id v = Some pk).
  { pose proof Hv as F. apply find_some in F. destruct F as [_ F].
    now apply opt_Z_eqb_eq in F. }
  destruct (geo_instance_columns env form) as (Hid & Hreg & _).
  assert (Hinst : Vehicle.id (geo_instance env form) = Some pk).
  { rewrite Hid. exact Hpk. }
  assert (Hids : map Vehicle.id
                     (map (fun x => if opt_Z_eqb (Vehicle.id x) (Some pk)
                                    then geo_instance env form else x)
                          (vehicles (db w)))
                 = map Vehicle.id (vehicles (db w))).
  { apply replace_keeps. intros x _ T. apply opt_Z_eqb_eq in T. congruence. }
  split; [exact Hids|]. split; [split|].
  - rewrite Hids. exact Kn.
  - rewrite Forall_forall in *. intros x Hx.
    apply in_map_iff in Hx. destruct Hx as (y & <- & Hy).
    destruct (opt_Z_eqb (Vehicle.id y) (Some pk)); [congruence | now apply Ks].
  - apply replace_regs_unique; [assumption | assumption|].
    intros x Hx Hne HR.
    destruct (VehicleForm_valid_registration _ _ _ V) as (R & _ & HRi & Hu).
    fold form in HRi, Hu. rewrite Hreg, HRi in HR.
    destruct (unique_errors_nil _ _ _ Hu x Hx HR) as (pk' & Hi & Hx').
    change (Vehicle.id (instance form)) with (Vehicle.id v) in Hi. congruence.
Qed.

Lemma edit_vehicle_keeps_unique_witness :
  map Vehicle.id
      (vehicles (db (snd (edit_vehicle Sample.env_down 2
                            (Sample.post_as (Authenticated Sample.sam)
                               "/admin/vehicles/2/edit/"
                               [("registration_no", "AB78"); ("status", "active")])
                            Sample.world))))
  = [Some 1; Some 2; Some 3].
Proof.
  refine (proj1 (edit_vehicle_keeps_unique Sample.env_down 2
            (Sample.post_as (Authenticated Sample.sam) "/admin/vehicles/2/edit/"
               [("registration_no", "AB78"); ("status", "active")])
            Sample.world _ _)).
  - split.
    + repeat constructor; simpl; intuition discriminate.
    + repeat constructor; discriminate.
  - repeat constructor; simpl; intuition discriminate.
Defined.

Lemma not_unique_in_field {A} (name : string) (c : A + ErrorList) :
  name <> "registration_no" ->
  ~ In ("registration_no", unique) (field_errors name c).
Proof.
  intros Hn. destruct c as [a|[e es]]; simpl; [tauto|].
  intros [E | H].
  - injection E as E _. congruence.
  - apply in_map_iff in H. destruct H as (x & E & _).
    injection E as E _. congruence.
Qed.

Lemma unique_errors_own (db : Store) (inst v : Vehicle.t) (pk : Z) :
  keys_unique db -> registrations_unique db ->
  get_vehicle db pk = Some v -> Vehicle.id inst = Some pk ->
  unique_errors db inst (inl (Vehicle.registration_no v)) = [].
Proof.
  intros [Kn _] Rn Hv Hid. unfold unique_errors. rewrite Hid.
  destruct (filter _ (filter _ _)) as [|x l] eqn:F; [reflexivity|].
  exfalso.
  assert (Hx : In x (x :: l)) by now left.
  rewrite <- F in Hx. apply filter_In in Hx. destruct Hx as [Hx Hk].
  apply filter_In in Hx. destruct Hx as [Hx HR].
  apply String.eqb_eq in HR. apply negb_true_iff, opt_Z_eqb_neq in Hk.
  apply find_some in Hv. destruct Hv as [Hin Hv]. apply opt_Z_eqb_eq in Hv.
  assert (x = v) by (apply (NoDup_map_inj Vehicle.registration_no _ _ _ Rn Hx Hin HR)).
  congruence.
Qed.

(** X10: on edit the uniqueness check sets the edited vehicle itself
    aside: in a well-formed registry, resubmitting the vehicle's own
    registration number raises no uniqueness error, while a permitted edit
    that takes the registration number of another stored vehicle is
    answered with the form carrying that error, and changes nothing. *)
Theorem edit_vehicle_registration_check :
  forall (env : Env) (pk : Z) (request : HttpRequest) (w : World) (v : Vehicle.t),
    get_vehicle (db w) pk = Some v ->
    (keys_unique (db w) -> registrations_unique (db w) ->
     clean_char (Some 30%nat) true (qd_get (POST_ request) "registration_no")
     = inl (Vehicle.registration_no v) ->
     ~ In ("registration_no", unique)
          (errors (VehicleForm (db w) (POST_ request) v)))
    /\ (forall u other,
           user request = Authenticated u ->
           permits (db w) u ["admin"; "staff"] ->
           method request = POST ->
           In other (vehicles (db w)) ->
           Vehicle.id other <> Some pk ->
           clean_char (Some 30%nat) true (qd_get (POST_ request) "registration_no")
           = inl (Vehicle.registration_no other) ->
           exists errs inst,
             edit_vehicle env pk request w
             = (Ok (Render "vehicles/edit.html" (CtxVehicleForm errs inst) 200), w)
             /\ In ("registration_no", unique) errs).
Proof.
  intros env pk request w v Hv.
  assert (Hpk : Vehicle.id v = Some pk).
  { pose proof Hv as F. apply find_some in F. destruct F as [_ F].
    now apply opt_Z_eqb_eq in F. }
  split.
  - intros K Rn Hc. unfold VehicleForm. cbn [errors]. rewrite Hc.
    rewrite (unique_errors_own (db w) _ v pk K Rn Hv) by exact Hpk.
    rewrite app_nil_r. rewrite !in_app_iff.
    intros [H | [H | [H | [H | [H | [H | [H | H]]]]]]].
    + contradiction.
    + revert H. now apply not_unique_in_field.
    + revert H. now apply not_unique_in_field.
    + revert H. now apply not_unique_in_field.
    + revert H. now apply not_unique_in_field.
    + revert H. now apply not_unique_in_field.
    + revert H. now apply not_unique_in_field.
    + unfold year_model_errors in H.
      destruct (clean_year _) as [[n|]|e]; try contradiction.
      destruct (integer_field_max <? n); [|contradiction].
      destruct H as [E | []]. discriminate E.
  - intros u other Hu Hp Hm Hin Hne Hc.
    set (form := VehicleForm (db w) (POST_ request) v).
    assert (Herr : In ("registration_no", unique) (errors form)).
    { unfold form, VehicleForm. cbn [errors]. rewrite Hc.
      repeat (apply in_or_app; right).
      unfold unique_errors. cbn [Vehicle.id]. rewrite Hpk.
      assert (Hf : In other
                      (filter (fun x => negb (opt_Z_eqb (Vehicle.id x) (Some pk)))
                         (filter (fun x => String.eqb (Vehicle.registration_no x)
                                             (Vehicle.registration_no other))
                                 (vehicles (db w))))).
      { apply filter_In. split.
        - apply filter_In. split; [assumption | apply String.eqb_refl].
        - apply negb_true_iff. now apply opt_Z_eqb_neq. }
      destruct (filter _ (filter _ _)); [contradiction | now left]. }
    exists (errors form), (instance form). split; [|exact Herr].
    unfold edit_vehicle. pass_gate Hu Hp.
    unfold bind, read_db, get_object_or_404. rewrite Hv, Hm. cbn [ret]. fold form.
    unfold is_valid. destruct (errors form); [contradiction | reflexivity].
Qed.

Lemma edit_vehicle_registration_check_witness :
  ~ In ("registration_no", unique)
       (errors (VehicleForm Sample.store
                  [("registration_no", "AB77"); ("status", "active")] Sample.van)).
Proof.
  refine (proj1 (edit_vehicle_registration_check Sample.env_down 2
            (Sample.post_as (Authenticated Sample.sam) "/admin/vehicles/2/edit/"
               [("registration_no", "AB77"); ("status", "active")])
            Sample.world Sample.van eq_refl) _ _ eq_refl).
  - split.
    + repeat constructor; simpl; intuition discriminate.
    + repeat constructor; discriminate.
  - repeat constructor; simpl; intuition discriminate.
Defined.

(** ** Saving without a place name *)

Lemma VehicleForm_save_no_place (env env' : Env) (form : BoundForm) (commit : bool) :
  cleaned_place_name form = "" ->
  VehicleForm_save env form commit = VehicleForm_save env' form commit.
Proof. intros E. unfold VehicleForm_save. rewrite E. reflexivity. Qed.

Lemma VehicleForm_no_place (db : Store) (data : QueryDict) (inst : Vehicle.t) :
  strip (or_empty (qd_get data "place_name")) = "" ->
  cleaned_place_name (VehicleForm db data inst) = "".
Proof.
  intros E. unfold VehicleForm. cbn [cleaned_place_name].
  unfold clean_char. rewrite E. reflexivity.
Qed.

Lemma role_required_ext (roles : list (option string)) (v1 v2 : View)
      (request : HttpRequest) (w : World) :
  (forall w', v1 request w' = v2 request w') ->
  role_required roles v1 request w = role_required roles v2 request w.
Proof.
  intros H. unfold role_required, login_required, bind, read_db.
  destruct (is_authenticated (user request)); [|reflexivity].
  destruct (_ || _); [apply H|].
  destruct (in_tuple _ _); [apply H | reflexivity].
Qed.

(** X11: when the place name is blank or missing, saving a vehicle form
    does not consult the geocoder at all: adding and editing give the same
    answer and the same store under any two environments, and an edit
    leaves the stored latitude, longitude and location time as they
    were. *)
Theorem no_place_name_no_geocoding :
  forall (env env' : Env) (pk : Z) (request : HttpRequest) (w : World),
    strip (or_empty (qd_get (POST_ request) "place_name")) = "" ->
    add_vehicle env request w = add_vehicle env' request w
    /\ edit_vehicle env pk request w = edit_vehicle env' pk request w
    /\ (forall v, get_vehicle (db w) pk = Some v ->
                  exists v',
                    get_vehicle (db (snd (edit_vehicle env pk request w))) pk = Some v'
                    /\ Vehicle.latitude v' = Vehicle.latitude v
                    /\ Vehicle.longitude v' = Vehicle.longitude v
                    /\ Vehicle.last_location_time v' = Vehicle.last_location_time v).
Proof.
  intros env env' pk request w Hplace. split; [|split].
  - unfold add_vehicle. apply role_required_ext. intros w'.
    destruct (method request); [reflexivity|].
    unfold bind, read_db.
    destruct (is_valid _); [|reflexivity].
    rewrite (VehicleForm_save_no_place env env');
      [reflexivity | now apply VehicleForm_no_place].
  - unfold edit_vehicle. apply role_required_ext. intros w'.
    unfold bind, read_db, get_object_or_404.
    destruct (get_vehicle (db w') pk) as [v|]; [|reflexivity]. cbn [ret].
    destruct (method request); [reflexivity|].
    destruct (is_valid _); [|reflexivity].
    rewrite (VehicleForm_save_no_place env env');
      [reflexivity | now apply VehicleForm_no_place].
  - intros v Hv.
    destruct (edit_vehicle_cases env pk request w v Hv) as [(r & E) | (V & E)];
      rewrite E; cbn [snd db].
    + exists v. auto.
    + set (form := VehicleForm (db w) (POST_ request) v) in *.
      assert (Hg : geo_instance env form = instance form).
      { unfold geo_instance, form. rewrite (VehicleForm_no_place _ _ _ Hplace).
        reflexivity. }
      rewrite Hg. exists (instance form). split; [|repeat split].
      unfold get_vehicle. cbn [set_vehicles vehicles].
      apply (find_map_replace (fun x => opt_Z_eqb (Vehicle.id x) (Some pk)) _ _ v Hv).
      pose proof Hv as F. apply find_some in F. destruct F as [_ F]. exact F.
Qed.

Lemma no_place_name_no_geocoding_witness :
  edit_vehicle Sample.env_found 1
    (Sample.post_as (Authenticated Sample.sam) "/admin/vehicles/1/edit/"
       [("registration_no", "KA01AB1234"); ("status", "inactive");
        ("place_name", "  ")])
    Sample.world
  = edit_vehicle Sample.env_down 1
      (Sample.post_as (Authenticated Sample.sam) "/admin/vehicles/1/edit/"
         [("registration_no", "KA01AB1234"); ("status", "inactive");
          ("place_name", "  ")])
      Sample.world.
Proof.
  refine (proj1 (proj2 (no_place_name_no_geocoding Sample.env_found Sample.env_down 1
            (Sample.post_as (Authenticated Sample.sam) "/admin/vehicles/1/edit/"
               [("registration_no", "KA01AB1234"); ("status", "inactive");
                ("place_name", "  ")])
            Sample.world _))).
  reflexivity.
Defined.

(** ** Assigning, at the level of the table *)

(** X12: assigning never changes which vehicles are stored: the list of
    keys is what it was, and in a registry with distinct keys so is the
    list of registration numbers, so that both stay distinct. *)
Theorem assign_vehicle_keeps_registry :
  forall (pk : Z) (request : HttpRequest) (w : World),
    keys_unique (db w) ->
    map Vehicle.id (vehicles (db (snd (assign_vehicle pk request w))))
    = map Vehicle.id (vehicles (db w))
    /\ map Vehicle.registration_no
           (vehicles (db (snd (assign_vehicle pk request w))))
       = map Vehicle.registration_no (vehicles (db w))
    /\ users (db (snd (assign_vehicle pk request w))) = users (db w)
    /\ profiles (db (snd (assign_vehicle pk request w))) = profiles (db w).
Proof.
  intros pk request w [Kn _].
  destruct (get_vehicle (db w) pk) as [v|] eqn:Hv.
  2:{ assert (E : exists r, assign_vehicle pk request w = (r, w)).
      { unfold assign_vehicle.
        change [Some "admin"; Some "staff"] with (map Some ["admin"; "staff"]).
        match goal with
        | |- context [role_required _ ?view request w] =>
            destruct (role_required_cases ["admin"; "staff"] view request w)
              as [G | [G | G]]
        end; rewrite G; [| eauto | eauto].
        unfold bind, read_db, get_object_or_404. rewrite Hv.
        eexists. reflexivity. }
      destruct E as (r' & E). rewrite E. repeat split. }
  destruct (assign_vehicle_cases pk request w v Hv) as [(r & E) | (V & E)];
    rewrite E; cbn [snd db]; [repeat split|].
  set (form := AssignVehicleForm (db w) (POST_ request) v) in *.
  assert (Hpk : Vehicle.id v = Some pk).
  { pose proof Hv as F. apply find_some in F. destruct F as [_ F].
    now apply opt_Z_eqb_eq in F. }
  assert (Hinst : Vehicle.id (instance form) = Some pk) by exact Hpk.
  unfold save_vehicle. rewrite Hinst, Hv.
  cbn [snd set_vehicles vehicles users profiles].
  split; [|split; [|split; reflexivity]].
  - apply replace_keeps. intros x _ T. apply opt_Z_eqb_eq in T. congruence.
  - apply replace_keeps. intros x Hx T. apply opt_Z_eqb_eq in T.
    assert (x = v).
    { apply find_some in Hv. destruct Hv as [Hin _].
      apply (NoDup_map_inj Vehicle.id _ _ _ Kn Hx Hin). congruence. }
    subst x. reflexivity.
Qed.

Lemma assign_vehicle_keeps_registry_witness :
  map Vehicle.registration_no
      (vehicles (db (snd (assign_vehicle 2
                            (Sample.post_as (Authenticated Sample.sam)
                               "/admin/vehicles/2/assign/"
                               [("current_driver", "4"); ("status", "active")])
                            Sample.world))))
  = ["KA01AB1234"; "AB77"; "MH12XY0001"].
Proof.
  refine (proj1 (proj2 (assign_vehicle_keeps_registry 2
            (Sample.post_as (Authenticated Sample.sam) "/admin/vehicles/2/assign/"
               [("current_driver", "4"); ("status", "active")])
            Sample.world _))).
  split.
  - repeat constructor; simpl; intuition discriminate.
  - repeat constructor; discriminate.
Defined.

(** ** Deleting a vehicle *)

(** X13: deleting a stored vehicle, asked by admin or staff, removes the
    row and every maintenance and fuel record of that vehicle and nothing
    else: other vehicles and their records stay, users and profiles are
    untouched, and the detail page of the deleted key is then the 404
    page. *)
Theorem delete_vehicle_cascade :
  forall (pk : Z) (request : HttpRequest) (w : World) (u : User.t) (v : Vehicle.t),
    user request = Authenticated u ->
    permits (db w) u ["admin"; "staff"] ->
    get_vehicle (db w) pk = Some v ->
    exists w',
      delete_vehicle pk request w = (Ok (Redirect "vehicle_list" None), w')
      /\ get_vehicle (db w') pk = None
      /\ (forall m, In m (maintenance_logs (db w')) <->
                    In m (maintenance_logs (db w)) /\ MaintenanceLog.vehicle_id m <> pk)
      /\ (forall f, In f (fuel_logs (db w')) <->
                    In f (fuel_logs (db w)) /\ FuelLog.vehicle_id f <> pk)
      /\ (forall x, In x (vehicles (db w')) <->
                    In x (vehicles (db w)) /\ Vehicle.id x <> Some pk)
      /\ users (db w') = users (db w)
      /\ profiles (db w') = profiles (db w)
      /\ (forall next u', user next = Authenticated u' ->
                          permits (db w') u' ["admin"; "staff"; "driver"] ->
                          get_response (vehicle_detail pk) next w'
                          = (Render "404.html" CtxEmpty 404, w')).
Proof.
  intros pk request w u v Hu Hp Hv.
  assert (Hpk : Vehicle.id v = Some pk).
  { pose proof Hv as F. apply find_some in F. destruct F as [_ F].
    now apply opt_Z_eqb_eq in F. }
  eexists. split.
  { unfold delete_vehicle. pass_gate Hu Hp.
    unfold bind, read_db, get_object_or_404. rewrite Hv. cbn [ret].
    unfold Vehicle_delete. rewrite Hpk. reflexivity. }
  cbn [db delete_vehicle_row users profiles vehicles maintenance_logs fuel_logs].
  assert (Hgone : get_vehicle
                    (delete_vehicle_row pk (db w)) pk = None).
  { unfold get_vehicle. cbn [delete_vehicle_row vehicles].
    apply (find_filter_negb (fun x => opt_Z_eqb (Vehicle.id x) (Some pk))). }
  split; [exact Hgone|].
  split; [|split; [|split; [|split; [|split]]]]; try reflexivity.
  - intros m. rewrite filter_In, negb_true_iff, Z.eqb_neq. reflexivity.
  - intros f. rewrite filter_In, negb_true_iff, Z.eqb_neq. reflexivity.
  - intros x. rewrite filter_In, negb_true_iff, opt_Z_eqb_neq. reflexivity.
  - intros next u' Hu' Hp'. unfold get_response.
    set (W := mkWorld (delete_vehicle_row pk (db w)) (session w)
                      (messages w ++ ["Vehicle deleted successfully."])).
    change (permits (db W) u' ["admin"; "staff"; "driver"]) in Hp'.
    assert (E : vehicle_detail pk next W = (Raise Http404, W)).
    { unfold vehicle_detail. pass_gate Hu' Hp'.
      unfold bind, read_db, get_object_or_404.
      change (get_vehicle (db W) pk) with (get_vehicle (delete_vehicle_row pk (db w)) pk).
      rewrite Hgone. reflexivity. }
    match goal with
    | |- context [vehicle_detail pk next ?X] => change X with W
    end.
    rewrite E. reflexivity.
Qed.

Lemma delete_vehicle_cascade_witness :
  exists w',
    delete_vehicle 1 (Sample.post_as (Authenticated Sample.sam)
                                     "/admin/vehicles/1/delete/" [])
                   Sample.world
    = (Ok (Redirect "vehicle_list" None), w')
    /\ get_vehicle (db w') 1 = None.
Proof.
  destruct (delete_vehicle_cascade 1
              (Sample.post_as (Authenticated Sample.sam)
                              "/admin/vehicles/1/delete/" [])
              Sample.world Sample.sam Sample.truck eq_refl)
    as (w' & E & G & _).
  - right; right. exists (Profile.mk 12 2 "Staff"), "staff".
    split; [reflexivity | split; [simpl; auto | reflexivity]].
  - reflexivity.
  - exists w'. split; [exact E | exact G].
Defined.

(** ** Accounts *)

Lemma next_user_id_fresh (db : Store) (x : User.t) :
  In x (users db) -> User.id x < next_user_id db.
Proof.
  unfold next_user_id. induction (users db) as [|y l IH]; [contradiction|].
  intros [-> | Hin]; cbn [fold_right]; [lia|]. specialize (IH Hin). lia.
Qed.

Lemma next_profile_id_fresh (db : Store) (p : Profile.t) :
  In p (profiles db) -> Profile.id p < next_profile_id db.
Proof.
  unfold next_profile_id. induction (profiles db) as [|y l IH]; [contradiction|].
  intros [-> | Hin]; cbn [fold_right]; [lia|]. specialize (IH Hin). lia.
Qed.

Lemma username_exists_false (db : Store) (username : string) :
  username_exists db username = false ->
  forall x, In x (users db) -> String.eqb (User.username x) username = false.
Proof.
  unfold username_exists. intros H x Hx.
  destruct (String.eqb (User.username x) username) eqn:E; [|reflexivity].
  assert (existsb (fun u => String.eqb (User.username u) username) (users db) = true)
    by (apply existsb_exists; eauto).
  congruence.
Qed.

Lemma no_profile_of_new_user (py : Unicode) (db : Store)
      (username email password : string) :
  profiles_linked db ->
  forall p, In p (profiles db) ->
            (Profile.user_id p =? User.id (new_user py db username email password))
            = false.
Proof.
  intros L p Hp. destruct (L p Hp) as (x & Hx & E).
  pose proof (next_user_id_fresh db x Hx). apply Z.eqb_neq.
  cbn [new_user User.id]. lia.
Qed.

(** Creating the account: what the two manager calls do to the world
    when the unique index lets the name in. *)
Lemma create_account (py : Unicode) (w : World)
      (username email password role : string) :
  truthy username = true ->
  username_exists (db w) (NFKC py username) = false ->
  profiles_linked (db w) ->
  create_user py username email password w
  = (Ok (new_user py (db w) username email password),
     mkWorld (insert_user (new_user py (db w) username email password) (db w))
             (session w) (messages w))
  /\ get_or_create_profile (new_user py (db w) username email password) role
       (mkWorld (insert_user (new_user py (db w) username email password) (db w))
                (session w) (messages w))
     = (Ok (Profile.mk (next_profile_id (db w)) (next_user_id (db w)) role),
        with_account py w username email password role).
Proof.
  intros T N L. split.
  - unfold create_user. rewrite T, N. reflexivity.
  - unfold get_or_create_profile, profile_of. cbn [db insert_user profiles].
    rewrite find_none_all; [reflexivity|].
    intros p Hp. now apply no_profile_of_new_user.
Qed.

(** The unique index at work: the name as typed is free, its NFKC form
    is not. *)
Lemma create_user_taken (py : Unicode) (w : World)
      (username email password : string) :
  truthy username = true ->
  username_exists (db w) (NFKC py username) = true ->
  create_user py username email password w = (Raise IntegrityError, w).
Proof. intros T N. unfold create_user. now rewrite T, N. Qed.

Lemma authenticate_new_account (py : Unicode) (w : World)
      (username email password role : string) :
  username_exists (db w) (NFKC py username) = false ->
  authenticate (db (with_account py w username email password role))
               (NFKC py username) password
  = Some (new_user py (db w) username email password).
Proof.
  intros N. unfold authenticate. cbn [with_account db users insert_profile insert_user].
  rewrite find_app_last.
  - cbn [new_user User.password User.is_active]. now rewrite String.eqb_refl.
  - now apply username_exists_false.
  - apply String.eqb_refl.
Qed.

Lemma profile_of_new_account (py : Unicode) (w : World)
      (username email password role : string) :
  profiles_linked (db w) ->
  profile_of (db (with_account py w username email password role))
             (new_user py (db w) username email password)
  = Some (Profile.mk (next_profile_id (db w)) (next_user_id (db w)) role).
Proof.
  intros L. unfold profile_of. cbn [with_account db profiles insert_profile insert_user].
  apply find_app_last.
  - intros p Hp. now apply no_profile_of_new_user.
  - apply Z.eqb_refl.
Qed.

Lemma register_user_returns (py : Unicode) (request : HttpRequest) (w : World) :
  method request = POST ->
  qd_get_default (POST_ request) "confirm_password" ""
  = qd_get_default (POST_ request) "password" "" ->
  username_exists (db w) (strip (qd_get_default (POST_ request) "username" ""))
  = false ->
  username_exists (db w)
    (NFKC py (strip (qd_get_default (POST_ request) "username" ""))) = false ->
  strip (qd_get_default (POST_ request) "username" "") <> "" ->
  profiles_linked (db w) ->
  register_user py request w
  = (Ok (Redirect "login" None),
     with_account py w (strip (qd_get_default (POST_ request) "username" ""))
                  (qd_get_default (POST_ request) "email" "")
                  (qd_get_default (POST_ request) "password" "") "staff").
Proof.
  intros Hm Hc Hn Hk Hu L. apply truthy_true_iff in Hu.
  unfold register_user. rewrite Hm, Hc, String.eqb_refl. cbn [negb].
  unfold bind, read_db. rewrite Hn.
  destruct (create_account py w (strip (qd_get_default (POST_ request) "username" ""))
              (qd_get_default (POST_ request) "email" "")
              (qd_get_default (POST_ request) "password" "") "staff" Hu Hk L)
    as [E1 E2].
  rewrite E1, E2. reflexivity.
Qed.

(** X14: public registration and login fit together.  The account is
    stored under the NFKC form of the name that was typed, which the
    unique index of the column has to let in; logging in with the stored
    name and the same password then finds the new account and goes to the
    staff dashboard with the session naming it. *)
Theorem register_user_then_login :
  forall (py : Unicode) (request login_request : HttpRequest) (w : World),
    method request = POST ->
    qd_get_default (POST_ request) "confirm_password" ""
    = qd_get_default (POST_ request) "password" "" ->
    username_exists (db w) (strip (qd_get_default (POST_ request) "username" ""))
    = false ->
    username_exists (db w)
      (NFKC py (strip (qd_get_default (POST_ request) "username" ""))) = false ->
    strip (qd_get_default (POST_ request) "username" "") <> "" ->
    profiles_linked (db w) ->
    method login_request = POST ->
    strip (qd_get_default (POST_ login_request) "username" "")
    = NFKC py (strip (qd_get_default (POST_ request) "username" "")) ->
    qd_get_default (POST_ login_request) "password" ""
    = qd_get_default (POST_ request) "password" "" ->
    exists w' account,
      register_user py request w = (Ok (Redirect "login" None), w')
      /\ In account (users (db w'))
      /\ User.username account
         = NFKC py (strip (qd_get_default (POST_ request) "username" ""))
      /\ User.is_superuser account = false
      /\ login_view login_request w'
         = (Ok (Redirect "staff_dashboard" None), logged_in w' account).
Proof.
  intros py request login_request w Hm Hc Hn Hk Hu L Hlm Hlu Hlp.
  set (username := strip (qd_get_default (POST_ request) "username" "")) in *.
  set (email := qd_get_default (POST_ request) "email" "").
  set (password := qd_get_default (POST_ request) "password" "") in *.
  exists (with_account py w username email password "staff"),
         (new_user py (db w) username email password).
  split; [now apply register_user_returns|].
  split; [cbn [with_account db users insert_profile insert_user];
          apply in_or_app; right; now left|].
  split; [reflexivity|]. split; [reflexivity|].
  rewrite (login_view_post login_request _
             (new_user py (db w) username email password) Hlm).
  - rewrite (profile_of_new_account py w username email password "staff" L).
    reflexivity.
  - rewrite Hlu, Hlp. now apply authenticate_new_account.
Qed.

Lemma register_user_then_login_witness :
  exists w' account,
    register_user Sample.unicode
                  (Sample.post_as AnonymousUser "/register/"
                     [("username", (Sample.fullwidth_m ++ "aya ")%string);
                      ("email", "maya@Example.ORG");
                      ("password", "pw-maya"); ("confirm_password", "pw-maya")])
                  Sample.world
    = (Ok (Redirect "login" None), w')
    /\ User.username account = "maya"
    /\ login_view (Sample.post_as AnonymousUser "/login/"
                     [("username", "maya"); ("password", "pw-maya")]) w'
       = (Ok (Redirect "staff_dashboard" None), logged_in w' account).
Proof.
  destruct (register_user_then_login Sample.unicode
              (Sample.post_as AnonymousUser "/register/"
                 [("username", (Sample.fullwidth_m ++ "aya ")%string);
                  ("email", "maya@Example.ORG");
                  ("password", "pw-maya"); ("confirm_password", "pw-maya")])
              (Sample.post_as AnonymousUser "/login/"
                 [("username", "maya"); ("password", "pw-maya")])
              Sample.world eq_refl eq_refl eq_refl eq_refl)
    as (w' & account & E & _ & Hn & _ & Hl).
  - discriminate.
  - intros p Hp. simpl in Hp.
    destruct Hp as [<- | [<- | [<- | [<- | []]]]]; simpl.
    + exists Sample.alice. split; [simpl; auto | reflexivity].
    + exists Sample.sam. split; [simpl; auto | reflexivity].
    + exists Sample.john. split; [simpl; auto | reflexivity].
    + exists Sample.dave. split; [simpl; auto 6 | reflexivity].
  - reflexivity.
  - reflexivity.
  - reflexivity.
  - exists w', account. split; [exact E | split; [exact Hn | exact Hl]].
Defined.

(** X15: what public registration refuses: passwords that differ give the
    form with an error, checked before anything else; a username that is
    taken gives the form with an error; an empty username, which the view
    does not guard, ends in the [ValueError] of [create_user].  In each
    case nothing is stored. *)
Theorem register_user_refusals :
  forall (py : Unicode) (request : HttpRequest) (w : World),
    method request = POST ->
    (qd_get_default (POST_ request) "confirm_password" ""
     <> qd_get_default (POST_ request) "password" "" ->
     register_user py request w
     = (Ok (Render "register.html" (CtxError "Passwords do not match.") 200), w))
    /\ (qd_get_default (POST_ request) "confirm_password" ""
        = qd_get_default (POST_ request) "password" "" ->
        (username_exists (db w) (strip (qd_get_default (POST_ request) "username" ""))
         = true ->
         register_user py request w
         = (Ok (Render "register.html" (CtxError "Username already taken.") 200), w))
        /\ (username_exists (db w) "" = false ->
            strip (qd_get_default (POST_ request) "username" "") = "" ->
            register_user py request w = (Raise ValueError, w)
            /\ get_response (register_user py) request w
               = (Render "500.html" CtxEmpty 500, w))).
Proof.
  intros py request w Hm. split.
  - intros Hne. unfold register_user. rewrite Hm.
    destruct (String.eqb_spec (qd_get_default (POST_ request) "password" "")
                (qd_get_default (POST_ request) "confirm_password" ""));
      [congruence | reflexivity].
  - intros Hc. split.
    + intros He. unfold register_user. rewrite Hm, Hc, String.eqb_refl. cbn [negb].
      unfold bind, read_db. rewrite He. reflexivity.
    + intros He Hs.
      assert (E : register_user py request w = (Raise ValueError, w)).
      { unfold register_user. rewrite Hm, Hc, String.eqb_refl. cbn [negb].
        unfold bind, read_db. rewrite Hs, He. reflexivity. }
      split; [exact E|]. unfold get_response. rewrite E. reflexivity.
Qed.

Lemma register_user_refusals_witness :
  register_user Sample.unicode
                (Sample.post_as AnonymousUser "/register/"
                   [("username", "sam"); ("password", "x"); ("confirm_password", "x")])
                Sample.world
  = (Ok (Render "register.html" (CtxError "Username already taken.") 200),
     Sample.world).
Proof.
  refine (proj1 (proj2 (register_user_refusals Sample.unicode
            (Sample.post_as AnonymousUser "/register/"
               [("username", "sam"); ("password", "x"); ("confirm_password", "x")])
            Sample.world eq_refl) eq_refl) eq_refl).
Defined.

Lemma account_tail_users (py : Unicode) (username email password role : string)
      (k : M HttpResponse) (w : World) :
  (forall w0, db (snd (k w0)) = db w0) ->
  users (db (snd ((user <- create_user py username email password ;;
                   get_or_create_profile user role ;;; k) w)))
  = users (db w)
  \/ (username_exists (db w) (NFKC py username) = false
      /\ users (db (snd ((user <- create_user py username email password ;;
                          get_or_create_profile user role ;;; k) w)))
         = users (db w) ++ [new_user py (db w) username email password]).
Proof.
  intros Hk. unfold bind, create_user.
  destruct (truthy username); [|left; reflexivity].
  destruct (username_exists (db w) (NFKC py username)) eqn:N; [left; reflexivity|].
  unfold get_or_create_profile. cbn [db].
  destruct (profile_of _ _) as [p|].
  - right. split; [reflexivity|].
    match goal with
    | |- context [k ?W] => pose proof (Hk W) as H; destruct (k W) as [[r|e] w1]
    end; cbn [snd] in *; rewrite H; reflexivity.
  - right. split; [reflexivity|].
    match goal with
    | |- context [k ?W] => pose proof (Hk W) as H; destruct (k W) as [[r|e] w1]
    end; cbn [snd] in *; rewrite H; reflexivity.
Qed.

Lemma usernames_unique_snoc (py : Unicode) (db : Store)
      (username email password : string) (us : list User.t) :
  usernames_unique db ->
  us = users db
  \/ (username_exists db (NFKC py username) = false
      /\ us = users db ++ [new_user py db username email password]) ->
  NoDup (map User.username us).
Proof.
  intros U [-> | [N ->]]; [exact U|].
  rewrite map_app. cbn [map new_user User.username].
  apply NoDup_snoc; [exact U|]. intros Hin.
  apply in_map_iff in Hin. destruct Hin as (x & E & Hx).
  pose proof (username_exists_false db _ N x Hx) as F.
  rewrite E, String.eqb_refl in F. discriminate.
Qed.

(** X16: the three views that create accounts keep usernames distinct,
    whatever the request.  The test each view makes is on the name as
    typed, the row is stored under its NFKC form, and it is the unique
    index of the column that keeps a second row with a stored name out:
    a registration whose name is free as typed and taken in its NFKC form
    passes the test of the view and ends in [IntegrityError], with nothing
    stored. *)
Theorem account_views_keep_usernames_unique :
  forall (py : Unicode) (request : HttpRequest) (w : World),
    usernames_unique (db w) ->
    usernames_unique (db (snd (register_user py request w)))
    /\ usernames_unique (db (snd (register_staff py request w)))
    /\ usernames_unique (db (snd (add_driver py request w)))
    /\ (method request = POST ->
        qd_get_default (POST_ request) "confirm_password" ""
        = qd_get_default (POST_ request) "password" "" ->
        strip (qd_get_default (POST_ request) "username" "") <> "" ->
        username_exists (db w) (strip (qd_get_default (POST_ request) "username" ""))
        = false ->
        username_exists (db w)
          (NFKC py (strip (qd_get_default (POST_ request) "username" ""))) = true ->
        register_user py request w = (Raise IntegrityError, w)
        /\ get_response (register_user py) request w
           = (Render "500.html" CtxEmpty 500, w)).
Proof.
  intros py request w U. unfold usernames_unique in *. split; [|split; [|split]].
  - unfold register_user. destruct (method request); [exact U|].
    destruct (negb _); [exact U|].
    unfold bind at 1. unfold read_db at 1. cbv iota beta.
    destruct (username_exists (db w) _) eqn:N; [exact U|].
    eapply usernames_unique_snoc; [exact U|].
    apply account_tail_users. reflexivity.
  - unfold register_staff.
    change [Some "admin"] with (map Some ["admin"]).
    match goal with
    | |- context [role_required _ ?view request w] =>
        destruct (role_required_cases ["admin"] view request w) as [G | [G | G]]
    end; rewrite G; try exact U.
    clear G. cbv beta. destruct (method request); [exact U|].
    destruct (negb _ || negb _); [exact U|].
    unfold bind at 1. unfold read_db at 1. cbv iota beta.
    destruct (username_exists (db w) _) eqn:N; [exact U|].
    eapply usernames_unique_snoc; [exact U|].
    apply account_tail_users. reflexivity.
  - unfold add_driver.
    change [Some "admin"] with (map Some ["admin"]).
    match goal with
    | |- context [role_required _ ?view request w] =>
        destruct (role_required_cases ["admin"] view request w) as [G | [G | G]]
    end; rewrite G; try exact U.
    clear G. cbv beta. destruct (method request); [exact U|].
    destruct (negb _ || negb _); [exact U|].
    unfold bind at 1. unfold read_db at 1. cbv iota beta.
    destruct (username_exists (db w) _) eqn:N; [exact U|].
    eapply usernames_unique_snoc; [exact U|].
    apply account_tail_users. reflexivity.
  - intros Hm Hc Hu Hn Hk. apply truthy_true_iff in Hu.
    assert (E : register_user py request w = (Raise IntegrityError, w)).
    { unfold register_user. rewrite Hm, Hc, String.eqb_refl. cbn [negb].
      unfold bind, read_db. rewrite Hn.
      rewrite (create_user_taken py w _ _ _ Hu Hk). reflexivity. }
    split; [exact E|]. unfold get_response. rewrite E. reflexivity.
Qed.

Lemma account_views_keep_usernames_unique_witness :
  usernames_unique
    (db (snd (register_user Sample.unicode
                (Sample.post_as AnonymousUser "/register/"
                   [("username", "maya"); ("password", "p"); ("confirm_password", "p")])
                Sample.world)))
  /\ register_user Sample.unicode
       (Sample.post_as AnonymousUser "/register/"
          [("username", (Sample.fullwidth_j ++ "ohn")%string); ("password", "p");
           ("confirm_password", "p")])
       Sample.world
     = (Raise IntegrityError, Sample.world).
Proof.
  split.
  - refine (proj1 (account_views_keep_usernames_unique Sample.unicode
              (Sample.post_as AnonymousUser "/register/"
                 [("username", "maya"); ("password", "p"); ("confirm_password", "p")])
              Sample.world _)).
    repeat constructor; simpl; intuition discriminate.
  - refine (proj1 (proj2 (proj2 (proj2 (account_views_keep_usernames_unique
              Sample.unicode
              (Sample.post_as AnonymousUser "/register/"
                 [("username", (Sample.fullwidth_j ++ "ohn")%string); ("password", "p");
                  ("confirm_password", "p")])
              Sample.world _))) eq_refl eq_refl _ eq_refl eq_refl)).
    + repeat constructor; simpl; intuition discriminate.
    + discriminate.
Defined.

Lemma add_driver_returns (py : Unicode) (request : HttpRequest) (w : World)
      (u : User.t) :
  user request = Authenticated u ->
  permits (db w) u ["admin"] ->
  method request = POST ->
  strip (qd_get_default (POST_ request) "username" "") <> "" ->
  qd_get_default (POST_ request) "password" "" <> "" ->
  username_exists (db w) (strip (qd_get_default (POST_ request) "username" ""))
  = false ->
  username_exists (db w)
    (NFKC py (strip (qd_get_default (POST_ request) "username" ""))) = false ->
  profiles_linked (db w) ->
  add_driver py request w
  = (Ok (Redirect "admin_dashboard" None),
     mkWorld
       (db (with_account py w (strip (qd_get_default (POST_ request) "username" ""))
                         (qd_get_default (POST_ request) "email" "")
                         (qd_get_default (POST_ request) "password" "") "driver"))
       (session w)
       (messages w
        ++ [("Driver '" ++ strip (qd_get_default (POST_ request) "username" "")
             ++ "' created.")%string])).
Proof.
  intros Hu Hp Hm Hn Hpw He Hk L.
  apply truthy_true_iff in Hn. apply truthy_true_iff in Hpw.
  unfold add_driver. pass_gate Hu Hp. rewrite Hm, Hn, Hpw. cbn [negb orb].
  unfold bind, read_db. rewrite He.
  destruct (create_account py w (strip (qd_get_default (POST_ request) "username" ""))
              (qd_get_default (POST_ request) "email" "")
              (qd_get_default (POST_ request) "password" "") "driver" Hn Hk L)
    as [E1 E2].
  rewrite E1, E2. reflexivity.
Qed.

Lemma find_filter_app_last {A} (f g : A -> bool) (l : list A) (x : A) :
  (forall y, In y l -> f y = false) -> f x = true -> g x = true ->
  find f (filter g (l ++ [x])) = Some x.
Proof.
  intros Hl Hf Hg. rewrite filter_app. cbn [filter]. rewrite Hg.
  apply find_app_last; [|assumption].
  intros y Hy. apply filter_In in Hy. now apply Hl.
Qed.

(** X17: a driver account made by the admin is ready for assignment: the
    view stores the user, under the NFKC form of the name and a key no
    stored user has, with a profile of role "driver"; the new identity is
    in the driver choices of the vehicle forms, and the assign form
    accepts its key. *)
Theorem add_driver_assignable :
  forall (py : Unicode) (request : HttpRequest) (w : World) (u : User.t),
    user request = Authenticated u ->
    permits (db w) u ["admin"] ->
    method request = POST ->
    strip (qd_get_default (POST_ request) "username" "") <> "" ->
    qd_get_default (POST_ request) "password" "" <> "" ->
    username_exists (db w) (strip (qd_get_default (POST_ request) "username" ""))
    = false ->
    username_exists (db w)
      (NFKC py (strip (qd_get_default (POST_ request) "username" ""))) = false ->
    profiles_linked (db w) ->
    exists w' driver,
      add_driver py request w = (Ok (Redirect "admin_dashboard" None), w')
      /\ User.username driver
         = NFKC py (strip (qd_get_default (POST_ request) "username" ""))
      /\ (forall x, In x (users (db w)) -> User.id x <> User.id driver)
      /\ In driver (driver_qs (db w'))
      /\ (exists p, profile_of (db w') driver = Some p
                    /\ Profile.user_id p = User.id driver
                    /\ Profile.role p = "driver"
                    /\ forall q, In q (profiles (db w)) ->
                                 Profile.id q <> Profile.id p)
      /\ (forall raw, truthy (or_empty raw) = true ->
                      parse_int (or_empty raw) = Some (User.id driver) ->
                      clean_current_driver (db w') raw = inl (Some (User.id driver)))
      /\ vehicles (db w') = vehicles (db w).
Proof.
  intros py request w u Hu Hp Hm Hn Hpw He Hk L.
  set (username := strip (qd_get_default (POST_ request) "username" "")) in *.
  set (email := qd_get_default (POST_ request) "email" "") in *.
  set (password := qd_get_default (POST_ request) "password" "") in *.
  set (driver := new_user py (db w) username email password).
  eexists. exists driver.
  split; [exact (add_driver_returns py request w u Hu Hp Hm Hn Hpw He Hk L)|].
  fold username email password. cbn [db with_account].
  assert (Hin_qs : (fun x =>
                      existsb (fun p => (Profile.user_id p =? User.id x)
                                        && iexact (Profile.role p) "driver")
                              (profiles (db w)
                               ++ [Profile.mk (next_profile_id (db w))
                                              (next_user_id (db w)) "driver"]))
                     driver = true).
  { apply existsb_exists.
    exists (Profile.mk (next_profile_id (db w)) (next_user_id (db w)) "driver").
    split; [apply in_or_app; right; now left|].
    cbn [Profile.user_id Profile.role driver new_user User.id].
    rewrite Z.eqb_refl. reflexivity. }
  assert (Hfresh : forall y, In y (users (db w)) ->
                             (User.id y =? User.id driver) = false).
  { intros y Hy. pose proof (next_user_id_fresh _ _ Hy). apply Z.eqb_neq.
    cbn [driver new_user User.id]. lia. }
  split; [reflexivity|].
  split; [intros x Hx; apply Z.eqb_neq; now apply Hfresh|].
  split; [|split; [|split; [|reflexivity]]].
  - unfold driver_qs. cbn [users profiles insert_profile insert_user].
    apply filter_In. split.
    + apply in_or_app. right. now left.
    + exact Hin_qs.
  - exists (Profile.mk (next_profile_id (db w)) (User.id driver) "driver").
    split; [|split; [reflexivity|split; [reflexivity|]]].
    + change (profile_of (db (with_account py w username email password "driver"))
                         driver
              = Some (Profile.mk (next_profile_id (db w)) (User.id driver) "driver")).
      apply profile_of_new_account. exact L.
    + intros q Hq. pose proof (next_profile_id_fresh _ _ Hq).
      cbn [Profile.id]. lia.
  - intros raw T P. unfold clean_current_driver. rewrite T, P.
    unfold driver_qs. cbn [users profiles insert_profile insert_user].
    rewrite (find_filter_app_last _ _ _ driver); auto.
    apply Z.eqb_refl.
Qed.

Lemma sample_profiles_linked : profiles_linked Sample.store.
Proof.
  intros p Hp. simpl in Hp.
  destruct Hp as [<- | [<- | [<- | [<- | []]]]]; simpl.
  - exists Sample.alice. split; [simpl; auto | reflexivity].
  - exists Sample.sam. split; [simpl; auto | reflexivity].
  - exists Sample.john. split; [simpl; auto | reflexivity].
  - exists Sample.dave. split; [simpl; auto 6 | reflexivity].
Defined.

Lemma add_driver_assignable_witness :
  exists w' driver,
    add_driver Sample.unicode
               (Sample.post_as (Authenticated Sample.alice) "/admin/add-driver/"
                  [("username", "ravi"); ("password", "pw-ravi")])
               Sample.world
    = (Ok (Redirect "admin_dashboard" None), w')
    /\ In driver (driver_qs (db w')).
Proof.
  destruct (add_driver_assignable Sample.unicode
              (Sample.post_as (Authenticated Sample.alice) "/admin/add-driver/"
                 [("username", "ravi"); ("password", "pw-ravi")])
              Sample.world Sample.alice eq_refl)
    as (w' & driver & E & _ & _ & Hin & _).
  - right; left. exists (Profile.mk 11 1 "admin"). split; reflexivity.
  - reflexivity.
  - discriminate.
  - discriminate.
  - reflexivity.
  - reflexivity.
  - exact sample_profiles_linked.
  - exists w', driver. split; [exact E | exact Hin].
Defined.

Lemma register_staff_returns (py : Unicode) (request : HttpRequest) (w : World)
      (u : User.t) :
  user request = Authenticated u ->
  permits (db w) u ["admin"] ->
  method request = POST ->
  strip (qd_get_default (POST_ request) "username" "") <> "" ->
  qd_get_default (POST_ request) "password" "" <> "" ->
  username_exists (db w) (strip (qd_get_default (POST_ request) "username" ""))
  = false ->
  username_exists (db w)
    (NFKC py (strip (qd_get_default (POST_ request) "username" ""))) = false ->
  profiles_linked (db w) ->
  register_staff py request w
  = (Ok (Redirect "admin_dashboard" None),
     mkWorld
       (db (with_account py w (strip (qd_get_default (POST_ request) "username" ""))
              (qd_get_default (POST_ request) "email" "")
              (qd_get_default (POST_ request) "password" "")
              (str_lower py
                 (or_default (qd_get_default (POST_ request) "role" "staff")
                             "staff"))))
       (session w)
       (messages w
        ++ [("User '" ++ strip (qd_get_default (POST_ request) "username" "")
             ++ "' created as "
             ++ str_lower py
                  (or_default (qd_get_default (POST_ request) "role" "staff")
                              "staff")
             ++ ".")%string])).
Proof.
  intros Hu Hp Hm Hn Hpw He Hk L.
  apply truthy_true_iff in Hn. apply truthy_true_iff in Hpw.
  unfold register_staff. pass_gate Hu Hp. rewrite Hm, Hn, Hpw. cbn [negb orb].
  unfold bind, read_db. rewrite He.
  destruct (create_account py w (strip (qd_get_default (POST_ request) "username" ""))
              (qd_get_default (POST_ request) "email" "")
              (qd_get_default (POST_ request) "password" "")
              (str_lower py
                 (or_default (qd_get_default (POST_ request) "role" "staff")
                             "staff")) Hn Hk L) as [E1 E2].
  rewrite E1, E2. reflexivity.
Qed.

(** X18: the admin's account form stores the role lower-cased, the lower
    case of "staff" when none is sent, and does not check it against the
    role choices: the account, stored under the NFKC form of its name,
    then logs in to the dashboard of its role when the role is one of the
    three, and is turned away at login, with no session, when it is
    not. *)
Theorem register_staff_role :
  forall (py : Unicode) (request login_request : HttpRequest) (w : World)
         (u : User.t),
    user request = Authenticated u ->
    permits (db w) u ["admin"] ->
    method request = POST ->
    strip (qd_get_default (POST_ request) "username" "") <> "" ->
    qd_get_default (POST_ request) "password" "" <> "" ->
    username_exists (db w) (strip (qd_get_default (POST_ request) "username" ""))
    = false ->
    username_exists (db w)
      (NFKC py (strip (qd_get_default (POST_ request) "username" ""))) = false ->
    profiles_linked (db w) ->
    method login_request = POST ->
    strip (qd_get_default (POST_ login_request) "username" "")
    = NFKC py (strip (qd_get_default (POST_ request) "username" "")) ->
    qd_get_default (POST_ login_request) "password" ""
    = qd_get_default (POST_ request) "password" "" ->
    exists w' account role,
      register_staff py request w = (Ok (Redirect "admin_dashboard" None), w')
      /\ role = str_lower py
                  (or_default (qd_get_default (POST_ request) "role" "staff")
                              "staff")
      /\ (qd_get (POST_ request) "role" = None -> role = str_lower py "staff")
      /\ (exists p, profile_of (db w') account = Some p
                    /\ Profile.user_id p = User.id account
                    /\ Profile.role p = role)
      /\ (forall route, dashboard_of (lower role) = Some route ->
                        login_view login_request w'
                        = (Ok (Redirect route None), logged_in w' account))
      /\ (~ In (lower role) Profile.ROLE_CHOICES ->
          login_view login_request w'
          = (Ok role_not_assigned, mkWorld (db w') None (messages w'))).
Proof.
  intros py request login_request w u Hu Hp Hm Hn Hpw He Hk L Hlm Hlu Hlp.
  set (username := strip (qd_get_default (POST_ request) "username" "")) in *.
  set (email := qd_get_default (POST_ request) "email" "") in *.
  set (password := qd_get_default (POST_ request) "password" "") in *.
  set (role := str_lower py
                 (or_default (qd_get_default (POST_ request) "role" "staff")
                             "staff")).
  set (account := new_user py (db w) username email password).
  eexists. exists account, role.
  split; [exact (register_staff_returns py request w u Hu Hp Hm Hn Hpw He Hk L)|].
  fold username email password role.
  set (w' := mkWorld (db (with_account py w username email password role)) (session w)
                     (messages w ++ [("User '" ++ username ++ "' created as "
                                      ++ role ++ ".")%string])).
  assert (Hprof : profile_of (db w') account
                  = Some (Profile.mk (next_profile_id (db w)) (User.id account) role)).
  { apply (profile_of_new_account py w username email password role L). }
  assert (Hauth : authenticate (db w')
                    (strip (qd_get_default (POST_ login_request) "username" ""))
                    (qd_get_default (POST_ login_request) "password" "")
                  = Some account).
  { rewrite Hlu, Hlp.
    apply (authenticate_new_account py w username email password role Hk). }
  split; [reflexivity|]. split; [|split; [|split]].
  - intros Hnone. unfold role, qd_get_default. rewrite Hnone. reflexivity.
  - eexists. split; [exact Hprof|]. split; reflexivity.
  - intros route Hr. rewrite (login_view_post login_request w' account Hlm Hauth).
    rewrite Hprof. cbn [Profile.role]. rewrite Hr. reflexivity.
  - intros Hni. rewrite (login_view_post login_request w' account Hlm Hauth).
    rewrite Hprof. cbn [Profile.role].
    destruct (dashboard_of_choice (lower role)) as (_ & _ & _ & H).
    rewrite (H Hni). reflexivity.
Qed.

Lemma register_staff_role_witness :
  exists w' account,
    register_staff Sample.unicode
                   (Sample.post_as (Authenticated Sample.alice) "/admin/register-staff/"
                      [("username", "lena"); ("password", "pw-lena");
                       ("role", "Manager")])
                   Sample.world
    = (Ok (Redirect "admin_dashboard" None), w')
    /\ (exists p, profile_of (db w') account = Some p /\ Profile.role p = "manager")
    /\ login_view (Sample.post_as AnonymousUser "/login/"
                     [("username", "lena"); ("password", "pw-lena")]) w'
       = (Ok role_not_assigned, mkWorld (db w') None (messages w')).
Proof.
  destruct (register_staff_role Sample.unicode
              (Sample.post_as (Authenticated Sample.alice) "/admin/register-staff/"
                 [("username", "lena"); ("password", "pw-lena"); ("role", "Manager")])
              (Sample.post_as AnonymousUser "/login/"
                 [("username", "lena"); ("password", "pw-lena")])
              Sample.world Sample.alice eq_refl)
    as (w' & account & role & E & -> & _ & (p & Hp & _ & Hr) & _ & Hl).
  - right; left. exists (Profile.mk 11 1 "admin"). split; reflexivity.
  - reflexivity.
  - discriminate.
  - discriminate.
  - reflexivity.
  - reflexivity.
  - exact sample_profiles_linked.
  - reflexivity.
  - reflexivity.
  - reflexivity.
  - exists w', account. split; [exact E|].
    split; [exists p; split; [exact Hp | exact Hr]|].
    apply Hl. vm_compute. intuition discriminate.
Defined.

(** ** Deleting a profile, then logging in *)

Lemma delete_profile_returns (pk : Z) (request : HttpRequest) (w : World)
      (u : User.t) (P : Profile.t) (U : User.t) :
  user request = Authenticated u ->
  permits (db w) u ["admin"] ->
  get_profile (db w) pk = Some P ->
  get_user (db w) (Profile.user_id P) = Some U ->
  delete_profile pk request w
  = (Ok (Redirect "admin_dashboard" None),
     mkWorld (delete_profile_row (Profile.id P) (delete_user (User.id U) (db w)))
             (session w) (messages w ++ ["User deleted successfully."])).
Proof.
  intros Hu Hp HP HU. unfold delete_profile. pass_gate Hu Hp.
  unfold bind, read_db, get_object_or_404. rewrite HP. cbn [ret].
  rewrite HU. reflexivity.
Qed.

(** X19: once a profile is deleted, its identity can no longer log in:
    with usernames distinct, the login view answers the old username, with
    whatever password, by "Invalid credentials" and starts no session. *)
Theorem delete_profile_then_login :
  forall (pk : Z) (request login_request : HttpRequest) (w : World)
         (u : User.t) (P : Profile.t) (U : User.t),
    user request = Authenticated u ->
    permits (db w) u ["admin"] ->
    get_profile (db w) pk = Some P ->
    get_user (db w) (Profile.user_id P) = Some U ->
    usernames_unique (db w) ->
    method login_request = POST ->
    strip (qd_get_default (POST_ login_request) "username" "") = User.username U ->
    exists w',
      delete_profile pk request w = (Ok (Redirect "admin_dashboard" None), w')
      /\ login_view login_request w'
         = (Ok (Render "login.html" (CtxError "Invalid credentials") 200), w').
Proof.
  intros pk request login_request w u P U Hu Hp HP HU Un Hlm Hlu.
  eexists. split; [exact (delete_profile_returns pk request w u P U Hu Hp HP HU)|].
  unfold login_view. rewrite Hlm. unfold bind, read_db. cbn [db].
  unfold authenticate. cbn [delete_profile_row delete_user users].
  rewrite Hlu. rewrite find_none_all; [reflexivity|].
  intros x Hx. apply filter_In in Hx. destruct Hx as [Hx Hne].
  apply negb_true_iff, Z.eqb_neq in Hne.
  destruct (String.eqb_spec (User.username x) (User.username U)) as [E|]; [|reflexivity].
  exfalso. apply Hne.
  apply find_some in HU. destruct HU as [HUin _].
  now rewrite (NoDup_map_inj User.username _ _ _ Un Hx HUin E).
Qed.

Lemma delete_profile_then_login_witness :
  exists w',
    delete_profile 13 (Sample.post_as (Authenticated Sample.alice)
                                      "/admin/profiles/13/delete/" [])
                   Sample.world
    = (Ok (Redirect "admin_dashboard" None), w')
    /\ login_view (Sample.post_as AnonymousUser "/login/"
                     [("username", "john"); ("password", "pw-john")]) w'
       = (Ok (Render "login.html" (CtxError "Invalid credentials") 200), w').
Proof.
  apply (delete_profile_then_login 13
           (Sample.post_as (Authenticated Sample.alice) "/admin/profiles/13/delete/" [])
           (Sample.post_as AnonymousUser "/login/"
              [("username", "john"); ("password", "pw-john")])
           Sample.world Sample.alice (Profile.mk 13 3 "driver") Sample.john eq_refl).
  - right; left. exists (Profile.mk 11 1 "admin"). split; reflexivity.
  - reflexivity.
  - reflexivity.
  - repeat constructor; simpl; intuition discriminate.
  - reflexivity.
  - reflexivity.
Defined.

(** ** The counts of the vehicle list *)

Lemma filter_all {A} (f : A -> bool) (l : list A) :
  (forall x, In x l -> f x = true) -> filter f l = l.
Proof.
  induction l as [|a l IH]; intros H; [reflexivity|]. simpl.
  rewrite (H a (or_introl eq_refl)). f_equal. apply IH. intros x Hx. apply H. now right.
Qed.

Lemma filter_none {A} (f : A -> bool) (l : list A) :
  (forall x, In x l -> f x = false) -> filter f l = [].
Proof.
  induction l as [|a l IH]; intros H; [reflexivity|]. simpl.
  rewrite (H a (or_introl eq_refl)). apply IH. intros x Hx. apply H. now right.
Qed.

(** X20: the header counts of the vehicle list are counts of the rows
    shown: the assigned and the in-maintenance numbers never exceed the
    total; filtering by status "maintenance" makes the in-maintenance
    number the total, filtering by any other status makes it zero; and
    with no filter at all every stored vehicle is listed. *)
Theorem vehicle_list_counts :
  forall (request : HttpRequest) (w : World) (u : User.t),
    user request = Authenticated u ->
    permits (db w) u ["admin"; "staff"] ->
    let q := strip (or_empty (qd_get (GET_ request) "q")) in
    let s := strip (or_empty (qd_get (GET_ request) "status")) in
    exists vs stats,
      vehicle_list request w
      = (Ok (Render "vehicles/list.html" (CtxList vs q s stats) 200), w)
      /\ 0 <= assigned stats <= total stats
      /\ 0 <= maintenance stats <= total stats
      /\ (s = "maintenance" -> maintenance stats = total stats)
      /\ (s <> "" -> s <> "maintenance" -> maintenance stats = 0)
      /\ (q = "" -> s = "" ->
          Permutation (vehicles (db w)) vs
          /\ total stats = count (vehicles (db w))).
Proof.
  intros request w u Hu Hp q s.
  pose proof (vehicle_list_returns request w u Hu Hp) as E. cbv zeta in E.
  fold q in E. fold s in E.
  set (qs := filter (keep q s) (vehicles (db w))) in *.
  eexists. eexists. split; [exact E|]. cbn [total assigned maintenance].
  assert (Hstatus : s <> "" -> forall x, In x qs -> Vehicle.status x = s).
  { intros Hs x Hx. apply filter_In in Hx. destruct Hx as [_ Hk].
    apply keep_listed in Hk. destruct Hk as [_ Hk]. now apply Hk. }
  split; [apply count_filter_le|]. split; [apply count_filter_le|].
  split; [|split].
  - intros Hs. rewrite filter_all; [reflexivity|].
    intros x Hx. rewrite (Hstatus ltac:(rewrite Hs; discriminate) x Hx), Hs.
    reflexivity.
  - intros Hs Hm. rewrite filter_none; [reflexivity|].
    intros x Hx. rewrite (Hstatus Hs x Hx). now apply String.eqb_neq.
  - intros Hq Hs.
    assert (Hall : qs = vehicles (db w)).
    { unfold qs. apply filter_all. intros x _. unfold keep. rewrite Hq, Hs.
      reflexivity. }
    rewrite Hall. split; [apply order_by_perm | reflexivity].
Qed.

Lemma vehicle_list_counts_witness :
  exists vs stats,
    vehicle_list (Sample.get_as (Authenticated Sample.sam) "/admin/vehicles/"
                                [("q", Sample.ideographic_space);
                                 ("status",
                                  (Sample.no_break_space ++ "maintenance")%string)])
                 Sample.world
    = (Ok (Render "vehicles/list.html" (CtxList vs "" "maintenance" stats) 200),
       Sample.world)
    /\ maintenance stats = total stats.
Proof.
  destruct (vehicle_list_counts
              (Sample.get_as (Authenticated Sample.sam) "/admin/vehicles/"
                             [("q", Sample.ideographic_space);
                              ("status",
                               (Sample.no_break_space ++ "maintenance")%string)])
              Sample.world Sample.sam eq_refl) as (vs & stats & E & _ & _ & H & _).
  - right; right. exists (Profile.mk 12 2 "Staff"), "staff".
    split; [reflexivity | split; [simpl; auto | reflexivity]].
  - exists vs, stats. split; [exact E | apply H; reflexivity].
Defined.

(** ** What the vehicle form lets into the store *)

Lemma clean_char_inl (n : nat) (req : bool) (raw : option string) (s : string) :
  clean_char (Some n) req raw = inl s ->
  (len s <= n)%nat /\ (req = true -> s <> "").
Proof.
  unfold clean_char. destruct (truthy (strip (or_empty raw))) eqn:T.
  - cbv zeta.
    destruct (n <? len (strip (or_empty raw)))%nat eqn:L; [discriminate|].
    destruct (contains (strip (or_empty raw)) _); [discriminate|].
    intros E. injection E as <-. apply Nat.ltb_ge in L.
    split; [exact L | intros _; now apply truthy_true_iff].
  - destruct req; [discriminate|]. intros E. injection E as <-.
    split; [simpl; lia | discriminate].
Qed.

Lemma clean_status_inl (raw : option string) (s : string) :
  clean_status raw = inl s -> In s Vehicle.STATUS_CHOICES.
Proof.
  unfold clean_status. destruct (truthy (or_empty raw)); [|discriminate].
  destruct (existsb _ _) eqn:E; [|discriminate].
  intros H. injection H as <-.
  apply existsb_exists in E. destruct E as (x & Hx & E).
  apply String.eqb_eq in E. now subst.
Qed.

Lemma clean_year_inl (raw : option string) (y : Z) :
  clean_year raw = inl (Some y) -> year_model_errors (clean_year raw) = [] ->
  0 <= y <= integer_field_max.
Proof.
  intros E. rewrite E. unfold year_model_errors.
  destruct (integer_field_max <? y) eqn:M; [discriminate|]. intros _.
  apply Z.ltb_ge in M. split; [|exact M].
  unfold clean_year in E. destruct (truthy (or_empty raw)); [|discriminate].
  destruct (parse_int (re_decimal_sub (or_empty raw))) as [n|]; [|discriminate].
  destruct (n <? 0) eqn:N; [discriminate|]. injection E as <-.
  now apply Z.ltb_ge in N.
Qed.

Lemma VehicleForm_valid_instance (db : Store) (data : QueryDict) (inst : Vehicle.t) :
  is_valid (VehicleForm db data inst) = true ->
  valid_vehicle db (instance (VehicleForm db data inst)).
Proof.
  unfold is_valid. destruct (errors (VehicleForm db data inst)) eqn:E; [|discriminate].
  intros _. unfold VehicleForm in *. cbn [errors instance] in *.
  apply app_nil_both in E. destruct E as [E1 E].
  apply app_nil_both in E. destruct E as [E2 E].
  apply app_nil_both in E. destruct E as [E3 E].
  apply app_nil_both in E. destruct E as [E4 E].
  apply app_nil_both in E. destruct E as [E5 E].
  apply app_nil_both in E. destruct E as [E6 E].
  apply app_nil_both in E. destruct E as [_ E].
  apply app_nil_both in E. destruct E as [E8 _].
  apply field_errors_nil in E1, E2, E3, E4, E5, E6.
  destruct E1 as (r & E1), E2 as (mk & E2), E3 as (md & E3), E4 as (y & E4),
           E5 as (st & E5), E6 as (d & E6).
  unfold valid_vehicle.
  cbn [Vehicle.registration_no Vehicle.make Vehicle.model Vehicle.status
       Vehicle.year Vehicle.current_driver_id].
  rewrite E1, E2, E3, E5, E6. cbn [assign].
  destruct (clean_char_inl _ _ _ _ E1) as [L1 N1].
  destruct (clean_char_inl _ _ _ _ E2) as [L2 _].
  destruct (clean_char_inl _ _ _ _ E3) as [L3 _].
  repeat split; auto.
  - now apply clean_status_inl with (raw := qd_get data "status").
  - rewrite E4 in H. cbn [assign] in H. subst y.
    now apply (clean_year_inl (qd_get data "year")).
  - rewrite E4 in H. cbn [assign] in H. subst y.
    now apply (clean_year_inl (qd_get data "year")).
  - intros uid Hd. subst d. exact (clean_current_driver_eligible _ _ _ E6).
Qed.

Lemma geo_instance_valid (env : Env) (db : Store) (form : BoundForm) :
  valid_vehicle db (instance form) -> valid_vehicle db (geo_instance env form).
Proof.
  unfold geo_instance. destruct (truthy (cleaned_place_name form)); [|auto].
  destruct (located_columns env (cleaned_place_name form) (instance form))
    as (_ & H2 & H3 & H4 & H5 & H6 & H7).
  unfold valid_vehicle. rewrite H2, H3, H4, H5, H6, H7. auto.
Qed.

(** X21: whatever the request, a row that adding or editing a vehicle puts
    into the store is either a row that was there or a valid one: its
    registration number has one to thirty characters, make and model at
    most fifty, the status is one of the choices, the year is not below
    zero and not above the largest integer the database holds, which is
    all the column type comes to there, and the driver, if any, is one
    of the driver choices. *)
Theorem vehicle_forms_store_valid_rows :
  forall (env : Env) (pk : Z) (request : HttpRequest) (w : World) (x : Vehicle.t),
    (In x (vehicles (db (snd (add_vehicle env request w)))) ->
     In x (vehicles (db w)) \/ valid_vehicle (db w) x)
    /\ (In x (vehicles (db (snd (edit_vehicle env pk request w)))) ->
        In x (vehicles (db w)) \/ valid_vehicle (db w) x).
Proof.
  intros env pk request w x. split.
  - destruct (add_vehicle_cases env request w) as [(r & E) | (V & E)]; rewrite E;
      cbn [snd db set_vehicles vehicles]; [auto|].
    intros Hin. apply in_app_or in Hin. destruct Hin as [Hin | [<- | []]]; [auto|].
    right.
    pose proof (geo_instance_valid env (db w) _ (VehicleForm_valid_instance _ _ _ V))
      as Hv.
    exact Hv.
  - destruct (get_vehicle (db w) pk) as [v|] eqn:Hv.
    + destruct (edit_vehicle_cases env pk request w v Hv) as [(r & E) | (V & E)];
        rewrite E; cbn [snd db set_vehicles vehicles]; [auto|].
      intros Hin. apply in_map_iff in Hin. destruct Hin as (y & <- & Hy).
      destruct (opt_Z_eqb (Vehicle.id y) (Some pk)); [|auto].
      right.
      exact (geo_instance_valid env (db w) _ (VehicleForm_valid_instance _ _ _ V)).
    + assert (E : exists r, edit_vehicle env pk request w = (r, w)).
      { unfold edit_vehicle.
        change [Some "admin"; Some "staff"] with (map Some ["admin"; "staff"]).
        match goal with
        | |- context [role_required _ ?view request w] =>
            destruct (role_required_cases ["admin"; "staff"] view request w)
              as [G | [G | G]]
        end; rewrite G; [| eauto | eauto].
        unfold bind, read_db, get_object_or_404. rewrite Hv.
        eexists. reflexivity. }
      destruct E as (r & E). rewrite E. auto.
Qed.

Lemma vehicle_forms_store_valid_rows_witness :
  In (Vehicle.mk (Some 4) "DL05CD4321" "" "" None "active" None None None None)
     (vehicles Sample.store)
  \/ valid_vehicle Sample.store
       (Vehicle.mk (Some 4) "DL05CD4321" "" "" None "active" None None None None).
Proof.
  refine (proj1 (vehicle_forms_store_valid_rows Sample.env_down 1
            (Sample.post_as (Authenticated Sample.sam) "/admin/vehicles/add/"
               [("registration_no", "DL05CD4321"); ("status", "active")])
            Sample.world
            (Vehicle.mk (Some 4) "DL05CD4321" "" "" None "active" None None None None))
           _).
  vm_compute. auto.
Defined.

(** ** Assignment opens the detail page *)

Lemma permits_same_profiles (db db' : Store) (u : User.t) (roles : list string) :
  profiles db' = profiles db -> permits db u roles -> permits db' u roles.
Proof.
  intros E. unfold permits, profile_of. rewrite E. auto.
Qed.

(** X22: assigning a driver gives that driver the vehicle's detail page:
    when admin or staff post the key of a driver and a status from the
    choices, the stored vehicle gets that driver and that status, and the
    driver's next request for the detail page is answered with the page
    instead of [PermissionDenied]. *)
Theorem assign_then_driver_views :
  forall (pk : Z) (request next : HttpRequest) (w : World) (u d : User.t)
         (p : Profile.t) (v : Vehicle.t) (s : string),
    user request = Authenticated u ->
    permits (db w) u ["admin"; "staff"] ->
    method request = POST ->
    get_vehicle (db w) pk = Some v ->
    qd_get (POST_ request) "status" = Some s ->
    In s Vehicle.STATUS_CHOICES ->
    truthy (or_empty (qd_get (POST_ request) "current_driver")) = true ->
    parse_int (or_empty (qd_get (POST_ request) "current_driver")) = Some (User.id d) ->
    In d (users (db w)) ->
    profile_of (db w) d = Some p ->
    lower (Profile.role p) = "driver" ->
    User.is_superuser d = false ->
    user next = Authenticated d ->
    exists w' v',
      assign_vehicle pk request w = (Ok (Redirect "vehicle_list" None), w')
      /\ get_vehicle (db w') pk = Some v'
      /\ Vehicle.current_driver_id v' = Some (User.id d)
      /\ Vehicle.status v' = s
      /\ vehicle_detail pk next w' = (Ok (detail_page (db w') v'), w').
Proof.
  intros pk request next w u d p v s Hu Hp Hm Hv Hs Hin Ht Hparse Hd Hprof Hrole
         Hsup Hnext.
  assert (Hpk : Vehicle.id v = Some pk).
  { pose proof Hv as F. apply find_some in F. destruct F as [_ F].
    now apply opt_Z_eqb_eq in F. }
  assert (Hdq : In d (driver_qs (db w))).
  { unfold driver_qs. apply filter_In. split; [assumption|].
    apply existsb_exists. exists p.
    unfold profile_of in Hprof. apply find_some in Hprof.
    destruct Hprof as [Hpin Hpid]. split; [assumption|].
    rewrite Hpid. unfold iexact. rewrite Hrole. reflexivity. }
  assert (Hclean : clean_current_driver (db w) (qd_get (POST_ request) "current_driver")
                   = inl (Some (User.id d))).
  { unfold clean_current_driver. rewrite Ht, Hparse.
    destruct (find _ (driver_qs (db w))) as [U|] eqn:F.
    - apply find_some in F. destruct F as [_ F]. apply Z.eqb_eq in F. now rewrite F.
    - exfalso. apply (find_none _ _ F) in Hdq. rewrite Z.eqb_refl in Hdq. discriminate. }
  assert (Hstat : clean_status (qd_get (POST_ request) "status") = inl s).
  { unfold clean_status. rewrite Hs, or_empty_Some.
    assert (T : truthy s = true).
    { simpl in Hin. destruct Hin as [<- | [<- | [<- | []]]]; reflexivity. }
    rewrite T.
    assert (X : existsb (String.eqb s) Vehicle.STATUS_CHOICES = true).
    { apply existsb_exists. exists s. split; [assumption | apply String.eqb_refl]. }
    now rewrite X. }
  set (form := AssignVehicleForm (db w) (POST_ request) v).
  assert (V : is_valid form = true).
  { unfold is_valid, form, AssignVehicleForm. cbn [errors].
    rewrite Hclean, Hstat. reflexivity. }
  set (w' := mkWorld (snd (save_vehicle (instance form) (db w))) (session w)
                     (messages w ++ ["Vehicle updated."])).
  assert (E : assign_vehicle pk request w = (Ok (Redirect "vehicle_list" None), w')).
  { unfold assign_vehicle. pass_gate Hu Hp.
    unfold bind, read_db, get_object_or_404. rewrite Hv, Hm. cbn [ret]. fold form.
    rewrite V. unfold ModelForm_save. rewrite V, Model_save_returns. reflexivity. }
  assert (Hdb : vehicles (db w')
                = map (fun x => if opt_Z_eqb (Vehicle.id x) (Some pk)
                                then instance form else x) (vehicles (db w))
                /\ profiles (db w') = profiles (db w)
                /\ maintenance_logs (db w') = maintenance_logs (db w)
                /\ fuel_logs (db w') = fuel_logs (db w)).
  { unfold w'. cbn [db]. unfold save_vehicle.
    change (Vehicle.id (instance form)) with (Vehicle.id v). rewrite Hpk, Hv.
    repeat split. }
  destruct Hdb as (Hveh & Hprofs & _ & _).
  assert (Hget : get_vehicle (db w') pk = Some (instance form)).
  { unfold get_vehicle. rewrite Hveh.
    apply (find_map_replace (fun x => opt_Z_eqb (Vehicle.id x) (Some pk)) _ _ v Hv).
    change (Vehicle.id (instance form)) with (Vehicle.id v).
    now apply opt_Z_eqb_eq. }
  assert (Hdrv : Vehicle.current_driver_id (instance form) = Some (User.id d)).
  { unfold form, AssignVehicleForm. cbn [instance Vehicle.current_driver_id].
    now rewrite Hclean. }
  exists w', (instance form).
  split; [exact E|]. split; [exact Hget|]. split; [exact Hdrv|]. split.
  { unfold form, AssignVehicleForm. cbn [instance Vehicle.status]. now rewrite Hstat. }
  assert (Hprof' : profile_of (db w') d = Some p).
  { unfold profile_of in *. now rewrite Hprofs. }
  assert (Hperm : permits (db w') d ["admin"; "staff"; "driver"]).
  { right; right. exists p, "driver". repeat split; simpl; auto. }
  rewrite (vehicle_detail_body pk next w' d (instance form) Hnext Hperm Hget).
  rewrite (get_user_role_profile _ _ _ Hprof'), Hrole, Hdrv.
  cbn [eq_str]. rewrite (proj2 (opt_Z_eqb_eq _ _) eq_refl).
  cbn [negb andb]. rewrite andb_false_r. reflexivity.
Qed.

Lemma assign_then_driver_views_witness :
  exists w' v',
    assign_vehicle 2 (Sample.post_as (Authenticated Sample.sam)
                        "/admin/vehicles/2/assign/"
                        [("current_driver", "3"); ("status", "active")])
                   Sample.world
    = (Ok (Redirect "vehicle_list" None), w')
    /\ vehicle_detail 2 (Sample.get_as (Authenticated Sample.john) "/vehicles/2/" []) w'
       = (Ok (detail_page (db w') v'), w').
Proof.
  destruct (assign_then_driver_views 2
              (Sample.post_as (Authenticated Sample.sam) "/admin/vehicles/2/assign/"
                 [("current_driver", "3"); ("status", "active")])
              (Sample.get_as (Authenticated Sample.john) "/vehicles/2/" [])
              Sample.world Sample.sam Sample.john (Profile.mk 13 3 "driver")
              Sample.van "active" eq_refl)
    as (w' & v' & E & _ & _ & _ & D).
  - right; right. exists (Profile.mk 12 2 "Staff"), "staff".
    split; [reflexivity | split; [simpl; auto | reflexivity]].
  - reflexivity.
  - reflexivity.
  - reflexivity.
  - simpl; auto.
  - reflexivity.
  - reflexivity.
  - simpl; auto.
  - reflexivity.
  - reflexivity.
  - reflexivity.
  - reflexivity.
  - exists w', v'. split; [exact E | exact D].
Defined.

(** ** A located vehicle shows up in the feed *)

Lemma Forall2_In_l {A B} (R : A -> B -> Prop) (l : list A) (l' : list B) (a : A) :
  Forall2 R l l' -> In a l -> exists b, In b l' /\ R a b.
Proof.
  induction 1 as [|x y l l' Hxy _ IH]; intros Hin; [contradiction|].
  destruct Hin as [<- | Hin].
  - exists y. split; [now left | assumption].
  - destruct (IH Hin) as (b & Hb & Hr). exists b. split; [now right | assumption].
Qed.

Lemma eligible_driver_stored (db : Store) (uid : Z) :
  eligible_driver db uid -> get_user db uid <> None.
Proof.
  intros (U & p & HU & Hid & _) N. unfold get_user in N.
  apply (find_none _ _ N) in HU. rewrite Hid, Z.eqb_refl in HU. discriminate.
Qed.

Lemma VehicleForm_valid_place (db : Store) (data : QueryDict) (inst : Vehicle.t) :
  is_valid (VehicleForm db data inst) = true ->
  exists P,
    clean_char None false (qd_get data "place_name") = inl P
    /\ cleaned_place_name (VehicleForm db data inst) = P.
Proof.
  unfold is_valid. destruct (errors (VehicleForm db data inst)) eqn:E; [|discriminate].
  intros _. unfold VehicleForm in *. cbn [errors cleaned_place_name] in *.
  do 6 (apply app_nil_both in E; destruct E as [_ E]).
  apply app_nil_both in E. destruct E as [E7 _].
  apply field_errors_nil in E7. destruct E7 as (P & E7).
  exists P. rewrite E7. auto.
Qed.

(** X23: a vehicle added with a place name the geocoder resolves is on the
    map at once: the next reading of the location feed has an element with
    the key of the new row, which no vehicle had before, the registration
    number, the resolved latitude and longitude and the time of the
    save. *)
Theorem add_vehicle_then_feed :
  forall (env : Env) (request next : HttpRequest) (w : World) (u : User.t)
         (lat lng : Z),
    user request = Authenticated u ->
    permits (db w) u ["admin"; "staff"] ->
    method request = POST ->
    is_valid (VehicleForm (db w) (POST_ request) Vehicle.new) = true ->
    strip (or_empty (qd_get (POST_ request) "place_name")) <> "" ->
    _GEOCODER_AVAILABLE env = true ->
    Nominatim env "vehicle_fleet_system" = Ok tt ->
    geocode env (strip (or_empty (qd_get (POST_ request) "place_name")))
    = Ok (Some (lat, lng)) ->
    drivers_exist (db w) (vehicles (db w)) ->
    user next = Authenticated u ->
    exists w' data e key saved,
      add_vehicle env request w = (Ok (Redirect "vehicle_list" None), w')
      /\ vehicle_track_data next w' = (Ok (JsonResponse data), w')
      /\ In e data
      /\ e_id e = Some key
      /\ get_vehicle (db w) key = None
      /\ get_vehicle (db w') key = Some saved
      /\ Vehicle.registration_no saved = e_reg e
      /\ clean_char (Some 30%nat) true (qd_get (POST_ request) "registration_no")
         = inl (e_reg e)
      /\ e_lat e = lat /\ e_lng e = lng
      /\ e_updated e = Some (timezone_now env).
Proof.
  intros env request next w u lat lng Hu Hp Hm V Hplace Ha Hn Hg FK Hnext.
  set (form := VehicleForm (db w) (POST_ request) Vehicle.new) in *.
  assert (Hcp : cleaned_place_name form
                = strip (or_empty (qd_get (POST_ request) "place_name"))).
  { destruct (VehicleForm_valid_place _ _ _ V) as (P & Hc & HP).
    fold form in HP. rewrite HP.
    unfold clean_char in Hc. apply truthy_true_iff in Hplace.
    rewrite Hplace in Hc. cbv zeta in Hc.
    destruct (contains _ _); [discriminate|]. now injection Hc as <-. }
  assert (Hgeo : geo_instance env form
                 = set_location lat lng (timezone_now env) (instance form)).
  { unfold geo_instance, located. rewrite Hcp.
    apply truthy_true_iff in Hplace. rewrite Hplace, Ha, Hn, Hg. reflexivity. }
  set (saved := with_id (next_vehicle_id (db w)) (geo_instance env form)).
  set (w' := mkWorld (set_vehicles (vehicles (db w) ++ [saved]) (seen_vehicle_id (next_vehicle_id (db w)) (db w))) (session w)
                     (messages w ++ ["Vehicle added."])).
  assert (E : add_vehicle env request w = (Ok (Redirect "vehicle_list" None), w')).
  { unfold add_vehicle. pass_gate Hu Hp. rewrite Hm. cbv iota zeta.
    rewrite (add_vehicle_body env request w Hm). fold form. rewrite V. reflexivity. }
  assert (Hvalid : valid_vehicle (db w) (instance form))
    by apply (VehicleForm_valid_instance _ _ _ V).
  assert (FK' : drivers_exist (db w') (vehicles (db w'))).
  { intros x uid Hx Hd. cbn [w' db set_vehicles vehicles] in Hx.
    change (get_user (db w') uid) with (get_user (db w) uid).
    apply in_app_or in Hx. destruct Hx as [Hx | [<- | []]].
    - exact (FK x uid Hx Hd).
    - apply eligible_driver_stored.
      destruct Hvalid as (_ & _ & _ & _ & _ & _ & Hdrv). apply Hdrv.
      unfold saved in Hd. rewrite Hgeo in Hd. exact Hd. }
  assert (Hp' : permits (db w') u ["admin"; "staff"])
    by (apply (permits_same_profiles (db w)); [reflexivity | exact Hp]).
  destruct (track_loop_spec (db w') (vehicles (db w')) FK' []) as (data & T & F).
  assert (Hfeed : vehicle_track_data next w' = (Ok (JsonResponse data), w')).
  { unfold vehicle_track_data. pass_gate Hnext Hp'.
    unfold bind, read_db, lift. rewrite T. reflexivity. }
  assert (Hin : In saved (filter has_position (vehicles (db w')))).
  { apply filter_In. split.
    - cbn [w' db set_vehicles vehicles]. apply in_or_app. right. now left.
    - unfold saved. rewrite Hgeo. reflexivity. }
  destruct (Forall2_In_l _ _ _ _ F Hin) as (e & He & la & lo & Hla & Hlo & ->).
  assert (Hget : get_vehicle (db w') (next_vehicle_id (db w)) = Some saved).
  { unfold get_vehicle. cbn [w' db set_vehicles vehicles]. apply find_app_last.
    - intros y Hy. apply opt_Z_eqb_neq. intros Hid.
      pose proof (next_vehicle_id_fresh _ _ _ Hy Hid). lia.
    - apply opt_Z_eqb_eq. reflexivity. }
  exists w', data. eexists. exists (next_vehicle_id (db w)), saved.
  split; [exact E|]. split; [exact Hfeed|].
  split; [exact He|]. cbn [e_id e_reg e_lat e_lng e_updated].
  split; [reflexivity|]. split; [apply next_vehicle_id_unused|].
  split; [exact Hget|]. split; [reflexivity|].
  unfold saved in *. rewrite Hgeo in *.
  cbn [with_id set_location Vehicle.id Vehicle.registration_no Vehicle.latitude
       Vehicle.longitude Vehicle.last_location_time] in *.
  injection Hla as <-. injection Hlo as <-.
  split; [|repeat split].
  destruct (VehicleForm_valid_registration _ _ _ V) as (R & Hc & HR & _).
  fold form in HR. now rewrite Hc, HR.
Qed.

Lemma add_vehicle_then_feed_witness :
  exists w' data e key,
    add_vehicle Sample.env_found
      (Sample.post_as (Authenticated Sample.sam) "/admin/vehicles/add/"
         [("registration_no", "DL05CD4321"); ("status", "active");
          ("place_name", "Bengaluru")])
      Sample.world
    = (Ok (Redirect "vehicle_list" None), w')
    /\ vehicle_track_data
         (Sample.get_as (Authenticated Sample.sam) "/admin/vehicles/track-data/" []) w'
       = (Ok (JsonResponse data), w')
    /\ In e data /\ e_id e = Some key
    /\ get_vehicle Sample.store key = None /\ e_lat e = 12971599.
Proof.
  destruct (add_vehicle_then_feed Sample.env_found
              (Sample.post_as (Authenticated Sample.sam) "/admin/vehicles/add/"
                 [("registration_no", "DL05CD4321"); ("status", "active");
                  ("place_name", "Bengaluru")])
              (Sample.get_as (Authenticated Sample.sam) "/admin/vehicles/track-data/" [])
              Sample.world Sample.sam 12971599 77594563 eq_refl)
    as (w' & data & e & key & saved & E & F & Hin & Hid & N & _ & _ & _ & Hlat & _).
  - right; right. exists (Profile.mk 12 2 "Staff"), "staff".
    split; [reflexivity | split; [simpl; auto | reflexivity]].
  - reflexivity.
  - reflexivity.
  - discriminate.
  - reflexivity.
  - reflexivity.
  - reflexivity.
  - intros v uid Hv D.
    destruct Hv as [<- | [<- | [<- | []]]]; simpl in D; try discriminate;
      injection D as <-; discriminate.
  - reflexivity.
  - exists w', data, e, key. repeat split; assumption.
Defined.
